(** * china-stock-mcp-server: the response formatter and the tool wrappers

    A shallow embedding of [src/main.py] and [src/server.py].  Both files
    carry the same helper [format_dataframe_to_json] and the same wrapper
    shape, repeated once per tool:
<<
    try:
        df = ak.<callee>(<arguments>)
        return format_dataframe_to_json(df)
    except Exception as e:
        return json.dumps({"error": str(e)})
>>
    Python integers are [Z], Python strings are lists of code points,
    dictionaries are association lists in insertion order, and code that
    may raise returns a [result]. *)

From Stdlib Require Import ZArith NArith List String Ascii Bool Lia.
From Stdlib Require Import DecimalString.
Import ListNotations.

Set Implicit Arguments.

(** ** Python strings *)

(** A Python [str] is a sequence of Unicode code points. *)
Definition pystr : Type := list N.

(** An ASCII literal of the source, read as a Python [str]. *)
Definition py (s : string) : pystr := map N_of_ascii (list_ascii_of_string s).

Fixpoint pystr_eqb (a b : pystr) : bool :=
  match a, b with
  | [], [] => true
  | x :: a', y :: b' => N.eqb x y && pystr_eqb a' b'
  | _, _ => false
  end.

(** ** Python values that [json] reads and writes *)

(** [PFloat] carries the float's [repr], the text [json.dumps] writes for
    it; nothing in the repository computes with floats.  [json.loads] never
    yields a non-finite float from [to_json]'s text, which writes [null]
    for them. *)
#[warnings="-register-all"]
Inductive pyval : Type :=
| PNone
| PBool (b : bool)
| PInt (z : Z)
| PFloat (repr : string)
| PStr (s : pystr)
| PList (l : list pyval)
| PDict (kv : list (pystr * pyval)).

(** ** Exceptions and results *)

(** A raised exception: the name of its class, whether the class derives
    from [Exception] (as [ValueError] and [NameError] do, and
    [KeyboardInterrupt], [SystemExit] and [GeneratorExit] do not), and
    what [str(e)] returns. *)
Record exn : Type := mkExn {
  exn_class : string;
  is_Exception : bool;
  exn_str : pystr
}.

Inductive result (A : Type) : Type :=
| Ok (a : A)
| Raise (e : exn).

Arguments Ok {A} a.
Arguments Raise {A} e.

Definition bind {A B} (r : result A) (k : A -> result B) : result B :=
  match r with
  | Ok a => k a
  | Raise e => Raise e
  end.

Declare Scope result_scope.
Delimit Scope result_scope with result.
Notation "x <- r ;; k" := (bind r (fun x => k))
  (at level 61, r at next level, right associativity) : result_scope.

(** ** [json.dumps] with its default arguments

    Separators are [", "] and [": "], [ensure_ascii] is on: every code
    point outside [' '..'~'], and the quote and the backslash, is escaped
    (the regular expression [ESCAPE_ASCII] of [json.encoder]). *)
Module Json.

Definition quote : ascii := ascii_of_nat 34.
Definition backslash : ascii := ascii_of_nat 92.

Definition hex_digit (n : N) : ascii :=
  nth (N.to_nat n)
      (list_ascii_of_string "0123456789abcdef") "0"%char.

(** ['\\u{0:04x}'.format(n)] for [n < 0x10000]. *)
Definition u_escape (n : N) : string :=
  String backslash (String "u"
    (String (hex_digit (N.land (N.shiftr n 12) 15))
    (String (hex_digit (N.land (N.shiftr n 8) 15))
    (String (hex_digit (N.land (N.shiftr n 4) 15))
    (String (hex_digit (N.land n 15)) EmptyString))))).

Definition short_escape (c : ascii) : string :=
  String backslash (String c EmptyString).

(** The replacement of one code point, [replace] in
    [py_encode_basestring_ascii]. *)
Definition escape_char (n : N) : string :=
  if N.eqb n 34 then short_escape quote
  else if N.eqb n 92 then short_escape backslash
  else if N.eqb n 8 then short_escape "b"
  else if N.eqb n 12 then short_escape "f"
  else if N.eqb n 10 then short_escape "n"
  else if N.eqb n 13 then short_escape "r"
  else if N.eqb n 9 then short_escape "t"
  else if N.leb 32 n && N.leb n 126
    then String (ascii_of_N n) EmptyString
  else if N.ltb n 65536 then u_escape n
  else
    let m := N.sub n 65536 in
    (u_escape (N.lor 55296 (N.land (N.shiftr m 10) 1023))
     ++ u_escape (N.lor 56320 (N.land m 1023)))%string.

Definition encode_basestring_ascii (s : pystr) : string :=
  (String quote (concat EmptyString (map escape_char s))
   ++ String quote EmptyString)%string.

(** [repr] of a Python [int]. *)
Definition int_repr (z : Z) : string := NilZero.string_of_int (Z.to_int z).

Fixpoint dumps (v : pyval) : string :=
  match v with
  | PNone => "null"
  | PBool true => "true"
  | PBool false => "false"
  | PInt z => int_repr z
  | PFloat r => r
  | PStr s => encode_basestring_ascii s
  | PList l => ("[" ++ concat ", " (map dumps l) ++ "]")%string
  | PDict kv =>
      ("{" ++ concat ", "
         (map (fun p => encode_basestring_ascii (fst p) ++ ": "
                        ++ dumps (snd p)) kv)
       ++ "}")%string
  end.

End Json.


(** ** pandas tables

    A [DataFrame] as the formatter sees it: the column labels in column
    order and the rows in row order.

    A label is the Python object that [df.columns.tolist()] yields: a
    [str], an [int], or an object of another class (a [date], a
    [Timestamp], [bytes], ...), which [json.dumps] cannot write.
    [to_json] writes every label as a key; for an object of another class
    the text of that key is carried with it.

    A cell is seen through [to_json] only.  [Written v]: [to_json] writes
    the cell, and [json.loads] reads [v] back from that text ([None] for a
    missing or non-finite value, a number, a [str], a [bool]; [to_json]
    rounds floats to ten decimals and writes dates as epoch milliseconds, so
    [v] need not be the value the table holds).  [Refused e]: [to_json]
    raises [e] on the cell (an object or a dtype it does not support).

    pandas admits tables without columns that still have rows, and tables
    with repeated labels; so does this type. *)
Inductive label : Type :=
| LStr (s : pystr)
| LInt (z : Z)
| LObject (type_name : string) (key : pystr).

Inductive cell : Type :=
| Written (v : pyval)
| Refused (e : exn).

Record DataFrame : Type := mkDataFrame {
  columns : list label;
  rows : list (list cell)
}.

Module Pandas.

(** [len(df)]: the number of rows. *)
Definition len (df : DataFrame) : Z := Z.of_nat (List.length (rows df)).

(** [df.empty]: true when either axis has length 0. *)
Definition empty (df : DataFrame) : bool :=
  Nat.eqb (List.length (rows df)) 0 || Nat.eqb (List.length (columns df)) 0.

(** The Python slice [l[:n]]: a negative [n] counts from the end. *)
Definition slice_to {A : Type} (n : Z) (l : list A) : list A :=
  if (n <? 0)%Z
  then firstn (Z.to_nat (Z.of_nat (List.length l) + n)) l
  else firstn (Z.to_nat n) l.

(** [df.head(n)] is [df.iloc[:n]]: a new table, the argument is left
    as it was. *)
Definition head (n : Z) (df : DataFrame) : DataFrame :=
  mkDataFrame (columns df) (slice_to n (rows df)).

(** Equality of labels: an [int] is never equal to a [str]. *)
Definition label_eqb (a b : label) : bool :=
  match a, b with
  | LStr s, LStr s' => pystr_eqb s s'
  | LInt z, LInt z' => Z.eqb z z'
  | LObject c k, LObject c' k' => String.eqb c c' && pystr_eqb k k'
  | _, _ => false
  end.

(** [df.columns.is_unique]. *)
Fixpoint is_unique (labels : list label) : bool :=
  match labels with
  | [] => true
  | c :: rest => negb (existsb (label_eqb c) rest) && is_unique rest
  end.

(** The key that [to_json] writes for a label. *)
Definition label_key (l : label) : pystr :=
  match l with
  | LStr s => s
  | LInt z => py (Json.int_repr z)
  | LObject _ key => key
  end.

(** The label as a value that [json.dumps] writes, if it is one. *)
Definition label_value (l : label) : option pyval :=
  match l with
  | LStr s => Some (PStr s)
  | LInt z => Some (PInt z)
  | LObject _ _ => None
  end.

(** [d[k] = v] on a dictionary: a key that is there keeps its place and
    takes the new value. *)
Fixpoint dict_set (k : pystr) (v : pyval) (d : list (pystr * pyval))
  : list (pystr * pyval) :=
  match d with
  | [] => [(k, v)]
  | (k', v') :: rest =>
      if pystr_eqb k k' then (k', v) :: rest
      else (k', v') :: dict_set k v rest
  end.

(** One row as [json.loads] reads it back from [orient="records"]: key
    to value, in column order; of two columns written under the same key
    the later one is kept. *)
Definition record (labels : list label) (values : list pyval) : pyval :=
  PDict (fold_left (fun d kv => dict_set (fst kv) (snd kv) d)
                   (combine (map label_key labels) values) []).

(** The cells of a row, from left to right, as [to_json] writes them. *)
Fixpoint read_row (row : list cell) : result (list pyval) :=
  match row with
  | [] => Ok []
  | Written v :: rest => (vs <- read_row rest ;; Ok (v :: vs))%result
  | Refused e :: _ => Raise e
  end.

(** The rows, from top to bottom, as records. *)
Fixpoint records (labels : list label) (rs : list (list cell))
  : result (list pyval) :=
  match rs with
  | [] => Ok []
  | row :: rest =>
      (vs <- read_row row ;;
       ds <- records labels rest ;;
       Ok (record labels vs :: ds))%result
  end.

Definition columns_not_unique : exn :=
  mkExn "ValueError" true
        (py "DataFrame columns must be unique for orient='records'.").

(** [json.loads(df.to_json(orient="records"))]: one dictionary per row,
    in row order.  [to_json] refuses repeated column labels for this
    orientation with a [ValueError], before it writes anything. *)
Definition to_json_records (df : DataFrame) : result (list pyval) :=
  if is_unique (columns df)
  then records (columns df) (rows df)
  else Raise columns_not_unique.

(** [json.dumps] on an object of a class it does not know. *)
Definition not_serializable (type_name : string) : exn :=
  mkExn "TypeError" true
        (py "Object of type " ++ py type_name
         ++ py " is not JSON serializable").

(** [df.columns.tolist()] as [json.dumps] writes it: the labels in column
    order, up to the first one of a class it does not know. *)
Fixpoint tolist (labels : list label) : result (list pyval) :=
  match labels with
  | [] => Ok []
  | LStr s :: rest => (vs <- tolist rest ;; Ok (PStr s :: vs))%result
  | LInt z :: rest => (vs <- tolist rest ;; Ok (PInt z :: vs))%result
  | LObject type_name _ :: _ => Raise (not_serializable type_name)
  end.

(** No cell of these rows is one that [to_json] refuses. *)
Definition cells_written (rs : list (list cell)) : bool :=
  forallb (forallb (fun c => match c with
                             | Written _ => true
                             | Refused _ => false
                             end)) rs.

(** Every label is of a class that [json.dumps] writes. *)
Definition labels_writable (labels : list label) : bool :=
  forallb (fun l => match label_value l with
                    | Some _ => true
                    | None => false
                    end) labels.

(** The table has nothing that [to_json] or [json.dumps] raises on. *)
Definition writable (df : DataFrame) : bool :=
  labels_writable (columns df) && cells_written (rows df).

End Pandas.

(** ** The response formatter *)

Definition default_max_rows : Z := 50.

(** [{"error": "No data available"}] *)
Definition no_data : pyval :=
  PDict [(py "error", PStr (py "No data available"))].

(** The dictionary [result] of the source, field by field, with the
    labels as [json.dumps] writes them. *)
Definition success (data : list pyval) (cols : list pyval) (truncated : bool)
    (total_rows displayed_rows : Z) : pyval :=
  PDict [ (py "data", PList data);
          (py "columns", PList cols);
          (py "truncated", PBool truncated);
          (py "total_rows", PInt total_rows);
          (py "displayed_rows", PInt displayed_rows) ].

(** [df] is [None] or a table.  The local name [df] is bound again to the
    result of [head] before [len(df)] is read for [total_rows].  The
    dictionary [result] is built from left to right, so [to_json] runs
    first; [json.dumps(result)] then meets the labels of
    [df.columns.tolist()], the only objects in [result] that may be of a
    class it does not know. *)
Definition format_dataframe_to_json (df : option DataFrame) (max_rows : Z)
  : result string :=
  match df with
  | None => Ok (Json.dumps no_data)
  | Some df =>
      if Pandas.empty df then Ok (Json.dumps no_data)
      else
        let (df, truncated) :=
          if (Pandas.len df >? max_rows)%Z
          then (Pandas.head max_rows df, true)
          else (df, false) in
        (data <- Pandas.to_json_records df ;;
         cols <- Pandas.tolist (columns df) ;;
         let result :=
           success data cols truncated (Pandas.len df)
                   (Z.min max_rows (Pandas.len df)) in
         Ok (Json.dumps result))%result
  end.

(** The dictionary that the [return json.dumps(...)] reached by
    [format_dataframe_to_json] serialises, when it does. *)
Definition response (df : option DataFrame) (max_rows : Z) : result pyval :=
  match df with
  | None => Ok no_data
  | Some df =>
      if Pandas.empty df then Ok no_data
      else
        let (df, truncated) :=
          if (Pandas.len df >? max_rows)%Z
          then (Pandas.head max_rows df, true)
          else (df, false) in
        (data <- Pandas.to_json_records df ;;
         cols <- Pandas.tolist (columns df) ;;
         Ok (success data cols truncated (Pandas.len df)
                     (Z.min max_rows (Pandas.len df))))%result
  end.

(** Reading a key of a dictionary, [d.get(k)]. *)
Fixpoint lookup (k : pystr) (kv : list (pystr * pyval)) : option pyval :=
  match kv with
  | [] => None
  | (k', v) :: rest => if pystr_eqb k k' then Some v else lookup k rest
  end.

Definition field (k : string) (v : pyval) : option pyval :=
  match v with
  | PDict kv => lookup (py k) kv
  | _ => None
  end.

(** ** Tool wrappers *)

(** Python identifiers: names of parameters, keywords and functions. *)
Definition ident : Type := string.

(** An argument of the wrapped call as the source writes it: a name or a
    literal. *)
Inductive expr : Type :=
| Name (x : ident)
| Const (v : pyval).

(** One call into the external library [ak]. *)
Record call : Type := mkCall {
  callee : ident;
  args : list pyval;
  kwargs : list (ident * pyval)
}.

(** A registered wrapper.  [today_if_none] names the variable of the
    statement [if date is None: date = datetime.now().strftime("%Y%m%d")]
    that one wrapper has before its call. *)
Record tool : Type := mkTool {
  tool_name : ident;
  params : list (ident * option pyval);
  today_if_none : option ident;
  ak_function : ident;
  positional : list expr;
  keywords : list (ident * expr)
}.

(** The local variables of a running wrapper. *)
Definition frame : Type := list (ident * pyval).

Module Frame.

Fixpoint get (x : ident) (f : frame) : option pyval :=
  match f with
  | [] => None
  | (y, v) :: rest => if String.eqb x y then Some v else get x rest
  end.

Fixpoint set (x : ident) (v : pyval) (f : frame) : frame :=
  match f with
  | [] => [(x, v)]
  | (y, w) :: rest =>
      if String.eqb x y then (y, v) :: rest else (y, w) :: set x v rest
  end.

(** Python binds each parameter to the supplied argument or else to its
    default; a parameter with neither makes the call itself fail, before
    the body runs. *)
Fixpoint bind_arguments (ps : list (ident * option pyval))
    (supplied : frame) : option frame :=
  match ps with
  | [] => Some []
  | (p, default) :: rest =>
      match (match get p supplied with Some v => Some v | None => default end),
            bind_arguments rest supplied with
      | Some v, Some f => Some ((p, v) :: f)
      | _, _ => None
      end
  end.

End Frame.

Definition name_error (x : ident) : exn :=
  mkExn "NameError" true
        (py "name '" ++ py x ++ py "' is not defined").

(** No wrapper reads a module-level name as an argument: a name that is
    not a local variable is undefined. *)
Definition eval (f : frame) (e : expr) : result pyval :=
  match e with
  | Const v => Ok v
  | Name x => match Frame.get x f with
              | Some v => Ok v
              | None => Raise (name_error x)
              end
  end.

Fixpoint eval_args (f : frame) (es : list expr) : result (list pyval) :=
  match es with
  | [] => Ok []
  | e :: rest =>
      (v <- eval f e ;; vs <- eval_args f rest ;; Ok (v :: vs))%result
  end.

Fixpoint eval_kwargs (f : frame) (es : list (ident * expr))
  : result (list (ident * pyval)) :=
  match es with
  | [] => Ok []
  | (k, e) :: rest =>
      (v <- eval f e ;; vs <- eval_kwargs f rest ;; Ok ((k, v) :: vs))%result
  end.

(** [{"error": str(e)}], serialised. *)
Definition error_json (e : exn) : string :=
  Json.dumps (PDict [(py "error", PStr (exn_str e))]).

(** Computations that call the external library: the calls made so far,
    in order, and a value or the exception that stopped them. *)
Definition M (A : Type) : Type := (list call * result A)%type.

Definition ret {A} (a : A) : M A := ([], Ok a).

Definition lift {A} (r : result A) : M A := ([], r).

Definition bindM {A B} (m : M A) (k : A -> M B) : M B :=
  match m with
  | (tr, Ok a) => let (tr', r) := k a in (tr ++ tr', r)
  | (tr, Raise e) => (tr, Raise e)
  end.

Declare Scope tool_scope.
Delimit Scope tool_scope with tool.
Notation "x <- m ;; k" := (bindM m (fun x => k))
  (at level 61, m at next level, right associativity) : tool_scope.

(** [try: body  except Exception as e: return handler(e)]: an exception
    whose class does not derive from [Exception] passes through. *)
Definition try_except (body : M string) (handler : exn -> string)
  : list call * result string :=
  match body with
  | (tr, Ok s) => (tr, Ok s)
  | (tr, Raise e) =>
      if is_Exception e then (tr, Ok (handler e)) else (tr, Raise e)
  end.

Section World.

(** What the library answers to a call (it goes to the network): a table,
    [None], or an exception. *)
Variable ak : call -> result (option DataFrame).

(** [datetime.now().strftime("%Y%m%d")] at the time of the call. *)
Variable today : pystr.

Definition external (c : call) : M (option DataFrame) := ([c], ak c).

(** The statements before the call. *)
Definition prelude (t : tool) (f : frame) : result frame :=
  match today_if_none t with
  | None => Ok f
  | Some x =>
      (v <- eval f (Name x) ;;
       match v with
       | PNone => Ok (Frame.set x (PStr today) f)
       | _ => Ok f
       end)%result
  end.

(** The call the wrapper writes, with its arguments evaluated from left
    to right. *)
Definition prepare (t : tool) (f : frame) : result call :=
  (f' <- prelude t f ;;
   a <- eval_args f' (positional t) ;;
   kw <- eval_kwargs f' (keywords t) ;;
   Ok (mkCall (ak_function t) a kw))%result.

(** The body of a wrapper, started with its parameters bound as [f]:
    the calls it makes, and the string it returns or the exception that
    leaves it. *)
Definition run (t : tool) (f : frame) : list call * result string :=
  try_except
    (c <- lift (prepare t f) ;;
     df <- external c ;;
     lift (format_dataframe_to_json df default_max_rows))%tool
    error_json.

(** A tool invoked with the arguments a caller supplies. *)
Definition invoke (t : tool) (supplied : frame)
  : option (list call * result string) :=
  match Frame.bind_arguments (params t) supplied with
  | Some f => Some (run t f)
  | None => None
  end.

End World.

(** ** Wrappers of the source

    [src/main.py] registers 44 tools and [src/server.py] 351, all of the
    shape above.  The ones below are those the properties name, and one of
    each way in which a wrapper of [src/server.py] departs from plain
    forwarding. *)

Local Open Scope string_scope.

Definition str_param (p : ident) (default : string) : ident * option pyval :=
  (p, Some (PStr (py default))).

Module Main.

(** [def stock_sse_summary()]: [ak.stock_sse_summary()] *)
Definition stock_sse_summary : tool :=
  mkTool "stock_sse_summary" [] None "stock_sse_summary" [] [].

(** [def stock_szse_summary(date: str)]:
    [ak.stock_szse_summary(date=date)] *)
Definition stock_szse_summary : tool :=
  mkTool "stock_szse_summary" [("date", None)] None
         "stock_szse_summary" [] [("date", Name "date")].

End Main.

Module Server.

Definition stock_sse_summary : tool := Main.stock_sse_summary.

Definition stock_szse_summary : tool := Main.stock_szse_summary.

(** [def stock_notice_report(symbol: str = "全部", date: str = None)]:
    [date] is set to today's date when it is [None], then
    [ak.stock_notice_report(symbol=symbol, date=date)] *)
Definition stock_notice_report : tool :=
  mkTool "stock_notice_report"
         [("symbol", Some (PStr [20840; 37096]%N)); ("date", Some PNone)]
         (Some "date")
         "stock_notice_report" []
         [("symbol", Name "symbol"); ("date", Name "date")].

(** [def stock_hk_daily()]: [ak.stock_hk_daily(symbol=symbol)] *)
Definition stock_hk_daily : tool :=
  mkTool "stock_hk_daily" [] None
         "stock_hk_daily" [] [("symbol", Name "symbol")].

(** [def news_report_time_baidu(date: str = "20241107")]:
    [ak.news_report_time_baidu(date="20241107")] *)
Definition news_report_time_baidu : tool :=
  mkTool "news_report_time_baidu" [str_param "date" "20241107"] None
         "news_report_time_baidu" []
         [("date", Const (PStr (py "20241107")))].

(** [def stock_hk_hist(symbol: str = "01611", period: str = "daily",
    adjust: str = "", start_date: str = "1979-09-01 09:32:00",
    end_date: str = "2222-01-01 09:32:00")]: [ak.stock_hk_hist()] *)
Definition stock_hk_hist : tool :=
  mkTool "stock_hk_hist"
         [str_param "symbol" "01611"; str_param "period" "daily";
          str_param "adjust" "";
          str_param "start_date" "1979-09-01 09:32:00";
          str_param "end_date" "2222-01-01 09:32:00"]
         None
         "stock_hk_hist" [] [].

(** [def stock_zygc_em(symbol: str = "000001", date: str = "20231231")]:
    [ak.stock_zygc_em(symbol)] *)
Definition stock_zygc_em : tool :=
  mkTool "stock_zygc_em"
         [str_param "symbol" "000001"; str_param "date" "20231231"] None
         "stock_zygc_em" [Name "symbol"] [].

(** [def stock_zh_vote_baidu(symbol: str = "000001",
    indicator: str = "指数")]: [ak.stock_zh_vote_baidu(symbo, indicator)] *)
Definition stock_zh_vote_baidu : tool :=
  mkTool "stock_zh_vote_baidu"
         [str_param "symbol" "000001";
          ("indicator", Some (PStr [25351; 25968]%N))] None
         "stock_zh_vote_baidu" [Name "symbo"; Name "indicator"] [].

End Server.

(** A wrapper forwards its parameters when the call names each of them
    once as a keyword of the same name, as [stock_szse_summary] does, and
    has nothing else. *)
Definition forwards_parameters (t : tool) : Prop :=
  today_if_none t = None /\
  positional t = [] /\
  keywords t = map (fun x => (x, Name x)) (map fst (params t)).

(** ** The formatter over the interpreter's objects

    The same function, read with tables as objects that have an identity:
    [df] is a reference, [df.head(max_rows)] makes a new object and the
    local name [df] is bound to it, every other use of [df] only reads.  The
    lists, dictionaries and strings built on the way are new and never
    shared. *)
Module Store.

Definition ref : Type := nat.

(** The tables that exist, by identity. *)
Definition heap : Type := list DataFrame.

Definition deref (h : heap) (r : ref) : option DataFrame := nth_error h r.

Definition alloc (h : heap) (d : DataFrame) : heap * ref :=
  ((h ++ [d])%list, List.length h).

(** [None] when [df] names no object, which Python rules out. *)
Definition format_dataframe_to_json (h : heap) (df : option ref)
    (max_rows : Z) : option (heap * result string) :=
  match df with
  | None => Some (h, Ok (Json.dumps no_data))
  | Some r =>
      match deref h r with
      | None => None
      | Some d =>
          if Pandas.empty d then Some (h, Ok (Json.dumps no_data))
          else
            let '(h1, r1, truncated) :=
              if (Pandas.len d >? max_rows)%Z
              then let (h1, r1) := alloc h (Pandas.head max_rows d) in
                   (h1, r1, true)
              else (h, r, false) in
            match deref h1 r1 with
            | None => None
            | Some d1 =>
                Some (h1,
                      (data <- Pandas.to_json_records d1 ;;
                       cols <- Pandas.tolist (columns d1) ;;
                       Ok (Json.dumps
                             (success data cols truncated
                                      (Pandas.len d1)
                                      (Z.min max_rows (Pandas.len d1)))))%result)
            end
      end
  end.

(** Every object of [h] is still there, unchanged, in [h']. *)
Definition preserved (h h' : heap) : Prop :=
  forall r d, deref h r = Some d -> deref h' r = Some d.

End Store.

(** ** The registries

    Every function that [src/main.py] and [src/server.py] register with
    [@mcp.tool()], in the order of the files.  Each has the wrapper shape:
    the statements of its [try] block are the assignment of the call to
    [df] and [return format_dataframe_to_json(df)], and its handler is
    [return json.dumps({"error": str(e)})]. *)

Module MainTools.

(** [main.py] line 37: [def stock_sse_summary()] calls
    [ak.stock_sse_summary()] *)
Definition stock_sse_summary : tool := Main.stock_sse_summary.

(** [main.py] line 57: [def stock_szse_summary(date: str)] calls
    [ak.stock_szse_summary(date=date)] *)
Definition stock_szse_summary : tool := Main.stock_szse_summary.

(** [main.py] line 78: [def stock_zh_a_spot_em()] calls
    [ak.stock_zh_a_spot_em()] *)
Definition stock_zh_a_spot_em : tool :=
  mkTool "stock_zh_a_spot_em" [] None "stock_zh_a_spot_em" [] [].

(** [main.py] line 104: [def stock_szse_area_summary(date: str)] calls
    [ak.stock_szse_area_summary(date=date)] *)
Definition stock_szse_area_summary : tool :=
  mkTool "stock_szse_area_summary"
    [("date", None)]
    None "stock_szse_area_summary" []
    [("date", Name "date")].

(** [main.py] line 127: [def stock_zh_a_daily(symbol: str, start_date: str,
    end_date: str, adjust: str='')] calls [ak.stock_zh_a_daily(symbol=symbol,
    start_date=start_date, end_date=end_date, adjust=adjust)] *)
Definition stock_zh_a_daily : tool :=
  mkTool "stock_zh_a_daily"
    [("symbol", None); ("start_date", None); ("end_date", None);
     ("adjust", Some (PStr (py "")))]
    None "stock_zh_a_daily" []
    [("symbol", Name "symbol"); ("start_date", Name "start_date");
     ("end_date", Name "end_date"); ("adjust", Name "adjust")].

(** [main.py] line 157: [def stock_zh_a_spot(symbol: str)] calls
    [ak.stock_zh_a_spot(symbol=symbol)] *)
Definition stock_zh_a_spot : tool :=
  mkTool "stock_zh_a_spot"
    [("symbol", None)]
    None "stock_zh_a_spot" []
    [("symbol", Name "symbol")].

(** [main.py] line 173: [def stock_bj_a_spot_em()] calls
    [ak.stock_bj_a_spot_em()] *)
Definition stock_bj_a_spot_em : tool :=
  mkTool "stock_bj_a_spot_em" [] None "stock_bj_a_spot_em" [] [].

(** [main.py] line 186: [def stock_individual_info_em(symbol: str)] calls
    [ak.stock_individual_info_em(symbol=symbol)] *)
Definition stock_individual_info_em : tool :=
  mkTool "stock_individual_info_em"
    [("symbol", None)]
    None "stock_individual_info_em" []
    [("symbol", Name "symbol")].

(** [main.py] line 207: [def stock_bid_ask_em(symbol: str)] calls
    [ak.stock_bid_ask_em(symbol=symbol)] *)
Definition stock_bid_ask_em : tool :=
  mkTool "stock_bid_ask_em"
    [("symbol", None)]
    None "stock_bid_ask_em" []
    [("symbol", Name "symbol")].

(** [main.py] line 226: [def stock_szse_sector_summary(symbol: str, date:
    str)] calls [ak.stock_szse_sector_summary(symbol=symbol, date=date)] *)
Definition stock_szse_sector_summary : tool :=
  mkTool "stock_szse_sector_summary"
    [("symbol", None); ("date", None)]
    None "stock_szse_sector_summary" []
    [("symbol", Name "symbol"); ("date", Name "date")].

(** [main.py] line 247: [def stock_sse_deal_daily(date: str=None)] calls
    [ak.stock_sse_deal_daily(date=date)] *)
Definition stock_sse_deal_daily : tool :=
  mkTool "stock_sse_deal_daily"
    [("date", Some PNone)]
    None "stock_sse_deal_daily" []
    [("date", Name "date")].

(** [main.py] line 267: [def stock_zh_a_minute(symbol: str, period: str,
    adjust: str='')] calls [ak.stock_zh_a_minute(symbol=symbol, period=period,
    adjust=adjust)] *)
Definition stock_zh_a_minute : tool :=
  mkTool "stock_zh_a_minute"
    [("symbol", None); ("period", None); ("adjust", Some (PStr (py "")))]
    None "stock_zh_a_minute" []
    [("symbol", Name "symbol"); ("period", Name "period");
     ("adjust", Name "adjust")].

(** [main.py] line 291: [def stock_zh_a_hist_min_em(symbol: str, start_date:
    str, end_date: str, period: str='1')] calls
    [ak.stock_zh_a_hist_min_em(symbol=symbol, period=period,
    start_date=start_date, end_date=end_date)] *)
Definition stock_zh_a_hist_min_em : tool :=
  mkTool "stock_zh_a_hist_min_em"
    [("symbol", None); ("start_date", None); ("end_date", None);
     ("period", Some (PStr (py "1")))]
    None "stock_zh_a_hist_min_em" []
    [("symbol", Name "symbol"); ("period", Name "period");
     ("start_date", Name "start_date"); ("end_date", Name "end_date")].

(** [main.py] line 317: [def stock_intraday_em(symbol: str)] calls
    [ak.stock_intraday_em(symbol=symbol)] *)
Definition stock_intraday_em : tool :=
  mkTool "stock_intraday_em"
    [("symbol", None)]
    None "stock_intraday_em" []
    [("symbol", Name "symbol")].

(** [main.py] line 337: [def stock_zh_a_new()] calls [ak.stock_zh_a_new()]
    *)
Definition stock_zh_a_new : tool :=
  mkTool "stock_zh_a_new" [] None "stock_zh_a_new" [] [].

(** [main.py] line 356: [def stock_zh_a_st_em()] calls
    [ak.stock_zh_a_st_em()] *)
Definition stock_zh_a_st_em : tool :=
  mkTool "stock_zh_a_st_em" [] None "stock_zh_a_st_em" [] [].

(** [main.py] line 375: [def stock_zh_a_stop_em()] calls
    [ak.stock_zh_a_stop_em()] *)
Definition stock_zh_a_stop_em : tool :=
  mkTool "stock_zh_a_stop_em" [] None "stock_zh_a_stop_em" [] [].

(** [main.py] line 393: [def stock_zh_ah_spot_em()] calls
    [ak.stock_zh_ah_spot_em()] *)
Definition stock_zh_ah_spot_em : tool :=
  mkTool "stock_zh_ah_spot_em" [] None "stock_zh_ah_spot_em" [] [].

(** [main.py] line 412: [def stock_us_spot_em()] calls
    [ak.stock_us_spot_em()] *)
Definition stock_us_spot_em : tool :=
  mkTool "stock_us_spot_em" [] None "stock_us_spot_em" [] [].

(** [main.py] line 431: [def stock_us_hist(symbol: str, start_date: str,
    end_date: str, adjust: str='')] calls [ak.stock_us_hist(symbol=symbol,
    start_date=start_date, end_date=end_date, adjust=adjust)] *)
Definition stock_us_hist : tool :=
  mkTool "stock_us_hist"
    [("symbol", None); ("start_date", None); ("end_date", None);
     ("adjust", Some (PStr (py "")))]
    None "stock_us_hist" []
    [("symbol", Name "symbol"); ("start_date", Name "start_date");
     ("end_date", Name "end_date"); ("adjust", Name "adjust")].

(** [main.py] line 456: [def stock_sector_spot(indicator: str='板块涨幅')] calls
    [ak.stock_sector_spot(indicator=indicator)] *)
Definition stock_sector_spot : tool :=
  mkTool "stock_sector_spot"
    [("indicator", Some (PStr [26495; 22359; 28072; 24133]%N))]
    None "stock_sector_spot" []
    [("indicator", Name "indicator")].

(** [main.py] line 477: [def stock_sector_detail(sector: str)] calls
    [ak.stock_sector_detail(sector=sector)] *)
Definition stock_sector_detail : tool :=
  mkTool "stock_sector_detail"
    [("sector", None)]
    None "stock_sector_detail" []
    [("sector", Name "sector")].

(** [main.py] line 498: [def stock_individual_fund_flow(stock: str)] calls
    [ak.stock_individual_fund_flow(stock=stock)] *)
Definition stock_individual_fund_flow : tool :=
  mkTool "stock_individual_fund_flow"
    [("stock", None)]
    None "stock_individual_fund_flow" []
    [("stock", Name "stock")].

(** [main.py] line 519: [def stock_market_fund_flow()] calls
    [ak.stock_market_fund_flow()] *)
Definition stock_market_fund_flow : tool :=
  mkTool "stock_market_fund_flow" [] None "stock_market_fund_flow" [] [].

(** [main.py] line 537: [def stock_sector_fund_flow_rank()] calls
    [ak.stock_sector_fund_flow_rank()] *)
Definition stock_sector_fund_flow_rank : tool :=
  mkTool "stock_sector_fund_flow_rank"
    []
    None "stock_sector_fund_flow_rank" []
    [].

(** [main.py] line 554: [def stock_board_concept_name_em()] calls
    [ak.stock_board_concept_name_em()] *)
Definition stock_board_concept_name_em : tool :=
  mkTool "stock_board_concept_name_em"
    []
    None "stock_board_concept_name_em" []
    [].

(** [main.py] line 572: [def stock_board_concept_cons_em(symbol: str)] calls
    [ak.stock_board_concept_cons_em(symbol=symbol)] *)
Definition stock_board_concept_cons_em : tool :=
  mkTool "stock_board_concept_cons_em"
    [("symbol", None)]
    None "stock_board_concept_cons_em" []
    [("symbol", Name "symbol")].

(** [main.py] line 593: [def stock_board_industry_name_em()] calls
    [ak.stock_board_industry_name_em()] *)
Definition stock_board_industry_name_em : tool :=
  mkTool "stock_board_industry_name_em"
    []
    None "stock_board_industry_name_em" []
    [].

(** [main.py] line 611: [def stock_board_industry_cons_em(symbol: str)]
    calls [ak.stock_board_industry_cons_em(symbol=symbol)] *)
Definition stock_board_industry_cons_em : tool :=
  mkTool "stock_board_industry_cons_em"
    [("symbol", None)]
    None "stock_board_industry_cons_em" []
    [("symbol", Name "symbol")].

(** [main.py] line 632: [def stock_financial_analysis_indicator(symbol:
    str)] calls [ak.stock_financial_analysis_indicator(symbol=symbol)] *)
Definition stock_financial_analysis_indicator : tool :=
  mkTool "stock_financial_analysis_indicator"
    [("symbol", None)]
    None "stock_financial_analysis_indicator" []
    [("symbol", Name "symbol")].

(** [main.py] line 653: [def stock_dividend_cninfo(symbol: str)] calls
    [ak.stock_dividend_cninfo(symbol=symbol)] *)
Definition stock_dividend_cninfo : tool :=
  mkTool "stock_dividend_cninfo"
    [("symbol", None)]
    None "stock_dividend_cninfo" []
    [("symbol", Name "symbol")].

(** [main.py] line 674: [def stock_margin_sse()] calls
    [ak.stock_margin_sse()] *)
Definition stock_margin_sse : tool :=
  mkTool "stock_margin_sse" [] None "stock_margin_sse" [] [].

(** [main.py] line 692: [def stock_institute_hold(quarter: str='')] calls
    [ak.stock_institute_hold(quarter=quarter)] *)
Definition stock_institute_hold : tool :=
  mkTool "stock_institute_hold"
    [("quarter", Some (PStr (py "")))]
    None "stock_institute_hold" []
    [("quarter", Name "quarter")].

(** [main.py] line 714: [def stock_analyst_detail_em(symbol: str)] calls
    [ak.stock_analyst_detail_em(symbol=symbol)] *)
Definition stock_analyst_detail_em : tool :=
  mkTool "stock_analyst_detail_em"
    [("symbol", None)]
    None "stock_analyst_detail_em" []
    [("symbol", Name "symbol")].

(** [main.py] line 736: [def stock_news_em()] calls [ak.stock_news_em()] *)
Definition stock_news_em : tool :=
  mkTool "stock_news_em" [] None "stock_news_em" [] [].

(** [main.py] line 753: [def stock_notice_report()] calls
    [ak.stock_notice_report()] *)
Definition stock_notice_report : tool :=
  mkTool "stock_notice_report" [] None "stock_notice_report" [] [].

(** [main.py] line 771: [def stock_individual_fund_flow_rank()] calls
    [ak.stock_individual_fund_flow_rank()] *)
Definition stock_individual_fund_flow_rank : tool :=
  mkTool "stock_individual_fund_flow_rank"
    []
    None "stock_individual_fund_flow_rank" []
    [].

(** [main.py] line 792: [def stock_market_activity_legu()] calls
    [ak.stock_market_activity_legu()] *)
Definition stock_market_activity_legu : tool :=
  mkTool "stock_market_activity_legu"
    []
    None "stock_market_activity_legu" []
    [].

(** [main.py] line 810: [def stock_hk_spot_em()] calls
    [ak.stock_hk_spot_em()] *)
Definition stock_hk_spot_em : tool :=
  mkTool "stock_hk_spot_em" [] None "stock_hk_spot_em" [] [].

(** [main.py] line 830: [def stock_hk_daily(symbol: str)] calls
    [ak.stock_hk_daily(symbol=symbol)] *)
Definition stock_hk_daily : tool :=
  mkTool "stock_hk_daily"
    [("symbol", None)]
    None "stock_hk_daily" []
    [("symbol", Name "symbol")].

(** [main.py] line 853: [def stock_us_daily(symbol: str)] calls
    [ak.stock_us_daily(symbol=symbol)] *)
Definition stock_us_daily : tool :=
  mkTool "stock_us_daily"
    [("symbol", None)]
    None "stock_us_daily" []
    [("symbol", Name "symbol")].

(** [main.py] line 876: [def stock_repurchase_em()] calls
    [ak.stock_repurchase_em()] *)
Definition stock_repurchase_em : tool :=
  mkTool "stock_repurchase_em" [] None "stock_repurchase_em" [] [].

(** [main.py] line 895: [def stock_margin_underlying_info_szse()] calls
    [ak.stock_margin_underlying_info_szse()] *)
Definition stock_margin_underlying_info_szse : tool :=
  mkTool "stock_margin_underlying_info_szse"
    []
    None "stock_margin_underlying_info_szse" []
    [].

(** [main.py] line 912: [def stock_account_statistics_em()] calls
    [ak.stock_account_statistics_em()] *)
Definition stock_account_statistics_em : tool :=
  mkTool "stock_account_statistics_em"
    []
    None "stock_account_statistics_em" []
    [].

(** The tools that [main.py] registers, in the order of the file. *)
Definition tools : list tool :=
  [stock_sse_summary; stock_szse_summary; stock_zh_a_spot_em;
   stock_szse_area_summary; stock_zh_a_daily; stock_zh_a_spot;
   stock_bj_a_spot_em; stock_individual_info_em; stock_bid_ask_em;
   stock_szse_sector_summary; stock_sse_deal_daily; stock_zh_a_minute;
   stock_zh_a_hist_min_em; stock_intraday_em; stock_zh_a_new;
   stock_zh_a_st_em; stock_zh_a_stop_em; stock_zh_ah_spot_em;
   stock_us_spot_em; stock_us_hist; stock_sector_spot; stock_sector_detail;
   stock_individual_fund_flow; stock_market_fund_flow;
   stock_sector_fund_flow_rank; stock_board_concept_name_em;
   stock_board_concept_cons_em; stock_board_industry_name_em;
   stock_board_industry_cons_em; stock_financial_analysis_indicator;
   stock_dividend_cninfo; stock_margin_sse; stock_institute_hold;
   stock_analyst_detail_em; stock_news_em; stock_notice_report;
   stock_individual_fund_flow_rank; stock_market_activity_legu;
   stock_hk_spot_em; stock_hk_daily; stock_us_daily; stock_repurchase_em;
   stock_margin_underlying_info_szse; stock_account_statistics_em].

End MainTools.

Module ServerTools.

(** [server.py] line 38: [def stock_sse_summary()] calls
    [ak.stock_sse_summary()] *)
Definition stock_sse_summary : tool := Server.stock_sse_summary.

(** [server.py] line 78: [def stock_szse_summary(date: str)] calls
    [ak.stock_szse_summary(date=date)] *)
Definition stock_szse_summary : tool := Server.stock_szse_summary.

(** [server.py] line 118: [def stock_zh_a_spot_em()] calls
    [ak.stock_zh_a_spot_em()] *)
Definition stock_zh_a_spot_em : tool :=
  mkTool "stock_zh_a_spot_em" [] None "stock_zh_a_spot_em" [] [].

(** [server.py] line 204: [def stock_szse_area_summary(date: str)] calls
    [ak.stock_szse_area_summary(date=date)] *)
Definition stock_szse_area_summary : tool :=
  mkTool "stock_szse_area_summary"
    [("date", None)]
    None "stock_szse_area_summary" []
    [("date", Name "date")].

(** [server.py] line 248: [def stock_zh_a_daily(symbol: str, start_date:
    str, end_date: str, adjust: str='')] calls
    [ak.stock_zh_a_daily(symbol=symbol, start_date=start_date,
    end_date=end_date, adjust=adjust)] *)
Definition stock_zh_a_daily : tool :=
  mkTool "stock_zh_a_daily"
    [("symbol", None); ("start_date", None); ("end_date", None);
     ("adjust", Some (PStr (py "")))]
    None "stock_zh_a_daily" []
    [("symbol", Name "symbol"); ("start_date", Name "start_date");
     ("end_date", Name "end_date"); ("adjust", Name "adjust")].

(** [server.py] line 326: [def stock_zh_a_spot(symbol: str)] calls
    [ak.stock_zh_a_spot(symbol=symbol)] *)
Definition stock_zh_a_spot : tool :=
  mkTool "stock_zh_a_spot"
    [("symbol", None)]
    None "stock_zh_a_spot" []
    [("symbol", Name "symbol")].

(** [server.py] line 360: [def stock_bj_a_spot_em()] calls
    [ak.stock_bj_a_spot_em()] *)
Definition stock_bj_a_spot_em : tool :=
  mkTool "stock_bj_a_spot_em" [] None "stock_bj_a_spot_em" [] [].

(** [server.py] line 430: [def stock_individual_info_em(symbol: str)] calls
    [ak.stock_individual_info_em(symbol=symbol)] *)
Definition stock_individual_info_em : tool :=
  mkTool "stock_individual_info_em"
    [("symbol", None)]
    None "stock_individual_info_em" []
    [("symbol", Name "symbol")].

(** [server.py] line 478: [def stock_bid_ask_em(symbol: str)] calls
    [ak.stock_bid_ask_em(symbol=symbol)] *)
Definition stock_bid_ask_em : tool :=
  mkTool "stock_bid_ask_em"
    [("symbol", None)]
    None "stock_bid_ask_em" []
    [("symbol", Name "symbol")].

(** [server.py] line 524: [def stock_szse_sector_summary(symbol: str, date:
    str)] calls [ak.stock_szse_sector_summary(symbol=symbol, date=date)] *)
Definition stock_szse_sector_summary : tool :=
  mkTool "stock_szse_sector_summary"
    [("symbol", None); ("date", None)]
    None "stock_szse_sector_summary" []
    [("symbol", Name "symbol"); ("date", Name "date")].

(** [server.py] line 574: [def stock_sse_deal_daily(date: str=None)] calls
    [ak.stock_sse_deal_daily(date=date)] *)
Definition stock_sse_deal_daily : tool :=
  mkTool "stock_sse_deal_daily"
    [("date", Some PNone)]
    None "stock_sse_deal_daily" []
    [("date", Name "date")].

(** [server.py] line 618: [def stock_zh_a_minute(symbol: str, period: str,
    adjust: str='')] calls [ak.stock_zh_a_minute(symbol=symbol, period=period,
    adjust=adjust)] *)
Definition stock_zh_a_minute : tool :=
  mkTool "stock_zh_a_minute"
    [("symbol", None); ("period", None); ("adjust", Some (PStr (py "")))]
    None "stock_zh_a_minute" []
    [("symbol", Name "symbol"); ("period", Name "period");
     ("adjust", Name "adjust")].

(** [server.py] line 652: [def stock_zh_a_hist_min_em(symbol: str,
    start_date: str, end_date: str, period: str='1', adjust: str='')] calls
    [ak.stock_zh_a_hist_min_em(symbol=symbol, period=period,
    start_date=start_date, end_date=end_date, adjust=adjust)] *)
Definition stock_zh_a_hist_min_em : tool :=
  mkTool "stock_zh_a_hist_min_em"
    [("symbol", None); ("start_date", None); ("end_date", None);
     ("period", Some (PStr (py "1"))); ("adjust", Some (PStr (py "")))]
    None "stock_zh_a_hist_min_em" []
    [("symbol", Name "symbol"); ("period", Name "period");
     ("start_date", Name "start_date"); ("end_date", Name "end_date");
     ("adjust", Name "adjust")].

(** [server.py] line 690: [def stock_intraday_em(symbol: str)] calls
    [ak.stock_intraday_em(symbol=symbol)] *)
Definition stock_intraday_em : tool :=
  mkTool "stock_intraday_em"
    [("symbol", None)]
    None "stock_intraday_em" []
    [("symbol", Name "symbol")].

(** [server.py] line 732: [def stock_zh_a_new()] calls [ak.stock_zh_a_new()]
    *)
Definition stock_zh_a_new : tool :=
  mkTool "stock_zh_a_new" [] None "stock_zh_a_new" [] [].

(** [server.py] line 780: [def stock_zh_a_st_em()] calls
    [ak.stock_zh_a_st_em()] *)
Definition stock_zh_a_st_em : tool :=
  mkTool "stock_zh_a_st_em" [] None "stock_zh_a_st_em" [] [].

(** [server.py] line 842: [def stock_zh_a_stop_em()] calls
    [ak.stock_zh_a_stop_em()] *)
Definition stock_zh_a_stop_em : tool :=
  mkTool "stock_zh_a_stop_em" [] None "stock_zh_a_stop_em" [] [].

(** [server.py] line 876: [def stock_zh_ah_spot_em()] calls
    [ak.stock_zh_ah_spot_em()] *)
Definition stock_zh_ah_spot_em : tool :=
  mkTool "stock_zh_ah_spot_em" [] None "stock_zh_ah_spot_em" [] [].

(** [server.py] line 924: [def stock_us_spot_em()] calls
    [ak.stock_us_spot_em()] *)
Definition stock_us_spot_em : tool :=
  mkTool "stock_us_spot_em" [] None "stock_us_spot_em" [] [].

(** [server.py] line 960: [def stock_us_hist(symbol: str, period:
    str='daily', start_date: str='', end_date: str='', adjust: str='')] calls
    [ak.stock_us_hist(symbol=symbol, period=period, start_date=start_date,
    end_date=end_date, adjust=adjust)] *)
Definition stock_us_hist : tool :=
  mkTool "stock_us_hist"
    [("symbol", None); ("period", Some (PStr (py "daily")));
     ("start_date", Some (PStr (py ""))); ("end_date", Some (PStr (py "")));
     ("adjust", Some (PStr (py "")))]
    None "stock_us_hist" []
    [("symbol", Name "symbol"); ("period", Name "period");
     ("start_date", Name "start_date"); ("end_date", Name "end_date");
     ("adjust", Name "adjust")].

(** [server.py] line 1028: [def stock_sector_spot(indicator: str='新浪行业')]
    calls [ak.stock_sector_spot(indicator=indicator)] *)
Definition stock_sector_spot : tool :=
  mkTool "stock_sector_spot"
    [("indicator", Some (PStr [26032; 28010; 34892; 19994]%N))]
    None "stock_sector_spot" []
    [("indicator", Name "indicator")].

(** [server.py] line 1084: [def stock_sector_detail(sector: str)] calls
    [ak.stock_sector_detail(sector=sector)] *)
Definition stock_sector_detail : tool :=
  mkTool "stock_sector_detail"
    [("sector", None)]
    None "stock_sector_detail" []
    [("sector", Name "sector")].

(** [server.py] line 1156: [def stock_individual_fund_flow(stock: str,
    market: str='sh')] calls [ak.stock_individual_fund_flow(stock=stock,
    market=market)] *)
Definition stock_individual_fund_flow : tool :=
  mkTool "stock_individual_fund_flow"
    [("stock", None); ("market", Some (PStr (py "sh")))]
    None "stock_individual_fund_flow" []
    [("stock", Name "stock"); ("market", Name "market")].

(** [server.py] line 1189: [def stock_market_fund_flow()] calls
    [ak.stock_market_fund_flow()] *)
Definition stock_market_fund_flow : tool :=
  mkTool "stock_market_fund_flow" [] None "stock_market_fund_flow" [] [].

(** [server.py] line 1243: [def stock_sector_fund_flow_rank(indicator:
    str='今日', sector_type: str='行业资金流')] calls
    [ak.stock_sector_fund_flow_rank(indicator=indicator,
    sector_type=sector_type)] *)
Definition stock_sector_fund_flow_rank : tool :=
  mkTool "stock_sector_fund_flow_rank"
    [("indicator", Some (PStr [20170; 26085]%N));
     ("sector_type", Some (PStr [34892; 19994; 36164; 37329; 27969]%N))]
    None "stock_sector_fund_flow_rank" []
    [("indicator", Name "indicator"); ("sector_type", Name "sector_type")].

(** [server.py] line 1303: [def stock_board_concept_name_em()] calls
    [ak.stock_board_concept_name_em()] *)
Definition stock_board_concept_name_em : tool :=
  mkTool "stock_board_concept_name_em"
    []
    None "stock_board_concept_name_em" []
    [].

(** [server.py] line 1355: [def stock_board_concept_cons_em(symbol: str)]
    calls [ak.stock_board_concept_cons_em(symbol=symbol)] *)
Definition stock_board_concept_cons_em : tool :=
  mkTool "stock_board_concept_cons_em"
    [("symbol", None)]
    None "stock_board_concept_cons_em" []
    [("symbol", Name "symbol")].

(** [server.py] line 1419: [def stock_board_industry_name_em()] calls
    [ak.stock_board_industry_name_em()] *)
Definition stock_board_industry_name_em : tool :=
  mkTool "stock_board_industry_name_em"
    []
    None "stock_board_industry_name_em" []
    [].

(** [server.py] line 1471: [def stock_board_industry_cons_em(symbol: str)]
    calls [ak.stock_board_industry_cons_em(symbol=symbol)] *)
Definition stock_board_industry_cons_em : tool :=
  mkTool "stock_board_industry_cons_em"
    [("symbol", None)]
    None "stock_board_industry_cons_em" []
    [("symbol", Name "symbol")].

(** [server.py] line 1537: [def stock_financial_analysis_indicator(symbol:
    str, start_year: str='2020')] calls
    [ak.stock_financial_analysis_indicator(symbol=symbol,
    start_year=start_year)] *)
Definition stock_financial_analysis_indicator : tool :=
  mkTool "stock_financial_analysis_indicator"
    [("symbol", None); ("start_year", Some (PStr (py "2020")))]
    None "stock_financial_analysis_indicator" []
    [("symbol", Name "symbol"); ("start_year", Name "start_year")].

(** [server.py] line 1583: [def stock_dividend_cninfo(symbol: str)] calls
    [ak.stock_dividend_cninfo(symbol=symbol)] *)
Definition stock_dividend_cninfo : tool :=
  mkTool "stock_dividend_cninfo"
    [("symbol", None)]
    None "stock_dividend_cninfo" []
    [("symbol", Name "symbol")].

(** [server.py] line 1637: [def stock_margin_sse(start_date: str='20010106',
    end_date: str='20210208')] calls [ak.stock_margin_sse(start_date=start_date,
    end_date=end_date)] *)
Definition stock_margin_sse : tool :=
  mkTool "stock_margin_sse"
    [("start_date", Some (PStr (py "20010106")));
     ("end_date", Some (PStr (py "20210208")))]
    None "stock_margin_sse" []
    [("start_date", Name "start_date"); ("end_date", Name "end_date")].

(** [server.py] line 1685: [def stock_institute_hold(symbol: str='20201')]
    calls [ak.stock_institute_hold(symbol=symbol)] *)
Definition stock_institute_hold : tool :=
  mkTool "stock_institute_hold"
    [("symbol", Some (PStr (py "20201")))]
    None "stock_institute_hold" []
    [("symbol", Name "symbol")].

(** [server.py] line 1739: [def stock_analyst_detail_em(symbol: str)] calls
    [ak.stock_analyst_detail_em(symbol=symbol)] *)
Definition stock_analyst_detail_em : tool :=
  mkTool "stock_analyst_detail_em"
    [("symbol", None)]
    None "stock_analyst_detail_em" []
    [("symbol", Name "symbol")].

(** [server.py] line 1781: [def stock_news_em(symbol: str)] calls
    [ak.stock_news_em(symbol=symbol)] *)
Definition stock_news_em : tool :=
  mkTool "stock_news_em"
    [("symbol", None)]
    None "stock_news_em" []
    [("symbol", Name "symbol")].

(** [server.py] line 1829: [def stock_notice_report(symbol: str='全部', date:
    str=None)] calls [ak.stock_notice_report(symbol=symbol, date=date)] *)
Definition stock_notice_report : tool := Server.stock_notice_report.

(** [server.py] line 1944: [def stock_individual_fund_flow_rank()] calls
    [ak.stock_individual_fund_flow_rank()] *)
Definition stock_individual_fund_flow_rank : tool :=
  mkTool "stock_individual_fund_flow_rank"
    []
    None "stock_individual_fund_flow_rank" []
    [].

(** [server.py] line 1986: [def stock_market_activity_legu()] calls
    [ak.stock_market_activity_legu()] *)
Definition stock_market_activity_legu : tool :=
  mkTool "stock_market_activity_legu"
    []
    None "stock_market_activity_legu" []
    [].

(** [server.py] line 2024: [def stock_hk_spot_em()] calls
    [ak.stock_hk_spot_em()] *)
Definition stock_hk_spot_em : tool :=
  mkTool "stock_hk_spot_em" [] None "stock_hk_spot_em" [] [].

(** [server.py] line 2062: [def stock_hk_daily()] calls
    [ak.stock_hk_daily(symbol=symbol)] *)
Definition stock_hk_daily : tool := Server.stock_hk_daily.

(** [server.py] line 2107: [def stock_us_daily(symbol: str)] calls
    [ak.stock_us_daily(symbol=symbol)] *)
Definition stock_us_daily : tool :=
  mkTool "stock_us_daily"
    [("symbol", None)]
    None "stock_us_daily" []
    [("symbol", Name "symbol")].

(** [server.py] line 2171: [def stock_repurchase_em()] calls
    [ak.stock_repurchase_em()] *)
Definition stock_repurchase_em : tool :=
  mkTool "stock_repurchase_em" [] None "stock_repurchase_em" [] [].

(** [server.py] line 2265: [def stock_margin_underlying_info_szse()] calls
    [ak.stock_margin_underlying_info_szse()] *)
Definition stock_margin_underlying_info_szse : tool :=
  mkTool "stock_margin_underlying_info_szse"
    []
    None "stock_margin_underlying_info_szse" []
    [].

(** [server.py] line 2297: [def stock_account_statistics_em()] calls
    [ak.stock_account_statistics_em()] *)
Definition stock_account_statistics_em : tool :=
  mkTool "stock_account_statistics_em"
    []
    None "stock_account_statistics_em" []
    [].

(** [server.py] line 2338: [def news_report_time_baidu(date:
    str='20241107')] calls [ak.news_report_time_baidu(date='20241107')] *)
Definition news_report_time_baidu : tool := Server.news_report_time_baidu.

(** [server.py] line 2361: [def news_trade_notify_dividend_baidu(date:
    str='20241107')] calls
    [ak.news_trade_notify_dividend_baidu(date='20241107')] *)
Definition news_trade_notify_dividend_baidu : tool :=
  mkTool "news_trade_notify_dividend_baidu"
    [("date", Some (PStr (py "20241107")))]
    None "news_trade_notify_dividend_baidu" []
    [("date", Const (PStr (py "20241107")))].

(** [server.py] line 2384: [def news_trade_notify_suspend_baidu(date:
    str='20241107')] calls [ak.news_trade_notify_suspend_baidu(date='20241107')]
    *)
Definition news_trade_notify_suspend_baidu : tool :=
  mkTool "news_trade_notify_suspend_baidu"
    [("date", Some (PStr (py "20241107")))]
    None "news_trade_notify_suspend_baidu" []
    [("date", Const (PStr (py "20241107")))].

(** [server.py] line 2407: [def stock_a_all_pb()] calls
    [ak.stock_a_all_pb()] *)
Definition stock_a_all_pb : tool :=
  mkTool "stock_a_all_pb" [] None "stock_a_all_pb" [] [].

(** [server.py] line 2436: [def stock_a_below_net_asset_statistics(symbol:
    str='全部A股')] calls [ak.stock_a_below_net_asset_statistics(symbol=symbol)] *)
Definition stock_a_below_net_asset_statistics : tool :=
  mkTool "stock_a_below_net_asset_statistics"
    [("symbol", Some (PStr [20840; 37096; 65; 32929]%N))]
    None "stock_a_below_net_asset_statistics" []
    [("symbol", Name "symbol")].

(** [server.py] line 2465: [def stock_a_congestion_lg()] calls
    [ak.stock_a_congestion_lg()] *)
Definition stock_a_congestion_lg : tool :=
  mkTool "stock_a_congestion_lg" [] None "stock_a_congestion_lg" [] [].

(** [server.py] line 2494: [def stock_a_gxl_lg(symbol: str='上证A股')] calls
    [ak.stock_a_gxl_lg(symbol='上证A股')] *)
Definition stock_a_gxl_lg : tool :=
  mkTool "stock_a_gxl_lg"
    [("symbol", Some (PStr [19978; 35777; 65; 32929]%N))]
    None "stock_a_gxl_lg" []
    [("symbol", Const (PStr [19978; 35777; 65; 32929]%N))].

(** [server.py] line 2517: [def stock_a_high_low_statistics(symbol:
    str='all')] calls [ak.stock_a_high_low_statistics(symbol=symbol)] *)
Definition stock_a_high_low_statistics : tool :=
  mkTool "stock_a_high_low_statistics"
    [("symbol", Some (PStr (py "all")))]
    None "stock_a_high_low_statistics" []
    [("symbol", Name "symbol")].

(** [server.py] line 2546: [def stock_a_indicator_lg(symbol: str='000001')]
    calls [ak.stock_a_indicator_lg(symbol=symbol)] *)
Definition stock_a_indicator_lg : tool :=
  mkTool "stock_a_indicator_lg"
    [("symbol", Some (PStr (py "000001")))]
    None "stock_a_indicator_lg" []
    [("symbol", Name "symbol")].

(** [server.py] line 2575: [def stock_a_ttm_lyr()] calls
    [ak.stock_a_ttm_lyr()] *)
Definition stock_a_ttm_lyr : tool :=
  mkTool "stock_a_ttm_lyr" [] None "stock_a_ttm_lyr" [] [].

(** [server.py] line 2604: [def stock_add_stock(symbol: str='600004')] calls
    [ak.stock_add_stock(symbol='600004')] *)
Definition stock_add_stock : tool :=
  mkTool "stock_add_stock"
    [("symbol", Some (PStr (py "600004")))]
    None "stock_add_stock" []
    [("symbol", Const (PStr (py "600004")))].

(** [server.py] line 2627: [def stock_allotment_cninfo(symbol: str='600030',
    start_date: str='19700101', end_date: str='22220222')] calls
    [ak.stock_allotment_cninfo(symbol=symbol, start_date=start_date,
    end_date=end_date)] *)
Definition stock_allotment_cninfo : tool :=
  mkTool "stock_allotment_cninfo"
    [("symbol", Some (PStr (py "600030")));
     ("start_date", Some (PStr (py "19700101")));
     ("end_date", Some (PStr (py "22220222")))]
    None "stock_allotment_cninfo" []
    [("symbol", Name "symbol"); ("start_date", Name "start_date");
     ("end_date", Name "end_date")].

(** [server.py] line 2660: [def stock_analyst_rank_em(year: str)] calls
    [ak.stock_analyst_rank_em(year=year)] *)
Definition stock_analyst_rank_em : tool :=
  mkTool "stock_analyst_rank_em"
    [("year", None)]
    None "stock_analyst_rank_em" []
    [("year", Name "year")].

(** [server.py] line 2689: [def
    stock_balance_sheet_by_report_delisted_em(symbol: str='SZ000013')] calls
    [ak.stock_balance_sheet_by_report_delisted_em(symbol=symbol)] *)
Definition stock_balance_sheet_by_report_delisted_em : tool :=
  mkTool "stock_balance_sheet_by_report_delisted_em"
    [("symbol", Some (PStr (py "SZ000013")))]
    None "stock_balance_sheet_by_report_delisted_em" []
    [("symbol", Name "symbol")].

(** [server.py] line 2718: [def stock_balance_sheet_by_report_em(symbol:
    str='SH600519')] calls [ak.stock_balance_sheet_by_report_em(symbol=symbol)]
    *)
Definition stock_balance_sheet_by_report_em : tool :=
  mkTool "stock_balance_sheet_by_report_em"
    [("symbol", Some (PStr (py "SH600519")))]
    None "stock_balance_sheet_by_report_em" []
    [("symbol", Name "symbol")].

(** [server.py] line 2747: [def stock_balance_sheet_by_yearly_em(symbol:
    str='SH600519')] calls [ak.stock_balance_sheet_by_yearly_em(symbol=symbol)]
    *)
Definition stock_balance_sheet_by_yearly_em : tool :=
  mkTool "stock_balance_sheet_by_yearly_em"
    [("symbol", Some (PStr (py "SH600519")))]
    None "stock_balance_sheet_by_yearly_em" []
    [("symbol", Name "symbol")].

(** [server.py] line 2776: [def stock_board_change_em()] calls
    [ak.stock_board_change_em()] *)
Definition stock_board_change_em : tool :=
  mkTool "stock_board_change_em" [] None "stock_board_change_em" [] [].

(** [server.py] line 2805: [def stock_board_concept_hist_em(symbol:
    str='HS300', period: str='daily', start_date: str='20220101', end_date:
    str='20220101', adjust: str='')] calls
    [ak.stock_board_concept_hist_em(symbol='绿色电力', period='daily',
    start_date='20220101', end_date='20250227', adjust='')] *)
Definition stock_board_concept_hist_em : tool :=
  mkTool "stock_board_concept_hist_em"
    [("symbol", Some (PStr (py "HS300")));
     ("period", Some (PStr (py "daily")));
     ("start_date", Some (PStr (py "20220101")));
     ("end_date", Some (PStr (py "20220101")));
     ("adjust", Some (PStr (py "")))]
    None "stock_board_concept_hist_em" []
    [("symbol", Const (PStr [32511; 33394; 30005; 21147]%N));
     ("period", Const (PStr (py "daily")));
     ("start_date", Const (PStr (py "20220101")));
     ("end_date", Const (PStr (py "20250227")));
     ("adjust", Const (PStr (py "")))].

(** [server.py] line 2828: [def stock_board_concept_hist_min_em(symbol:
    str='长寿药', period: str='1')] calls
    [ak.stock_board_concept_hist_min_em(symbol=symbol, period=period)] *)
Definition stock_board_concept_hist_min_em : tool :=
  mkTool "stock_board_concept_hist_min_em"
    [("symbol", Some (PStr [38271; 23551; 33647]%N));
     ("period", Some (PStr (py "1")))]
    None "stock_board_concept_hist_min_em" []
    [("symbol", Name "symbol"); ("period", Name "period")].

(** [server.py] line 2859: [def stock_board_concept_index_ths(symbol:
    str='计算机概念', start_date: str='20200101', end_date: str='20250228')] calls
    [ak.stock_board_concept_index_ths(symbol=symbol, start_date=start_date,
    end_date=end_date)] *)
Definition stock_board_concept_index_ths : tool :=
  mkTool "stock_board_concept_index_ths"
    [("symbol", Some (PStr [35745; 31639; 26426; 27010; 24565]%N));
     ("start_date", Some (PStr (py "20200101")));
     ("end_date", Some (PStr (py "20250228")))]
    None "stock_board_concept_index_ths" []
    [("symbol", Name "symbol"); ("start_date", Name "start_date");
     ("end_date", Name "end_date")].

(** [server.py] line 2892: [def stock_board_concept_info_ths(symbol:
    str='阿里巴巴概念')] calls [ak.stock_board_concept_info_ths(symbol='阿里巴巴概念')] *)
Definition stock_board_concept_info_ths : tool :=
  mkTool "stock_board_concept_info_ths"
    [("symbol", Some (PStr [38463; 37324; 24052; 24052; 27010; 24565]%N))]
    None "stock_board_concept_info_ths" []
    [("symbol", Const (PStr [38463; 37324; 24052; 24052; 27010; 24565]%N))].

(** [server.py] line 2915: [def stock_board_concept_spot_em(symbol:
    str='可燃冰')] calls [ak.stock_board_concept_spot_em(symbol=symbol)] *)
Definition stock_board_concept_spot_em : tool :=
  mkTool "stock_board_concept_spot_em"
    [("symbol", Some (PStr [21487; 29123; 20912]%N))]
    None "stock_board_concept_spot_em" []
    [("symbol", Name "symbol")].

(** [server.py] line 2944: [def stock_board_industry_hist_em(symbol:
    str='小金属', start_date: str='20211201', end_date: str='20240222', period:
    str='日k', adjust: str='')] calls
    [ak.stock_board_industry_hist_em(symbol=symbol, start_date=start_date,
    end_date=end_date, period=period, adjust=adjust)] *)
Definition stock_board_industry_hist_em : tool :=
  mkTool "stock_board_industry_hist_em"
    [("symbol", Some (PStr [23567; 37329; 23646]%N));
     ("start_date", Some (PStr (py "20211201")));
     ("end_date", Some (PStr (py "20240222")));
     ("period", Some (PStr [26085; 107]%N)); ("adjust", Some (PStr (py "")))]
    None "stock_board_industry_hist_em" []
    [("symbol", Name "symbol"); ("start_date", Name "start_date");
     ("end_date", Name "end_date"); ("period", Name "period");
     ("adjust", Name "adjust")].

(** [server.py] line 2981: [def stock_board_industry_hist_min_em(symbol:
    str='小金属', period: str='1')] calls
    [ak.stock_board_industry_hist_min_em(symbol=symbol, period=period)] *)
Definition stock_board_industry_hist_min_em : tool :=
  mkTool "stock_board_industry_hist_min_em"
    [("symbol", Some (PStr [23567; 37329; 23646]%N));
     ("period", Some (PStr (py "1")))]
    None "stock_board_industry_hist_min_em" []
    [("symbol", Name "symbol"); ("period", Name "period")].

(** [server.py] line 3012: [def stock_board_industry_index_ths(symbol:
    str='计算机行业', start_date: str='20200101', end_date: str='20211027')] calls
    [ak.stock_board_industry_index_ths(symbol=symbol, start_date=start_date,
    end_date=end_date)] *)
Definition stock_board_industry_index_ths : tool :=
  mkTool "stock_board_industry_index_ths"
    [("symbol", Some (PStr [35745; 31639; 26426; 34892; 19994]%N));
     ("start_date", Some (PStr (py "20200101")));
     ("end_date", Some (PStr (py "20211027")))]
    None "stock_board_industry_index_ths" []
    [("symbol", Name "symbol"); ("start_date", Name "start_date");
     ("end_date", Name "end_date")].

(** [server.py] line 3045: [def stock_board_industry_spot_em(symbol:
    str='小金属')] calls [ak.stock_board_industry_spot_em(symbol=symbol)] *)
Definition stock_board_industry_spot_em : tool :=
  mkTool "stock_board_industry_spot_em"
    [("symbol", Some (PStr [23567; 37329; 23646]%N))]
    None "stock_board_industry_spot_em" []
    [("symbol", Name "symbol")].

(** [server.py] line 3074: [def stock_board_industry_summary_ths()] calls
    [ak.stock_board_industry_summary_ths()] *)
Definition stock_board_industry_summary_ths : tool :=
  mkTool "stock_board_industry_summary_ths"
    []
    None "stock_board_industry_summary_ths" []
    [].

(** [server.py] line 3103: [def stock_buffett_index_lg()] calls
    [ak.stock_buffett_index_lg()] *)
Definition stock_buffett_index_lg : tool :=
  mkTool "stock_buffett_index_lg" [] None "stock_buffett_index_lg" [] [].

(** [server.py] line 3132: [def
    stock_cash_flow_sheet_by_quarterly_em(symbol: str='SH600519')] calls
    [ak.stock_cash_flow_sheet_by_quarterly_em(symbol=symbol)] *)
Definition stock_cash_flow_sheet_by_quarterly_em : tool :=
  mkTool "stock_cash_flow_sheet_by_quarterly_em"
    [("symbol", Some (PStr (py "SH600519")))]
    None "stock_cash_flow_sheet_by_quarterly_em" []
    [("symbol", Name "symbol")].

(** [server.py] line 3163: [def
    stock_cash_flow_sheet_by_report_delisted_em(symbol: str='SZ000013')] calls
    [ak.stock_cash_flow_sheet_by_report_delisted_em(symbol=symbol)] *)
Definition stock_cash_flow_sheet_by_report_delisted_em : tool :=
  mkTool "stock_cash_flow_sheet_by_report_delisted_em"
    [("symbol", Some (PStr (py "SZ000013")))]
    None "stock_cash_flow_sheet_by_report_delisted_em" []
    [("symbol", Name "symbol")].

(** [server.py] line 3192: [def stock_cash_flow_sheet_by_report_em(symbol:
    str='SH600519')] calls
    [ak.stock_cash_flow_sheet_by_report_em(symbol=symbol)] *)
Definition stock_cash_flow_sheet_by_report_em : tool :=
  mkTool "stock_cash_flow_sheet_by_report_em"
    [("symbol", Some (PStr (py "SH600519")))]
    None "stock_cash_flow_sheet_by_report_em" []
    [("symbol", Name "symbol")].

(** [server.py] line 3223: [def stock_cash_flow_sheet_by_yearly_em(symbol:
    str='SH600519')] calls
    [ak.stock_cash_flow_sheet_by_yearly_em(symbol=symbol)] *)
Definition stock_cash_flow_sheet_by_yearly_em : tool :=
  mkTool "stock_cash_flow_sheet_by_yearly_em"
    [("symbol", Some (PStr (py "SH600519")))]
    None "stock_cash_flow_sheet_by_yearly_em" []
    [("symbol", Name "symbol")].

(** [server.py] line 3254: [def stock_cg_equity_mortgage_cninfo(date:
    str='20210930')] calls [ak.stock_cg_equity_mortgage_cninfo(date=date)] *)
Definition stock_cg_equity_mortgage_cninfo : tool :=
  mkTool "stock_cg_equity_mortgage_cninfo"
    [("date", Some (PStr (py "20210930")))]
    None "stock_cg_equity_mortgage_cninfo" []
    [("date", Name "date")].

(** [server.py] line 3303: [def stock_cg_guarantee_cninfo(symbol: str='全部',
    start_date: str='20180630', end_date: str='20210927')] calls
    [ak.stock_cg_guarantee_cninfo(symbol=symbol, start_date=start_date,
    end_date=end_date)] *)
Definition stock_cg_guarantee_cninfo : tool :=
  mkTool "stock_cg_guarantee_cninfo"
    [("symbol", Some (PStr [20840; 37096]%N));
     ("start_date", Some (PStr (py "20180630")));
     ("end_date", Some (PStr (py "20210927")))]
    None "stock_cg_guarantee_cninfo" []
    [("symbol", Name "symbol"); ("start_date", Name "start_date");
     ("end_date", Name "end_date")].

(** [server.py] line 3336: [def stock_cg_lawsuit_cninfo(symbol: str='全部',
    start_date: str='20180630', end_date: str='20210927')] calls
    [ak.stock_cg_lawsuit_cninfo(symbol=symbol, start_date=start_date,
    end_date=end_date)] *)
Definition stock_cg_lawsuit_cninfo : tool :=
  mkTool "stock_cg_lawsuit_cninfo"
    [("symbol", Some (PStr [20840; 37096]%N));
     ("start_date", Some (PStr (py "20180630")));
     ("end_date", Some (PStr (py "20210927")))]
    None "stock_cg_lawsuit_cninfo" []
    [("symbol", Name "symbol"); ("start_date", Name "start_date");
     ("end_date", Name "end_date")].

(** [server.py] line 3369: [def stock_changes_em(symbol: str='大笔买入')] calls
    [ak.stock_changes_em(symbol=symbol)] *)
Definition stock_changes_em : tool :=
  mkTool "stock_changes_em"
    [("symbol", Some (PStr [22823; 31508; 20080; 20837]%N))]
    None "stock_changes_em" []
    [("symbol", Name "symbol")].

(** [server.py] line 3422: [def stock_circulate_stock_holder(symbol:
    str='600000')] calls [ak.stock_circulate_stock_holder(symbol=symbol)] *)
Definition stock_circulate_stock_holder : tool :=
  mkTool "stock_circulate_stock_holder"
    [("symbol", Some (PStr (py "600000")))]
    None "stock_circulate_stock_holder" []
    [("symbol", Name "symbol")].

(** [server.py] line 3465: [def stock_comment_detail_scrd_cost_em(symbol:
    str='600000')] calls [ak.stock_comment_detail_scrd_cost_em(symbol=symbol)]
    *)
Definition stock_comment_detail_scrd_cost_em : tool :=
  mkTool "stock_comment_detail_scrd_cost_em"
    [("symbol", Some (PStr (py "600000")))]
    None "stock_comment_detail_scrd_cost_em" []
    [("symbol", Name "symbol")].

(** [server.py] line 3500: [def
    stock_comment_detail_scrd_desire_daily_em(symbol: str='600000')] calls
    [ak.stock_comment_detail_scrd_desire_daily_em(symbol=symbol)] *)
Definition stock_comment_detail_scrd_desire_daily_em : tool :=
  mkTool "stock_comment_detail_scrd_desire_daily_em"
    [("symbol", Some (PStr (py "600000")))]
    None "stock_comment_detail_scrd_desire_daily_em" []
    [("symbol", Name "symbol")].

(** [server.py] line 3535: [def stock_comment_detail_scrd_desire_em(symbol:
    str='600000')] calls [ak.stock_comment_detail_scrd_desire_em(symbol=symbol)]
    *)
Definition stock_comment_detail_scrd_desire_em : tool :=
  mkTool "stock_comment_detail_scrd_desire_em"
    [("symbol", Some (PStr (py "600000")))]
    None "stock_comment_detail_scrd_desire_em" []
    [("symbol", Name "symbol")].

(** [server.py] line 3572: [def stock_comment_detail_scrd_focus_em(symbol:
    str='600000')] calls [ak.stock_comment_detail_scrd_focus_em(symbol=symbol)]
    *)
Definition stock_comment_detail_scrd_focus_em : tool :=
  mkTool "stock_comment_detail_scrd_focus_em"
    [("symbol", Some (PStr (py "600000")))]
    None "stock_comment_detail_scrd_focus_em" []
    [("symbol", Name "symbol")].

(** [server.py] line 3605: [def stock_comment_detail_zhpj_lspf_em(symbol:
    str='600000')] calls [ak.stock_comment_detail_zhpj_lspf_em(symbol=symbol)]
    *)
Definition stock_comment_detail_zhpj_lspf_em : tool :=
  mkTool "stock_comment_detail_zhpj_lspf_em"
    [("symbol", Some (PStr (py "600000")))]
    None "stock_comment_detail_zhpj_lspf_em" []
    [("symbol", Name "symbol")].

(** [server.py] line 3638: [def stock_comment_detail_zlkp_jgcyd_em(symbol:
    str='600000')] calls [ak.stock_comment_detail_zlkp_jgcyd_em(symbol=symbol)]
    *)
Definition stock_comment_detail_zlkp_jgcyd_em : tool :=
  mkTool "stock_comment_detail_zlkp_jgcyd_em"
    [("symbol", Some (PStr (py "600000")))]
    None "stock_comment_detail_zlkp_jgcyd_em" []
    [("symbol", Name "symbol")].

(** [server.py] line 3671: [def stock_comment_em()] calls
    [ak.stock_comment_em()] *)
Definition stock_comment_em : tool :=
  mkTool "stock_comment_em" [] None "stock_comment_em" [] [].

(** [server.py] line 3726: [def stock_concept_cons_futu(symbol:
    str='特朗普概念股')] calls [ak.stock_concept_cons_futu(symbol=symbol)] *)
Definition stock_concept_cons_futu : tool :=
  mkTool "stock_concept_cons_futu"
    [("symbol", Some (PStr [29305; 26391; 26222; 27010; 24565; 32929]%N))]
    None "stock_concept_cons_futu" []
    [("symbol", Name "symbol")].

(** [server.py] line 3771: [def stock_concept_fund_flow_hist(symbol:
    str='数据要素')] calls [ak.stock_concept_fund_flow_hist(symbol=symbol)] *)
Definition stock_concept_fund_flow_hist : tool :=
  mkTool "stock_concept_fund_flow_hist"
    [("symbol", Some (PStr [25968; 25454; 35201; 32032]%N))]
    None "stock_concept_fund_flow_hist" []
    [("symbol", Name "symbol")].

(** [server.py] line 3822: [def stock_cy_a_spot_em()] calls
    [ak.stock_cy_a_spot_em()] *)
Definition stock_cy_a_spot_em : tool :=
  mkTool "stock_cy_a_spot_em" [] None "stock_cy_a_spot_em" [] [].

(** [server.py] line 3895: [def stock_cyq_em(symbol: str='000001', adjust:
    str='')] calls [ak.stock_cyq_em(symbol=symbol, adjust=adjust)] *)
Definition stock_cyq_em : tool :=
  mkTool "stock_cyq_em"
    [("symbol", Some (PStr (py "000001"))); ("adjust", Some (PStr (py "")))]
    None "stock_cyq_em" []
    [("symbol", Name "symbol"); ("adjust", Name "adjust")].

(** [server.py] line 3946: [def stock_dxsyl_em()] calls
    [ak.stock_dxsyl_em()] *)
Definition stock_dxsyl_em : tool :=
  mkTool "stock_dxsyl_em" [] None "stock_dxsyl_em" [] [].

(** [server.py] line 4005: [def stock_dzjy_hygtj(symbol: str='近三月')] calls
    [ak.stock_dzjy_hygtj(symbol=symbol)] *)
Definition stock_dzjy_hygtj : tool :=
  mkTool "stock_dzjy_hygtj"
    [("symbol", Some (PStr [36817; 19977; 26376]%N))]
    None "stock_dzjy_hygtj" []
    [("symbol", Name "symbol")].

(** [server.py] line 4069: [def stock_dzjy_hyyybtj(symbol: str='近3日')] calls
    [ak.stock_dzjy_hyyybtj(symbol=symbol)] *)
Definition stock_dzjy_hyyybtj : tool :=
  mkTool "stock_dzjy_hyyybtj"
    [("symbol", Some (PStr [36817; 51; 26085]%N))]
    None "stock_dzjy_hyyybtj" []
    [("symbol", Name "symbol")].

(** [server.py] line 4119: [def stock_dzjy_mrmx(symbol: str='A股',
    start_date: str='20220104', end_date: str='20220104')] calls
    [ak.stock_dzjy_mrmx(symbol=symbol, start_date=start_date,
    end_date=end_date)] *)
Definition stock_dzjy_mrmx : tool :=
  mkTool "stock_dzjy_mrmx"
    [("symbol", Some (PStr [65; 32929]%N));
     ("start_date", Some (PStr (py "20220104")));
     ("end_date", Some (PStr (py "20220104")))]
    None "stock_dzjy_mrmx" []
    [("symbol", Name "symbol"); ("start_date", Name "start_date");
     ("end_date", Name "end_date")].

(** [server.py] line 4181: [def stock_dzjy_mrtj(start_date: str='20220105',
    end_date: str='20220105')] calls [ak.stock_dzjy_mrtj(start_date=start_date,
    end_date=end_date)] *)
Definition stock_dzjy_mrtj : tool :=
  mkTool "stock_dzjy_mrtj"
    [("start_date", Some (PStr (py "20220105")));
     ("end_date", Some (PStr (py "20220105")))]
    None "stock_dzjy_mrtj" []
    [("start_date", Name "start_date"); ("end_date", Name "end_date")].

(** [server.py] line 4236: [def stock_dzjy_sctj()] calls
    [ak.stock_dzjy_sctj()] *)
Definition stock_dzjy_sctj : tool :=
  mkTool "stock_dzjy_sctj" [] None "stock_dzjy_sctj" [] [].

(** [server.py] line 4281: [def stock_dzjy_yybph(symbol: str='近三月')] calls
    [ak.stock_dzjy_yybph(symbol=symbol)] *)
Definition stock_dzjy_yybph : tool :=
  mkTool "stock_dzjy_yybph"
    [("symbol", Some (PStr [36817; 19977; 26376]%N))]
    None "stock_dzjy_yybph" []
    [("symbol", Name "symbol")].

(** [server.py] line 4341: [def stock_ebs_lg()] calls [ak.stock_ebs_lg()] *)
Definition stock_ebs_lg : tool :=
  mkTool "stock_ebs_lg" [] None "stock_ebs_lg" [] [].

(** [server.py] line 4380: [def stock_esg_hz_sina()] calls
    [ak.stock_esg_hz_sina()] *)
Definition stock_esg_hz_sina : tool :=
  mkTool "stock_esg_hz_sina" [] None "stock_esg_hz_sina" [] [].

(** [server.py] line 4435: [def stock_esg_msci_sina()] calls
    [ak.stock_esg_msci_sina()] *)
Definition stock_esg_msci_sina : tool :=
  mkTool "stock_esg_msci_sina" [] None "stock_esg_msci_sina" [] [].

(** [server.py] line 4458: [def stock_esg_rate_sina()] calls
    [ak.stock_esg_rate_sina()] *)
Definition stock_esg_rate_sina : tool :=
  mkTool "stock_esg_rate_sina" [] None "stock_esg_rate_sina" [] [].

(** [server.py] line 4481: [def stock_esg_rft_sina()] calls
    [ak.stock_esg_rft_sina()] *)
Definition stock_esg_rft_sina : tool :=
  mkTool "stock_esg_rft_sina" [] None "stock_esg_rft_sina" [] [].

(** [server.py] line 4504: [def stock_esg_zd_sina()] calls
    [ak.stock_esg_zd_sina()] *)
Definition stock_esg_zd_sina : tool :=
  mkTool "stock_esg_zd_sina" [] None "stock_esg_zd_sina" [] [].

(** [server.py] line 4527: [def stock_fhps_detail_em(symbol: str='300073')]
    calls [ak.stock_fhps_detail_em(symbol='300073')] *)
Definition stock_fhps_detail_em : tool :=
  mkTool "stock_fhps_detail_em"
    [("symbol", Some (PStr (py "300073")))]
    None "stock_fhps_detail_em" []
    [("symbol", Const (PStr (py "300073")))].

(** [server.py] line 4550: [def stock_fhps_detail_ths(symbol: str='603444')]
    calls [ak.stock_fhps_detail_ths(symbol='603444')] *)
Definition stock_fhps_detail_ths : tool :=
  mkTool "stock_fhps_detail_ths"
    [("symbol", Some (PStr (py "603444")))]
    None "stock_fhps_detail_ths" []
    [("symbol", Const (PStr (py "603444")))].

(** [server.py] line 4573: [def stock_fhps_em(date: str='20231231')] calls
    [ak.stock_fhps_em(date='20231231')] *)
Definition stock_fhps_em : tool :=
  mkTool "stock_fhps_em"
    [("date", Some (PStr (py "20231231")))]
    None "stock_fhps_em" []
    [("date", Const (PStr (py "20231231")))].

(** [server.py] line 4596: [def stock_financial_abstract(symbol:
    str='600004')] calls [ak.stock_financial_abstract(symbol='600004')] *)
Definition stock_financial_abstract : tool :=
  mkTool "stock_financial_abstract"
    [("symbol", Some (PStr (py "600004")))]
    None "stock_financial_abstract" []
    [("symbol", Const (PStr (py "600004")))].

(** [server.py] line 4619: [def stock_financial_abstract_ths(symbol:
    str='000063', indicator: str='按报告期')] calls
    [ak.stock_financial_abstract_ths(symbol='000063', indicator='按报告期')] *)
Definition stock_financial_abstract_ths : tool :=
  mkTool "stock_financial_abstract_ths"
    [("symbol", Some (PStr (py "000063")));
     ("indicator", Some (PStr [25353; 25253; 21578; 26399]%N))]
    None "stock_financial_abstract_ths" []
    [("symbol", Const (PStr (py "000063")));
     ("indicator", Const (PStr [25353; 25253; 21578; 26399]%N))].

(** [server.py] line 4642: [def stock_financial_benefit_ths(symbol:
    str='000063', indicator: str='按报告期')] calls
    [ak.stock_financial_benefit_ths(symbol='000063', indicator='按报告期')] *)
Definition stock_financial_benefit_ths : tool :=
  mkTool "stock_financial_benefit_ths"
    [("symbol", Some (PStr (py "000063")));
     ("indicator", Some (PStr [25353; 25253; 21578; 26399]%N))]
    None "stock_financial_benefit_ths" []
    [("symbol", Const (PStr (py "000063")));
     ("indicator", Const (PStr [25353; 25253; 21578; 26399]%N))].

(** [server.py] line 4665: [def stock_financial_cash_ths(symbol:
    str='000063', indicator: str='按单季度')] calls
    [ak.stock_financial_cash_ths(symbol='000063', indicator='按单季度')] *)
Definition stock_financial_cash_ths : tool :=
  mkTool "stock_financial_cash_ths"
    [("symbol", Some (PStr (py "000063")));
     ("indicator", Some (PStr [25353; 21333; 23395; 24230]%N))]
    None "stock_financial_cash_ths" []
    [("symbol", Const (PStr (py "000063")));
     ("indicator", Const (PStr [25353; 21333; 23395; 24230]%N))].

(** [server.py] line 4688: [def stock_financial_debt_ths(symbol:
    str='000063', indicator: str='按年度')] calls
    [ak.stock_financial_debt_ths(symbol='000063', indicator='按年度')] *)
Definition stock_financial_debt_ths : tool :=
  mkTool "stock_financial_debt_ths"
    [("symbol", Some (PStr (py "000063")));
     ("indicator", Some (PStr [25353; 24180; 24230]%N))]
    None "stock_financial_debt_ths" []
    [("symbol", Const (PStr (py "000063")));
     ("indicator", Const (PStr [25353; 24180; 24230]%N))].

(** [server.py] line 4711: [def
    stock_financial_hk_analysis_indicator_em(symbol: str='00700', indicator:
    str='年度')] calls
    [ak.stock_financial_hk_analysis_indicator_em(symbol='00700',
    indicator='年度')] *)
Definition stock_financial_hk_analysis_indicator_em : tool :=
  mkTool "stock_financial_hk_analysis_indicator_em"
    [("symbol", Some (PStr (py "00700")));
     ("indicator", Some (PStr [24180; 24230]%N))]
    None "stock_financial_hk_analysis_indicator_em" []
    [("symbol", Const (PStr (py "00700")));
     ("indicator", Const (PStr [24180; 24230]%N))].

(** [server.py] line 4734: [def stock_financial_hk_report_em(stock:
    str='00700', symbol: str='资产负债表', indicator: str='年度')] calls
    [ak.stock_financial_hk_report_em(stock='00700', symbol='资产负债表',
    indicator='年度')] *)
Definition stock_financial_hk_report_em : tool :=
  mkTool "stock_financial_hk_report_em"
    [("stock", Some (PStr (py "00700")));
     ("symbol", Some (PStr [36164; 20135; 36127; 20538; 34920]%N));
     ("indicator", Some (PStr [24180; 24230]%N))]
    None "stock_financial_hk_report_em" []
    [("stock", Const (PStr (py "00700")));
     ("symbol", Const (PStr [36164; 20135; 36127; 20538; 34920]%N));
     ("indicator", Const (PStr [24180; 24230]%N))].

(** [server.py] line 4757: [def stock_financial_report_sina(stock:
    str='sh600600', symbol: str='资产负债表')] calls
    [ak.stock_financial_report_sina(stock='sh600600', symbol='资产负债表')] *)
Definition stock_financial_report_sina : tool :=
  mkTool "stock_financial_report_sina"
    [("stock", Some (PStr (py "sh600600")));
     ("symbol", Some (PStr [36164; 20135; 36127; 20538; 34920]%N))]
    None "stock_financial_report_sina" []
    [("stock", Const (PStr (py "sh600600")));
     ("symbol", Const (PStr [36164; 20135; 36127; 20538; 34920]%N))].

(** [server.py] line 4780: [def
    stock_financial_us_analysis_indicator_em(symbol: str='TSLA', indicator:
    str='年报')] calls [ak.stock_financial_us_analysis_indicator_em(symbol='TSLA',
    indicator='年报')] *)
Definition stock_financial_us_analysis_indicator_em : tool :=
  mkTool "stock_financial_us_analysis_indicator_em"
    [("symbol", Some (PStr (py "TSLA")));
     ("indicator", Some (PStr [24180; 25253]%N))]
    None "stock_financial_us_analysis_indicator_em" []
    [("symbol", Const (PStr (py "TSLA")));
     ("indicator", Const (PStr [24180; 25253]%N))].

(** [server.py] line 4803: [def stock_financial_us_report_em(stock:
    str='TSLA', symbol: str='资产负债表', indicator: str='年报')] calls
    [ak.stock_financial_us_report_em(stock='TSLA', symbol='资产负债表',
    indicator='年报')] *)
Definition stock_financial_us_report_em : tool :=
  mkTool "stock_financial_us_report_em"
    [("stock", Some (PStr (py "TSLA")));
     ("symbol", Some (PStr [36164; 20135; 36127; 20538; 34920]%N));
     ("indicator", Some (PStr [24180; 25253]%N))]
    None "stock_financial_us_report_em" []
    [("stock", Const (PStr (py "TSLA")));
     ("symbol", Const (PStr [36164; 20135; 36127; 20538; 34920]%N));
     ("indicator", Const (PStr [24180; 25253]%N))].

(** [server.py] line 4826: [def stock_fund_flow_big_deal()] calls
    [ak.stock_fund_flow_big_deal()] *)
Definition stock_fund_flow_big_deal : tool :=
  mkTool "stock_fund_flow_big_deal" [] None "stock_fund_flow_big_deal" [] [].

(** [server.py] line 4873: [def stock_fund_flow_concept(symbol: str='即时')]
    calls [ak.stock_fund_flow_concept(symbol=symbol)] *)
Definition stock_fund_flow_concept : tool :=
  mkTool "stock_fund_flow_concept"
    [("symbol", Some (PStr [21363; 26102]%N))]
    None "stock_fund_flow_concept" []
    [("symbol", Name "symbol")].

(** [server.py] line 4951: [def stock_fund_flow_individual(symbol:
    str='即时')] calls [ak.stock_fund_flow_individual(symbol=symbol)] *)
Definition stock_fund_flow_individual : tool :=
  mkTool "stock_fund_flow_individual"
    [("symbol", Some (PStr [21363; 26102]%N))]
    None "stock_fund_flow_individual" []
    [("symbol", Name "symbol")].

(** [server.py] line 5025: [def stock_fund_flow_industry(symbol: str='即时')]
    calls [ak.stock_fund_flow_industry(symbol=symbol)] *)
Definition stock_fund_flow_industry : tool :=
  mkTool "stock_fund_flow_industry"
    [("symbol", Some (PStr [21363; 26102]%N))]
    None "stock_fund_flow_industry" []
    [("symbol", Name "symbol")].

(** [server.py] line 5103: [def stock_fund_stock_holder(symbol:
    str='601318')] calls [ak.stock_fund_stock_holder(symbol='601318')] *)
Definition stock_fund_stock_holder : tool :=
  mkTool "stock_fund_stock_holder"
    [("symbol", Some (PStr (py "601318")))]
    None "stock_fund_stock_holder" []
    [("symbol", Const (PStr (py "601318")))].

(** [server.py] line 5126: [def stock_gddh_em()] calls [ak.stock_gddh_em()]
    *)
Definition stock_gddh_em : tool :=
  mkTool "stock_gddh_em" [] None "stock_gddh_em" [] [].

(** [server.py] line 5149: [def stock_gdfx_free_holding_analyse_em(date:
    str='20230930')] calls
    [ak.stock_gdfx_free_holding_analyse_em(date='20230930')] *)
Definition stock_gdfx_free_holding_analyse_em : tool :=
  mkTool "stock_gdfx_free_holding_analyse_em"
    [("date", Some (PStr (py "20230930")))]
    None "stock_gdfx_free_holding_analyse_em" []
    [("date", Const (PStr (py "20230930")))].

(** [server.py] line 5172: [def stock_gdfx_free_holding_change_em(date:
    str='20210930')] calls
    [ak.stock_gdfx_free_holding_change_em(date='20210930')] *)
Definition stock_gdfx_free_holding_change_em : tool :=
  mkTool "stock_gdfx_free_holding_change_em"
    [("date", Some (PStr (py "20210930")))]
    None "stock_gdfx_free_holding_change_em" []
    [("date", Const (PStr (py "20210930")))].

(** [server.py] line 5195: [def stock_gdfx_free_holding_detail_em(date:
    str='20210930')] calls
    [ak.stock_gdfx_free_holding_detail_em(date='20210930')] *)
Definition stock_gdfx_free_holding_detail_em : tool :=
  mkTool "stock_gdfx_free_holding_detail_em"
    [("date", Some (PStr (py "20210930")))]
    None "stock_gdfx_free_holding_detail_em" []
    [("date", Const (PStr (py "20210930")))].

(** [server.py] line 5218: [def stock_gdfx_free_holding_statistics_em(date:
    str='20210930')] calls
    [ak.stock_gdfx_free_holding_statistics_em(date='20210930')] *)
Definition stock_gdfx_free_holding_statistics_em : tool :=
  mkTool "stock_gdfx_free_holding_statistics_em"
    [("date", Some (PStr (py "20210930")))]
    None "stock_gdfx_free_holding_statistics_em" []
    [("date", Const (PStr (py "20210930")))].

(** [server.py] line 5241: [def stock_gdfx_free_holding_teamwork_em(symbol:
    str='社保')] calls [ak.stock_gdfx_free_holding_teamwork_em(symbol='社保')] *)
Definition stock_gdfx_free_holding_teamwork_em : tool :=
  mkTool "stock_gdfx_free_holding_teamwork_em"
    [("symbol", Some (PStr [31038; 20445]%N))]
    None "stock_gdfx_free_holding_teamwork_em" []
    [("symbol", Const (PStr [31038; 20445]%N))].

(** [server.py] line 5264: [def stock_gdfx_free_top_10_em(symbol:
    str='sh688686', date: str='20240930')] calls
    [ak.stock_gdfx_free_top_10_em(symbol='sh688686', date='20240930')] *)
Definition stock_gdfx_free_top_10_em : tool :=
  mkTool "stock_gdfx_free_top_10_em"
    [("symbol", Some (PStr (py "sh688686")));
     ("date", Some (PStr (py "20240930")))]
    None "stock_gdfx_free_top_10_em" []
    [("symbol", Const (PStr (py "sh688686")));
     ("date", Const (PStr (py "20240930")))].

(** [server.py] line 5287: [def stock_gdfx_holding_analyse_em(date:
    str='20210930')] calls [ak.stock_gdfx_holding_analyse_em(date='20210930')]
    *)
Definition stock_gdfx_holding_analyse_em : tool :=
  mkTool "stock_gdfx_holding_analyse_em"
    [("date", Some (PStr (py "20210930")))]
    None "stock_gdfx_holding_analyse_em" []
    [("date", Const (PStr (py "20210930")))].

(** [server.py] line 5310: [def stock_gdfx_holding_change_em(date:
    str='20210930')] calls [ak.stock_gdfx_holding_change_em(date='20210930')] *)
Definition stock_gdfx_holding_change_em : tool :=
  mkTool "stock_gdfx_holding_change_em"
    [("date", Some (PStr (py "20210930")))]
    None "stock_gdfx_holding_change_em" []
    [("date", Const (PStr (py "20210930")))].

(** [server.py] line 5333: [def stock_gdfx_holding_detail_em(date:
    str='20230331', indicator: str='个人', symbol: str='新进')] calls
    [ak.stock_gdfx_holding_detail_em(date='20230331', indicator='个人',
    symbol='新进')] *)
Definition stock_gdfx_holding_detail_em : tool :=
  mkTool "stock_gdfx_holding_detail_em"
    [("date", Some (PStr (py "20230331")));
     ("indicator", Some (PStr [20010; 20154]%N));
     ("symbol", Some (PStr [26032; 36827]%N))]
    None "stock_gdfx_holding_detail_em" []
    [("date", Const (PStr (py "20230331")));
     ("indicator", Const (PStr [20010; 20154]%N));
     ("symbol", Const (PStr [26032; 36827]%N))].

(** [server.py] line 5356: [def stock_gdfx_holding_statistics_em(date:
    str='20210930')] calls
    [ak.stock_gdfx_holding_statistics_em(date='20210930')] *)
Definition stock_gdfx_holding_statistics_em : tool :=
  mkTool "stock_gdfx_holding_statistics_em"
    [("date", Some (PStr (py "20210930")))]
    None "stock_gdfx_holding_statistics_em" []
    [("date", Const (PStr (py "20210930")))].

(** [server.py] line 5379: [def stock_gdfx_holding_teamwork_em(symbol:
    str='社保')] calls [ak.stock_gdfx_holding_teamwork_em(symbol='社保')] *)
Definition stock_gdfx_holding_teamwork_em : tool :=
  mkTool "stock_gdfx_holding_teamwork_em"
    [("symbol", Some (PStr [31038; 20445]%N))]
    None "stock_gdfx_holding_teamwork_em" []
    [("symbol", Const (PStr [31038; 20445]%N))].

(** [server.py] line 5402: [def stock_gdfx_top_10_em(symbol: str='sh688686',
    date: str='20210630')] calls [ak.stock_gdfx_top_10_em(symbol='sh688686',
    date='20210630')] *)
Definition stock_gdfx_top_10_em : tool :=
  mkTool "stock_gdfx_top_10_em"
    [("symbol", Some (PStr (py "sh688686")));
     ("date", Some (PStr (py "20210630")))]
    None "stock_gdfx_top_10_em" []
    [("symbol", Const (PStr (py "sh688686")));
     ("date", Const (PStr (py "20210630")))].

(** [server.py] line 5425: [def stock_ggcg_em(symbol: str='全部')] calls
    [ak.stock_ggcg_em(symbol='全部')] *)
Definition stock_ggcg_em : tool :=
  mkTool "stock_ggcg_em"
    [("symbol", Some (PStr [20840; 37096]%N))]
    None "stock_ggcg_em" []
    [("symbol", Const (PStr [20840; 37096]%N))].

(** [server.py] line 5448: [def stock_gpzy_distribute_statistics_bank_em()]
    calls [ak.stock_gpzy_distribute_statistics_bank_em()] *)
Definition stock_gpzy_distribute_statistics_bank_em : tool :=
  mkTool "stock_gpzy_distribute_statistics_bank_em"
    []
    None "stock_gpzy_distribute_statistics_bank_em" []
    [].

(** [server.py] line 5471: [def
    stock_gpzy_distribute_statistics_company_em()] calls
    [ak.stock_gpzy_distribute_statistics_company_em()] *)
Definition stock_gpzy_distribute_statistics_company_em : tool :=
  mkTool "stock_gpzy_distribute_statistics_company_em"
    []
    None "stock_gpzy_distribute_statistics_company_em" []
    [].

(** [server.py] line 5494: [def stock_gpzy_industry_data_em()] calls
    [ak.stock_gpzy_industry_data_em()] *)
Definition stock_gpzy_industry_data_em : tool :=
  mkTool "stock_gpzy_industry_data_em"
    []
    None "stock_gpzy_industry_data_em" []
    [].

(** [server.py] line 5517: [def stock_gpzy_pledge_ratio_detail_em()] calls
    [ak.stock_gpzy_pledge_ratio_detail_em()] *)
Definition stock_gpzy_pledge_ratio_detail_em : tool :=
  mkTool "stock_gpzy_pledge_ratio_detail_em"
    []
    None "stock_gpzy_pledge_ratio_detail_em" []
    [].

(** [server.py] line 5540: [def stock_gpzy_pledge_ratio_em(date:
    str='20241220')] calls [ak.stock_gpzy_pledge_ratio_em(date='20241220')] *)
Definition stock_gpzy_pledge_ratio_em : tool :=
  mkTool "stock_gpzy_pledge_ratio_em"
    [("date", Some (PStr (py "20241220")))]
    None "stock_gpzy_pledge_ratio_em" []
    [("date", Const (PStr (py "20241220")))].

(** [server.py] line 5563: [def stock_gpzy_profile_em()] calls
    [ak.stock_gpzy_profile_em()] *)
Definition stock_gpzy_profile_em : tool :=
  mkTool "stock_gpzy_profile_em" [] None "stock_gpzy_profile_em" [] [].

(** [server.py] line 5586: [def stock_gsrl_gsdt_em(date: str='20230808')]
    calls [ak.stock_gsrl_gsdt_em(date='20230808')] *)
Definition stock_gsrl_gsdt_em : tool :=
  mkTool "stock_gsrl_gsdt_em"
    [("date", Some (PStr (py "20230808")))]
    None "stock_gsrl_gsdt_em" []
    [("date", Const (PStr (py "20230808")))].

(** [server.py] line 5609: [def stock_history_dividend()] calls
    [ak.stock_history_dividend()] *)
Definition stock_history_dividend : tool :=
  mkTool "stock_history_dividend" [] None "stock_history_dividend" [] [].

(** [server.py] line 5632: [def stock_history_dividend_detail(symbol:
    str='600012', indicator: str='分红')] calls
    [ak.stock_history_dividend_detail(symbol='600012', indicator='分红')] *)
Definition stock_history_dividend_detail : tool :=
  mkTool "stock_history_dividend_detail"
    [("symbol", Some (PStr (py "600012")));
     ("indicator", Some (PStr [20998; 32418]%N))]
    None "stock_history_dividend_detail" []
    [("symbol", Const (PStr (py "600012")));
     ("indicator", Const (PStr [20998; 32418]%N))].

(** [server.py] line 5655: [def stock_hk_fhpx_detail_ths(symbol:
    str='0700')] calls [ak.stock_hk_fhpx_detail_ths(symbol='0700')] *)
Definition stock_hk_fhpx_detail_ths : tool :=
  mkTool "stock_hk_fhpx_detail_ths"
    [("symbol", Some (PStr (py "0700")))]
    None "stock_hk_fhpx_detail_ths" []
    [("symbol", Const (PStr (py "0700")))].

(** [server.py] line 5678: [def stock_hk_ggt_components_em()] calls
    [ak.stock_hk_ggt_components_em()] *)
Definition stock_hk_ggt_components_em : tool :=
  mkTool "stock_hk_ggt_components_em"
    []
    None "stock_hk_ggt_components_em" []
    [].

(** [server.py] line 5701: [def stock_hk_gxl_lg()] calls
    [ak.stock_hk_gxl_lg()] *)
Definition stock_hk_gxl_lg : tool :=
  mkTool "stock_hk_gxl_lg" [] None "stock_hk_gxl_lg" [] [].

(** [server.py] line 5724: [def stock_hk_hist(symbol: str='01611', period:
    str='daily', adjust: str='', start_date: str='1979-09-01 09:32:00',
    end_date: str='2222-01-01 09:32:00')] calls [ak.stock_hk_hist()] *)
Definition stock_hk_hist : tool := Server.stock_hk_hist.

(** [server.py] line 5747: [def stock_hk_hist_min_em(symbol: str='01611',
    period: str='1', adjust: str='', start_date: str='1979-09-01 09:32:00',
    end_date: str='2222-01-01 09:32:00')] calls [ak.stock_hk_hist_min_em()] *)
Definition stock_hk_hist_min_em : tool :=
  mkTool "stock_hk_hist_min_em"
    [("symbol", Some (PStr (py "01611"))); ("period", Some (PStr (py "1")));
     ("adjust", Some (PStr (py "")));
     ("start_date", Some (PStr (py "1979-09-01 09:32:00")));
     ("end_date", Some (PStr (py "2222-01-01 09:32:00")))]
    None "stock_hk_hist_min_em" []
    [].

(** [server.py] line 5770: [def stock_hk_hot_rank_detail_em(symbol:
    str='00700')] calls [ak.stock_hk_hot_rank_detail_em(symbol='00700')] *)
Definition stock_hk_hot_rank_detail_em : tool :=
  mkTool "stock_hk_hot_rank_detail_em"
    [("symbol", Some (PStr (py "00700")))]
    None "stock_hk_hot_rank_detail_em" []
    [("symbol", Const (PStr (py "00700")))].

(** [server.py] line 5793: [def stock_hk_hot_rank_detail_realtime_em(symbol:
    str='00700')] calls
    [ak.stock_hk_hot_rank_detail_realtime_em(symbol='00700')] *)
Definition stock_hk_hot_rank_detail_realtime_em : tool :=
  mkTool "stock_hk_hot_rank_detail_realtime_em"
    [("symbol", Some (PStr (py "00700")))]
    None "stock_hk_hot_rank_detail_realtime_em" []
    [("symbol", Const (PStr (py "00700")))].

(** [server.py] line 5816: [def stock_hk_hot_rank_em()] calls
    [ak.stock_hk_hot_rank_em()] *)
Definition stock_hk_hot_rank_em : tool :=
  mkTool "stock_hk_hot_rank_em" [] None "stock_hk_hot_rank_em" [] [].

(** [server.py] line 5839: [def stock_hk_hot_rank_latest_em(symbol:
    str='00700')] calls [ak.stock_hk_hot_rank_latest_em(symbol='00700')] *)
Definition stock_hk_hot_rank_latest_em : tool :=
  mkTool "stock_hk_hot_rank_latest_em"
    [("symbol", Some (PStr (py "00700")))]
    None "stock_hk_hot_rank_latest_em" []
    [("symbol", Const (PStr (py "00700")))].

(** [server.py] line 5862: [def stock_hk_indicator_eniu(symbol:
    str='hk01093', indicator: str='市净率')] calls
    [ak.stock_hk_indicator_eniu(symbol='hk01093', indicator='市净率')] *)
Definition stock_hk_indicator_eniu : tool :=
  mkTool "stock_hk_indicator_eniu"
    [("symbol", Some (PStr (py "hk01093")));
     ("indicator", Some (PStr [24066; 20928; 29575]%N))]
    None "stock_hk_indicator_eniu" []
    [("symbol", Const (PStr (py "hk01093")));
     ("indicator", Const (PStr [24066; 20928; 29575]%N))].

(** [server.py] line 5885: [def stock_hk_main_board_spot_em()] calls
    [ak.stock_hk_main_board_spot_em()] *)
Definition stock_hk_main_board_spot_em : tool :=
  mkTool "stock_hk_main_board_spot_em"
    []
    None "stock_hk_main_board_spot_em" []
    [].

(** [server.py] line 5908: [def stock_hk_profit_forecast_et(symbol:
    str='00700')] calls [ak.stock_hk_profit_forecast_et(symbol='09999',
    indicator='盈利预测概览')] *)
Definition stock_hk_profit_forecast_et : tool :=
  mkTool "stock_hk_profit_forecast_et"
    [("symbol", Some (PStr (py "00700")))]
    None "stock_hk_profit_forecast_et" []
    [("symbol", Const (PStr (py "09999")));
     ("indicator", Const (PStr [30408; 21033; 39044; 27979; 27010; 35272]%N))].

(** [server.py] line 5931: [def stock_hk_spot()] calls [ak.stock_hk_spot()]
    *)
Definition stock_hk_spot : tool :=
  mkTool "stock_hk_spot" [] None "stock_hk_spot" [] [].

(** [server.py] line 5954: [def stock_hk_valuation_baidu(symbol:
    str='06969', indicator: str='总市值', period: str='近一年')] calls
    [ak.stock_hk_valuation_baidu(symbol='06969', indicator='总市值', period='近一年')]
    *)
Definition stock_hk_valuation_baidu : tool :=
  mkTool "stock_hk_valuation_baidu"
    [("symbol", Some (PStr (py "06969")));
     ("indicator", Some (PStr [24635; 24066; 20540]%N));
     ("period", Some (PStr [36817; 19968; 24180]%N))]
    None "stock_hk_valuation_baidu" []
    [("symbol", Const (PStr (py "06969")));
     ("indicator", Const (PStr [24635; 24066; 20540]%N));
     ("period", Const (PStr [36817; 19968; 24180]%N))].

(** [server.py] line 5977: [def stock_hold_change_cninfo(symbol: str='全部')]
    calls [ak.stock_hold_change_cninfo(symbol='全部')] *)
Definition stock_hold_change_cninfo : tool :=
  mkTool "stock_hold_change_cninfo"
    [("symbol", Some (PStr [20840; 37096]%N))]
    None "stock_hold_change_cninfo" []
    [("symbol", Const (PStr [20840; 37096]%N))].

(** [server.py] line 6000: [def stock_hold_control_cninfo(symbol: str='全部')]
    calls [ak.stock_hold_control_cninfo(symbol='全部')] *)
Definition stock_hold_control_cninfo : tool :=
  mkTool "stock_hold_control_cninfo"
    [("symbol", Some (PStr [20840; 37096]%N))]
    None "stock_hold_control_cninfo" []
    [("symbol", Const (PStr [20840; 37096]%N))].

(** [server.py] line 6023: [def stock_hold_management_detail_cninfo(symbol:
    str='增持')] calls [ak.stock_hold_management_detail_cninfo(symbol='增持')] *)
Definition stock_hold_management_detail_cninfo : tool :=
  mkTool "stock_hold_management_detail_cninfo"
    [("symbol", Some (PStr [22686; 25345]%N))]
    None "stock_hold_management_detail_cninfo" []
    [("symbol", Const (PStr [22686; 25345]%N))].

(** [server.py] line 6046: [def stock_hold_management_detail_em()] calls
    [ak.stock_hold_management_detail_em()] *)
Definition stock_hold_management_detail_em : tool :=
  mkTool "stock_hold_management_detail_em"
    []
    None "stock_hold_management_detail_em" []
    [].

(** [server.py] line 6069: [def stock_hold_management_person_em(symbol:
    str='001308', name: str='孙建华')] calls
    [ak.stock_hold_management_person_em(symbol='001308', name='孙建华')] *)
Definition stock_hold_management_person_em : tool :=
  mkTool "stock_hold_management_person_em"
    [("symbol", Some (PStr (py "001308")));
     ("name", Some (PStr [23385; 24314; 21326]%N))]
    None "stock_hold_management_person_em" []
    [("symbol", Const (PStr (py "001308")));
     ("name", Const (PStr [23385; 24314; 21326]%N))].

(** [server.py] line 6092: [def stock_hold_num_cninfo(date: str='20210630')]
    calls [ak.stock_hold_num_cninfo(date='20210630')] *)
Definition stock_hold_num_cninfo : tool :=
  mkTool "stock_hold_num_cninfo"
    [("date", Some (PStr (py "20210630")))]
    None "stock_hold_num_cninfo" []
    [("date", Const (PStr (py "20210630")))].

(** [server.py] line 6115: [def stock_hot_deal_xq(symbol: str='最热门')] calls
    [ak.stock_hot_deal_xq(symbol='最热门')] *)
Definition stock_hot_deal_xq : tool :=
  mkTool "stock_hot_deal_xq"
    [("symbol", Some (PStr [26368; 28909; 38376]%N))]
    None "stock_hot_deal_xq" []
    [("symbol", Const (PStr [26368; 28909; 38376]%N))].

(** [server.py] line 6138: [def stock_hot_follow_xq(symbol: str='最热门')]
    calls [ak.stock_hot_follow_xq(symbol='最热门')] *)
Definition stock_hot_follow_xq : tool :=
  mkTool "stock_hot_follow_xq"
    [("symbol", Some (PStr [26368; 28909; 38376]%N))]
    None "stock_hot_follow_xq" []
    [("symbol", Const (PStr [26368; 28909; 38376]%N))].

(** [server.py] line 6161: [def stock_hot_keyword_em(symbol:
    str='SZ000665')] calls [ak.stock_hot_keyword_em(symbol='SZ000665')] *)
Definition stock_hot_keyword_em : tool :=
  mkTool "stock_hot_keyword_em"
    [("symbol", Some (PStr (py "SZ000665")))]
    None "stock_hot_keyword_em" []
    [("symbol", Const (PStr (py "SZ000665")))].

(** [server.py] line 6184: [def stock_hot_rank_detail_em(symbol:
    str='SZ000665')] calls [ak.stock_hot_rank_detail_em(symbol='SZ000665')] *)
Definition stock_hot_rank_detail_em : tool :=
  mkTool "stock_hot_rank_detail_em"
    [("symbol", Some (PStr (py "SZ000665")))]
    None "stock_hot_rank_detail_em" []
    [("symbol", Const (PStr (py "SZ000665")))].

(** [server.py] line 6207: [def stock_hot_rank_detail_realtime_em(symbol:
    str='SZ000665')] calls
    [ak.stock_hot_rank_detail_realtime_em(symbol='SZ000665')] *)
Definition stock_hot_rank_detail_realtime_em : tool :=
  mkTool "stock_hot_rank_detail_realtime_em"
    [("symbol", Some (PStr (py "SZ000665")))]
    None "stock_hot_rank_detail_realtime_em" []
    [("symbol", Const (PStr (py "SZ000665")))].

(** [server.py] line 6230: [def stock_hot_rank_em()] calls
    [ak.stock_hot_rank_em()] *)
Definition stock_hot_rank_em : tool :=
  mkTool "stock_hot_rank_em" [] None "stock_hot_rank_em" [] [].

(** [server.py] line 6253: [def stock_hot_rank_latest_em(symbol:
    str='SZ000665')] calls [ak.stock_hot_rank_latest_em(symbol='SZ000665')] *)
Definition stock_hot_rank_latest_em : tool :=
  mkTool "stock_hot_rank_latest_em"
    [("symbol", Some (PStr (py "SZ000665")))]
    None "stock_hot_rank_latest_em" []
    [("symbol", Const (PStr (py "SZ000665")))].

(** [server.py] line 6276: [def stock_hot_rank_relate_em(symbol:
    str='SZ000665')] calls [ak.stock_hot_rank_relate_em(symbol='SZ000665')] *)
Definition stock_hot_rank_relate_em : tool :=
  mkTool "stock_hot_rank_relate_em"
    [("symbol", Some (PStr (py "SZ000665")))]
    None "stock_hot_rank_relate_em" []
    [("symbol", Const (PStr (py "SZ000665")))].

(** [server.py] line 6299: [def stock_hot_rank_wc(date: str='20240920')]
    calls [ak.stock_hot_rank_wc(date='20240920')] *)
Definition stock_hot_rank_wc : tool :=
  mkTool "stock_hot_rank_wc"
    [("date", Some (PStr (py "20240920")))]
    None "stock_hot_rank_wc" []
    [("date", Const (PStr (py "20240920")))].

(** [server.py] line 6322: [def stock_hot_search_baidu(symbol: str='A股',
    date: str='20240929', time: str='今日')] calls
    [ak.stock_hot_search_baidu(symbol='A股', date='20240929', time='今日')] *)
Definition stock_hot_search_baidu : tool :=
  mkTool "stock_hot_search_baidu"
    [("symbol", Some (PStr [65; 32929]%N));
     ("date", Some (PStr (py "20240929")));
     ("time", Some (PStr [20170; 26085]%N))]
    None "stock_hot_search_baidu" []
    [("symbol", Const (PStr [65; 32929]%N));
     ("date", Const (PStr (py "20240929")));
     ("time", Const (PStr [20170; 26085]%N))].

(** [server.py] line 6345: [def stock_hot_tweet_xq(symbol: str='最热门')] calls
    [ak.stock_hot_tweet_xq(symbol='最热门')] *)
Definition stock_hot_tweet_xq : tool :=
  mkTool "stock_hot_tweet_xq"
    [("symbol", Some (PStr [26368; 28909; 38376]%N))]
    None "stock_hot_tweet_xq" []
    [("symbol", Const (PStr [26368; 28909; 38376]%N))].

(** [server.py] line 6368: [def stock_hot_up_em()] calls
    [ak.stock_hot_up_em()] *)
Definition stock_hot_up_em : tool :=
  mkTool "stock_hot_up_em" [] None "stock_hot_up_em" [] [].

(** [server.py] line 6391: [def stock_hsgt_board_rank_em(symbol:
    str='北向资金增持行业板块排行', indicator: str='今日')] calls
    [ak.stock_hsgt_board_rank_em(symbol=symbol, indicator=indicator)] *)
Definition stock_hsgt_board_rank_em : tool :=
  mkTool "stock_hsgt_board_rank_em"
    [("symbol", Some (PStr [21271; 21521; 36164; 37329; 22686; 25345; 34892; 19994; 26495; 22359; 25490; 34892]%N));
     ("indicator", Some (PStr [20170; 26085]%N))]
    None "stock_hsgt_board_rank_em" []
    [("symbol", Name "symbol"); ("indicator", Name "indicator")].

(** [server.py] line 6466: [def stock_hsgt_fund_flow_summary_em()] calls
    [ak.stock_hsgt_fund_flow_summary_em()] *)
Definition stock_hsgt_fund_flow_summary_em : tool :=
  mkTool "stock_hsgt_fund_flow_summary_em"
    []
    None "stock_hsgt_fund_flow_summary_em" []
    [].

(** [server.py] line 6489: [def stock_hsgt_fund_min_em(symbol: str='北向资金')]
    calls [ak.stock_hsgt_fund_min_em(symbol='北向资金')] *)
Definition stock_hsgt_fund_min_em : tool :=
  mkTool "stock_hsgt_fund_min_em"
    [("symbol", Some (PStr [21271; 21521; 36164; 37329]%N))]
    None "stock_hsgt_fund_min_em" []
    [("symbol", Const (PStr [21271; 21521; 36164; 37329]%N))].

(** [server.py] line 6512: [def stock_hsgt_hist_em(symbol: str='北向资金')]
    calls [ak.stock_hsgt_hist_em(symbol=symbol)] *)
Definition stock_hsgt_hist_em : tool :=
  mkTool "stock_hsgt_hist_em"
    [("symbol", Some (PStr [21271; 21521; 36164; 37329]%N))]
    None "stock_hsgt_hist_em" []
    [("symbol", Name "symbol")].

(** [server.py] line 6606: [def stock_hsgt_hold_stock_em(market: str='北向',
    indicator: str='今日排行')] calls [ak.stock_hsgt_hold_stock_em(market=market,
    indicator=indicator)] *)
Definition stock_hsgt_hold_stock_em : tool :=
  mkTool "stock_hsgt_hold_stock_em"
    [("market", Some (PStr [21271; 21521]%N));
     ("indicator", Some (PStr [20170; 26085; 25490; 34892]%N))]
    None "stock_hsgt_hold_stock_em" []
    [("market", Name "market"); ("indicator", Name "indicator")].

(** [server.py] line 6678: [def stock_hsgt_individual_detail_em(symbol:
    str='600519')] calls [ak.stock_hsgt_individual_detail_em()] *)
Definition stock_hsgt_individual_detail_em : tool :=
  mkTool "stock_hsgt_individual_detail_em"
    [("symbol", Some (PStr (py "600519")))]
    None "stock_hsgt_individual_detail_em" []
    [].

(** [server.py] line 6701: [def stock_hsgt_individual_em(stock:
    str='002008')] calls [ak.stock_hsgt_individual_em(stock=stock)] *)
Definition stock_hsgt_individual_em : tool :=
  mkTool "stock_hsgt_individual_em"
    [("stock", Some (PStr (py "002008")))]
    None "stock_hsgt_individual_em" []
    [("stock", Name "stock")].

(** [server.py] line 6752: [def stock_hsgt_institution_statistics_em(market:
    str='北向持股', start_date: str='20201218', end_date: str='20201218')] calls
    [ak.stock_hsgt_institution_statistics_em(market=market,
    start_date=start_date, end_date=end_date)] *)
Definition stock_hsgt_institution_statistics_em : tool :=
  mkTool "stock_hsgt_institution_statistics_em"
    [("market", Some (PStr [21271; 21521; 25345; 32929]%N));
     ("start_date", Some (PStr (py "20201218")));
     ("end_date", Some (PStr (py "20201218")))]
    None "stock_hsgt_institution_statistics_em" []
    [("market", Name "market"); ("start_date", Name "start_date");
     ("end_date", Name "end_date")].

(** [server.py] line 6810: [def stock_hsgt_sh_hk_spot_em()] calls
    [ak.stock_hsgt_sh_hk_spot_em()] *)
Definition stock_hsgt_sh_hk_spot_em : tool :=
  mkTool "stock_hsgt_sh_hk_spot_em" [] None "stock_hsgt_sh_hk_spot_em" [] [].

(** [server.py] line 6863: [def stock_hsgt_stock_statistics_em(symbol:
    str='北向持股', start_date: str='20211027', end_date: str='20211027')] calls
    [ak.stock_hsgt_stock_statistics_em(symbol=symbol, start_date=start_date,
    end_date=end_date)] *)
Definition stock_hsgt_stock_statistics_em : tool :=
  mkTool "stock_hsgt_stock_statistics_em"
    [("symbol", Some (PStr [21271; 21521; 25345; 32929]%N));
     ("start_date", Some (PStr (py "20211027")));
     ("end_date", Some (PStr (py "20211027")))]
    None "stock_hsgt_stock_statistics_em" []
    [("symbol", Name "symbol"); ("start_date", Name "start_date");
     ("end_date", Name "end_date")].

(** [server.py] line 6929: [def stock_index_pb_lg(symbol: str='上证50')] calls
    [ak.stock_index_pb_lg(symbol=symbol)] *)
Definition stock_index_pb_lg : tool :=
  mkTool "stock_index_pb_lg"
    [("symbol", Some (PStr [19978; 35777; 53; 48]%N))]
    None "stock_index_pb_lg" []
    [("symbol", Name "symbol")].

(** [server.py] line 6975: [def stock_index_pe_lg(symbol: str='上证50')] calls
    [ak.stock_index_pe_lg(symbol=symbol)] *)
Definition stock_index_pe_lg : tool :=
  mkTool "stock_index_pe_lg"
    [("symbol", Some (PStr [19978; 35777; 53; 48]%N))]
    None "stock_index_pe_lg" []
    [("symbol", Name "symbol")].

(** [server.py] line 7027: [def stock_individual_spot_xq(symbol: str='SPY',
    timeout: float=None, token: float=None)] calls
    [ak.stock_individual_spot_xq(symbol=symbol, timeout=timeout, token=token)]
    *)
Definition stock_individual_spot_xq : tool :=
  mkTool "stock_individual_spot_xq"
    [("symbol", Some (PStr (py "SPY"))); ("timeout", Some PNone);
     ("token", Some PNone)]
    None "stock_individual_spot_xq" []
    [("symbol", Name "symbol"); ("timeout", Name "timeout");
     ("token", Name "token")].

(** [server.py] line 7072: [def stock_industry_category_cninfo(symbol:
    str='巨潮行业分类标准')] calls [ak.stock_industry_category_cninfo(symbol)] *)
Definition stock_industry_category_cninfo : tool :=
  mkTool "stock_industry_category_cninfo"
    [("symbol", Some (PStr [24040; 28526; 34892; 19994; 20998; 31867; 26631; 20934]%N))]
    None "stock_industry_category_cninfo" [Name "symbol"]
    [].

(** [server.py] line 7108: [def stock_industry_change_cninfo(symbol:
    str='002594', start_date: str='20091227', end_date: str='20220708')] calls
    [ak.stock_industry_change_cninfo(symbol=symbol, start_date=start_date,
    end_date=end_date)] *)
Definition stock_industry_change_cninfo : tool :=
  mkTool "stock_industry_change_cninfo"
    [("symbol", Some (PStr (py "002594")));
     ("start_date", Some (PStr (py "20091227")));
     ("end_date", Some (PStr (py "20220708")))]
    None "stock_industry_change_cninfo" []
    [("symbol", Name "symbol"); ("start_date", Name "start_date");
     ("end_date", Name "end_date")].

(** [server.py] line 7167: [def stock_industry_clf_hist_sw()] calls
    [ak.stock_industry_clf_hist_sw()] *)
Definition stock_industry_clf_hist_sw : tool :=
  mkTool "stock_industry_clf_hist_sw"
    []
    None "stock_industry_clf_hist_sw" []
    [].

(** [server.py] line 7204: [def stock_industry_pe_ratio_cninfo(symbol:
    str='国证行业分类', date: str='20240617')] calls
    [ak.stock_industry_pe_ratio_cninfo(symbol=symbol, date=date)] *)
Definition stock_industry_pe_ratio_cninfo : tool :=
  mkTool "stock_industry_pe_ratio_cninfo"
    [("symbol", Some (PStr [22269; 35777; 34892; 19994; 20998; 31867]%N));
     ("date", Some (PStr (py "20240617")))]
    None "stock_industry_pe_ratio_cninfo" []
    [("symbol", Name "symbol"); ("date", Name "date")].

(** [server.py] line 7265: [def stock_info_a_code_name()] calls
    [ak.stock_info_a_code_name()] *)
Definition stock_info_a_code_name : tool :=
  mkTool "stock_info_a_code_name" [] None "stock_info_a_code_name" [] [].

(** [server.py] line 7298: [def stock_info_bj_name_code()] calls
    [ak.stock_info_bj_name_code()] *)
Definition stock_info_bj_name_code : tool :=
  mkTool "stock_info_bj_name_code" [] None "stock_info_bj_name_code" [] [].

(** [server.py] line 7343: [def stock_info_change_name(symbol:
    str='000503')] calls [ak.stock_info_change_name(symbol=symbol)] *)
Definition stock_info_change_name : tool :=
  mkTool "stock_info_change_name"
    [("symbol", Some (PStr (py "000503")))]
    None "stock_info_change_name" []
    [("symbol", Name "symbol")].

(** [server.py] line 7376: [def stock_info_sh_delist(symbol: str='全部')]
    calls [ak.stock_info_sh_delist(symbol=symbol)] *)
Definition stock_info_sh_delist : tool :=
  mkTool "stock_info_sh_delist"
    [("symbol", Some (PStr [20840; 37096]%N))]
    None "stock_info_sh_delist" []
    [("symbol", Name "symbol")].

(** [server.py] line 7415: [def stock_info_sh_name_code(symbol: str='主板A股')]
    calls [ak.stock_info_sh_name_code(symbol=symbol)] *)
Definition stock_info_sh_name_code : tool :=
  mkTool "stock_info_sh_name_code"
    [("symbol", Some (PStr [20027; 26495; 65; 32929]%N))]
    None "stock_info_sh_name_code" []
    [("symbol", Name "symbol")].

(** [server.py] line 7450: [def stock_info_sz_change_name(symbol:
    str='全称变更')] calls [ak.stock_info_sz_change_name(symbol=symbol)] *)
Definition stock_info_sz_change_name : tool :=
  mkTool "stock_info_sz_change_name"
    [("symbol", Some (PStr [20840; 31216; 21464; 26356]%N))]
    None "stock_info_sz_change_name" []
    [("symbol", Name "symbol")].

(** [server.py] line 7491: [def stock_info_sz_delist(symbol: str='终止上市公司')]
    calls [ak.stock_info_sz_delist(symbol=symbol)] *)
Definition stock_info_sz_delist : tool :=
  mkTool "stock_info_sz_delist"
    [("symbol", Some (PStr [32456; 27490; 19978; 24066; 20844; 21496]%N))]
    None "stock_info_sz_delist" []
    [("symbol", Name "symbol")].

(** [server.py] line 7530: [def stock_info_sz_name_code(symbol: str='A股列表')]
    calls [ak.stock_info_sz_name_code(symbol=symbol)] *)
Definition stock_info_sz_name_code : tool :=
  mkTool "stock_info_sz_name_code"
    [("symbol", Some (PStr [65; 32929; 21015; 34920]%N))]
    None "stock_info_sz_name_code" []
    [("symbol", Name "symbol")].

(** [server.py] line 7569: [def stock_inner_trade_xq()] calls
    [ak.stock_inner_trade_xq()] *)
Definition stock_inner_trade_xq : tool :=
  mkTool "stock_inner_trade_xq" [] None "stock_inner_trade_xq" [] [].

(** [server.py] line 7616: [def stock_institute_hold_detail(stock:
    str='300003', quarter: str='20201')] calls
    [ak.stock_institute_hold_detail(stock=stock, quarter=quarter)] *)
Definition stock_institute_hold_detail : tool :=
  mkTool "stock_institute_hold_detail"
    [("stock", Some (PStr (py "300003")));
     ("quarter", Some (PStr (py "20201")))]
    None "stock_institute_hold_detail" []
    [("stock", Name "stock"); ("quarter", Name "quarter")].

(** [server.py] line 7674: [def stock_institute_recommend(symbol:
    str='投资评级选股')] calls [ak.stock_institute_recommend(symbol=symbol)] *)
Definition stock_institute_recommend : tool :=
  mkTool "stock_institute_recommend"
    [("symbol", Some (PStr [25237; 36164; 35780; 32423; 36873; 32929]%N))]
    None "stock_institute_recommend" []
    [("symbol", Name "symbol")].

(** [server.py] line 7724: [def stock_institute_recommend_detail(symbol:
    str='002709')] calls [ak.stock_institute_recommend_detail(symbol=symbol)] *)
Definition stock_institute_recommend_detail : tool :=
  mkTool "stock_institute_recommend_detail"
    [("symbol", Some (PStr (py "002709")))]
    None "stock_institute_recommend_detail" []
    [("symbol", Name "symbol")].

(** [server.py] line 7769: [def stock_intraday_sina(symbol: str='sz000001',
    date: str='20240321')] calls [ak.stock_intraday_sina(symbol=symbol,
    date=date)] *)
Definition stock_intraday_sina : tool :=
  mkTool "stock_intraday_sina"
    [("symbol", Some (PStr (py "sz000001")));
     ("date", Some (PStr (py "20240321")))]
    None "stock_intraday_sina" []
    [("symbol", Name "symbol"); ("date", Name "date")].

(** [server.py] line 7818: [def stock_ipo_benefit_ths()] calls
    [ak.stock_ipo_benefit_ths()] *)
Definition stock_ipo_benefit_ths : tool :=
  mkTool "stock_ipo_benefit_ths" [] None "stock_ipo_benefit_ths" [] [].

(** [server.py] line 7867: [def stock_ipo_declare()] calls
    [ak.stock_ipo_declare()] *)
Definition stock_ipo_declare : tool :=
  mkTool "stock_ipo_declare" [] None "stock_ipo_declare" [] [].

(** [server.py] line 7910: [def stock_ipo_info(stock: str='600004')] calls
    [ak.stock_ipo_info(stock=stock)] *)
Definition stock_ipo_info : tool :=
  mkTool "stock_ipo_info"
    [("stock", Some (PStr (py "600004")))]
    None "stock_ipo_info" []
    [("stock", Name "stock")].

(** [server.py] line 7951: [def stock_ipo_summary_cninfo(symbol:
    str='600030')] calls [ak.stock_ipo_summary_cninfo(symbol=symbol)] *)
Definition stock_ipo_summary_cninfo : tool :=
  mkTool "stock_ipo_summary_cninfo"
    [("symbol", Some (PStr (py "600030")))]
    None "stock_ipo_summary_cninfo" []
    [("symbol", Name "symbol")].

(** [server.py] line 8010: [def stock_irm_ans_cninfo(symbol:
    str='1495108801386602496')] calls [ak.stock_irm_ans_cninfo(symbol=symbol)]
    *)
Definition stock_irm_ans_cninfo : tool :=
  mkTool "stock_irm_ans_cninfo"
    [("symbol", Some (PStr (py "1495108801386602496")))]
    None "stock_irm_ans_cninfo" []
    [("symbol", Name "symbol")].

(** [server.py] line 8055: [def stock_irm_cninfo(symbol: str='002594')]
    calls [ak.stock_irm_cninfo(symbol=symbol)] *)
Definition stock_irm_cninfo : tool :=
  mkTool "stock_irm_cninfo"
    [("symbol", Some (PStr (py "002594")))]
    None "stock_irm_cninfo" []
    [("symbol", Name "symbol")].

(** [server.py] line 8112: [def stock_jgdy_detail_em(date: str='20241211')]
    calls [ak.stock_jgdy_detail_em(date=date)] *)
Definition stock_jgdy_detail_em : tool :=
  mkTool "stock_jgdy_detail_em"
    [("date", Some (PStr (py "20241211")))]
    None "stock_jgdy_detail_em" []
    [("date", Name "date")].

(** [server.py] line 8167: [def stock_jgdy_tj_em(date: str='20210128')]
    calls [ak.stock_jgdy_tj_em(date=date)] *)
Definition stock_jgdy_tj_em : tool :=
  mkTool "stock_jgdy_tj_em"
    [("date", Some (PStr (py "20210128")))]
    None "stock_jgdy_tj_em" []
    [("date", Name "date")].

(** [server.py] line 8218: [def stock_kc_a_spot_em()] calls
    [ak.stock_kc_a_spot_em()] *)
Definition stock_kc_a_spot_em : tool :=
  mkTool "stock_kc_a_spot_em" [] None "stock_kc_a_spot_em" [] [].

(** [server.py] line 8293: [def stock_lh_yyb_capital()] calls
    [ak.stock_lh_yyb_capital()] *)
Definition stock_lh_yyb_capital : tool :=
  mkTool "stock_lh_yyb_capital" [] None "stock_lh_yyb_capital" [] [].

(** [server.py] line 8336: [def stock_lh_yyb_control()] calls
    [ak.stock_lh_yyb_control()] *)
Definition stock_lh_yyb_control : tool :=
  mkTool "stock_lh_yyb_control" [] None "stock_lh_yyb_control" [] [].

(** [server.py] line 8377: [def stock_lh_yyb_most()] calls
    [ak.stock_lh_yyb_most()] *)
Definition stock_lh_yyb_most : tool :=
  mkTool "stock_lh_yyb_most" [] None "stock_lh_yyb_most" [] [].

(** [server.py] line 8420: [def stock_lhb_detail_daily_sina(date:
    str='20240222')] calls [ak.stock_lhb_detail_daily_sina(date=date)] *)
Definition stock_lhb_detail_daily_sina : tool :=
  mkTool "stock_lhb_detail_daily_sina"
    [("date", Some (PStr (py "20240222")))]
    None "stock_lhb_detail_daily_sina" []
    [("date", Name "date")].

(** [server.py] line 8465: [def stock_lhb_detail_em(start_date:
    str='20230403', end_date: str='20230417')] calls
    [ak.stock_lhb_detail_em(start_date=start_date, end_date=end_date)] *)
Definition stock_lhb_detail_em : tool :=
  mkTool "stock_lhb_detail_em"
    [("start_date", Some (PStr (py "20230403")));
     ("end_date", Some (PStr (py "20230417")))]
    None "stock_lhb_detail_em" []
    [("start_date", Name "start_date"); ("end_date", Name "end_date")].

(** [server.py] line 8538: [def stock_lhb_ggtj_sina(symbol: str='5')] calls
    [ak.stock_lhb_ggtj_sina(symbol=symbol)] *)
Definition stock_lhb_ggtj_sina : tool :=
  mkTool "stock_lhb_ggtj_sina"
    [("symbol", Some (PStr (py "5")))]
    None "stock_lhb_ggtj_sina" []
    [("symbol", Name "symbol")].

(** [server.py] line 8585: [def stock_lhb_hyyyb_em(start_date:
    str='20220324', end_date: str='20220324')] calls
    [ak.stock_lhb_hyyyb_em(start_date=start_date, end_date=end_date)] *)
Definition stock_lhb_hyyyb_em : tool :=
  mkTool "stock_lhb_hyyyb_em"
    [("start_date", Some (PStr (py "20220324")));
     ("end_date", Some (PStr (py "20220324")))]
    None "stock_lhb_hyyyb_em" []
    [("start_date", Name "start_date"); ("end_date", Name "end_date")].

(** [server.py] line 8634: [def stock_lhb_jgmmtj_em(start_date:
    str='20240417', end_date: str='20240430')] calls
    [ak.stock_lhb_jgmmtj_em(start_date=start_date, end_date=end_date)] *)
Definition stock_lhb_jgmmtj_em : tool :=
  mkTool "stock_lhb_jgmmtj_em"
    [("start_date", Some (PStr (py "20240417")));
     ("end_date", Some (PStr (py "20240430")))]
    None "stock_lhb_jgmmtj_em" []
    [("start_date", Name "start_date"); ("end_date", Name "end_date")].

(** [server.py] line 8697: [def stock_lhb_jgmx_sina()] calls
    [ak.stock_lhb_jgmx_sina()] *)
Definition stock_lhb_jgmx_sina : tool :=
  mkTool "stock_lhb_jgmx_sina" [] None "stock_lhb_jgmx_sina" [] [].

(** [server.py] line 8738: [def stock_lhb_jgstatistic_em(symbol: str='近一月')]
    calls [ak.stock_lhb_jgstatistic_em(symbol=symbol)] *)
Definition stock_lhb_jgstatistic_em : tool :=
  mkTool "stock_lhb_jgstatistic_em"
    [("symbol", Some (PStr [36817; 19968; 26376]%N))]
    None "stock_lhb_jgstatistic_em" []
    [("symbol", Name "symbol")].

(** [server.py] line 8801: [def stock_lhb_jgzz_sina(symbol: str='5')] calls
    [ak.stock_lhb_jgzz_sina(symbol=symbol)] *)
Definition stock_lhb_jgzz_sina : tool :=
  mkTool "stock_lhb_jgzz_sina"
    [("symbol", Some (PStr (py "5")))]
    None "stock_lhb_jgzz_sina" []
    [("symbol", Name "symbol")].

(** [server.py] line 8846: [def stock_lhb_stock_detail_em(symbol:
    str='600077', date: str='20070416', flag: str='买入')] calls
    [ak.stock_lhb_stock_detail_em(symbol=symbol, date=date, flag=flag)] *)
Definition stock_lhb_stock_detail_em : tool :=
  mkTool "stock_lhb_stock_detail_em"
    [("symbol", Some (PStr (py "600077")));
     ("date", Some (PStr (py "20070416")));
     ("flag", Some (PStr [20080; 20837]%N))]
    None "stock_lhb_stock_detail_em" []
    [("symbol", Name "symbol"); ("date", Name "date"); ("flag", Name "flag")].

(** [server.py] line 8897: [def stock_lhb_stock_statistic_em(symbol:
    str='近一月')] calls [ak.stock_lhb_stock_statistic_em(symbol=symbol)] *)
Definition stock_lhb_stock_statistic_em : tool :=
  mkTool "stock_lhb_stock_statistic_em"
    [("symbol", Some (PStr [36817; 19968; 26376]%N))]
    None "stock_lhb_stock_statistic_em" []
    [("symbol", Name "symbol")].

(** [server.py] line 8968: [def stock_lhb_traderstatistic_em(symbol:
    str='近一月')] calls [ak.stock_lhb_traderstatistic_em(symbol=symbol)] *)
Definition stock_lhb_traderstatistic_em : tool :=
  mkTool "stock_lhb_traderstatistic_em"
    [("symbol", Some (PStr [36817; 19968; 26376]%N))]
    None "stock_lhb_traderstatistic_em" []
    [("symbol", Name "symbol")].

(** [server.py] line 9015: [def stock_lhb_yybph_em(symbol: str='近一月')] calls
    [ak.stock_lhb_yybph_em(symbol=symbol)] *)
Definition stock_lhb_yybph_em : tool :=
  mkTool "stock_lhb_yybph_em"
    [("symbol", Some (PStr [36817; 19968; 26376]%N))]
    None "stock_lhb_yybph_em" []
    [("symbol", Name "symbol")].

(** [server.py] line 9080: [def stock_lhb_yytj_sina(symbol: str='5')] calls
    [ak.stock_lhb_yytj_sina(symbol=symbol)] *)
Definition stock_lhb_yytj_sina : tool :=
  mkTool "stock_lhb_yytj_sina"
    [("symbol", Some (PStr (py "5")))]
    None "stock_lhb_yytj_sina" []
    [("symbol", Name "symbol")].

(** [server.py] line 9125: [def stock_lrb_em(date: str='20240331')] calls
    [ak.stock_lrb_em(date=date)] *)
Definition stock_lrb_em : tool :=
  mkTool "stock_lrb_em"
    [("date", Some (PStr (py "20240331")))]
    None "stock_lrb_em" []
    [("date", Name "date")].

(** [server.py] line 9188: [def stock_main_fund_flow(symbol: str='全部股票')]
    calls [ak.stock_main_fund_flow(symbol=symbol)] *)
Definition stock_main_fund_flow : tool :=
  mkTool "stock_main_fund_flow"
    [("symbol", Some (PStr [20840; 37096; 32929; 31080]%N))]
    None "stock_main_fund_flow" []
    [("symbol", Name "symbol")].

(** [server.py] line 9249: [def stock_main_stock_holder(stock:
    str='600004')] calls [ak.stock_main_stock_holder(stock=stock)] *)
Definition stock_main_stock_holder : tool :=
  mkTool "stock_main_stock_holder"
    [("stock", Some (PStr (py "600004")))]
    None "stock_main_stock_holder" []
    [("stock", Name "stock")].

(** [server.py] line 9298: [def stock_management_change_ths(symbol:
    str='688981')] calls [ak.stock_management_change_ths(symbol=symbol)] *)
Definition stock_management_change_ths : tool :=
  mkTool "stock_management_change_ths"
    [("symbol", Some (PStr (py "688981")))]
    None "stock_management_change_ths" []
    [("symbol", Name "symbol")].

(** [server.py] line 9341: [def stock_margin_account_info()] calls
    [ak.stock_margin_account_info()] *)
Definition stock_margin_account_info : tool :=
  mkTool "stock_margin_account_info"
    []
    None "stock_margin_account_info" []
    [].

(** [server.py] line 9390: [def stock_margin_detail_sse(date:
    str='20230922')] calls [ak.stock_margin_detail_sse(date=date)] *)
Definition stock_margin_detail_sse : tool :=
  mkTool "stock_margin_detail_sse"
    [("date", Some (PStr (py "20230922")))]
    None "stock_margin_detail_sse" []
    [("date", Name "date")].

(** [server.py] line 9437: [def stock_margin_detail_szse(date:
    str='20230925')] calls [ak.stock_margin_detail_szse(date=date)] *)
Definition stock_margin_detail_szse : tool :=
  mkTool "stock_margin_detail_szse"
    [("date", Some (PStr (py "20230925")))]
    None "stock_margin_detail_szse" []
    [("date", Name "date")].

(** [server.py] line 9482: [def stock_margin_ratio_pa(date: str='20231013')]
    calls [ak.stock_margin_ratio_pa(date=date)] *)
Definition stock_margin_ratio_pa : tool :=
  mkTool "stock_margin_ratio_pa"
    [("date", Some (PStr (py "20231013")))]
    None "stock_margin_ratio_pa" []
    [("date", Name "date")].

(** [server.py] line 9519: [def stock_margin_szse(date: str='20240411')]
    calls [ak.stock_margin_szse(date=date)] *)
Definition stock_margin_szse : tool :=
  mkTool "stock_margin_szse"
    [("date", Some (PStr (py "20240411")))]
    None "stock_margin_szse" []
    [("date", Name "date")].

(** [server.py] line 9560: [def stock_market_pb_lg(symbol: str='上证')] calls
    [ak.stock_market_pb_lg(symbol=symbol)] *)
Definition stock_market_pb_lg : tool :=
  mkTool "stock_market_pb_lg"
    [("symbol", Some (PStr [19978; 35777]%N))]
    None "stock_market_pb_lg" []
    [("symbol", Name "symbol")].

(** [server.py] line 9599: [def stock_market_pe_lg(symbol: str='上证')] calls
    [ak.stock_market_pe_lg(symbol=symbol)] *)
Definition stock_market_pe_lg : tool :=
  mkTool "stock_market_pe_lg"
    [("symbol", Some (PStr [19978; 35777]%N))]
    None "stock_market_pe_lg" []
    [("symbol", Name "symbol")].

(** [server.py] line 9634: [def stock_mda_ym(symbol: str='000001')] calls
    [ak.stock_mda_ym(symbol=symbol)] *)
Definition stock_mda_ym : tool :=
  mkTool "stock_mda_ym"
    [("symbol", Some (PStr (py "000001")))]
    None "stock_mda_ym" []
    [("symbol", Name "symbol")].

(** [server.py] line 9667: [def stock_new_a_spot_em()] calls
    [ak.stock_new_a_spot_em()] *)
Definition stock_new_a_spot_em : tool :=
  mkTool "stock_new_a_spot_em" [] None "stock_new_a_spot_em" [] [].

(** [server.py] line 9738: [def stock_new_gh_cninfo()] calls
    [ak.stock_new_gh_cninfo()] *)
Definition stock_new_gh_cninfo : tool :=
  mkTool "stock_new_gh_cninfo" [] None "stock_new_gh_cninfo" [] [].

(** [server.py] line 9773: [def stock_new_ipo_cninfo()] calls
    [ak.stock_new_ipo_cninfo()] *)
Definition stock_new_ipo_cninfo : tool :=
  mkTool "stock_new_ipo_cninfo" [] None "stock_new_ipo_cninfo" [] [].

(** [server.py] line 9822: [def stock_news_main_cx()] calls
    [ak.stock_news_main_cx()] *)
Definition stock_news_main_cx : tool :=
  mkTool "stock_news_main_cx" [] None "stock_news_main_cx" [] [].

(** [server.py] line 9855: [def stock_pg_em()] calls [ak.stock_pg_em()] *)
Definition stock_pg_em : tool :=
  mkTool "stock_pg_em" [] None "stock_pg_em" [] [].

(** [server.py] line 9904: [def stock_price_js(symbol: str='us')] calls
    [ak.stock_price_js(symbol=symbol)] *)
Definition stock_price_js : tool :=
  mkTool "stock_price_js"
    [("symbol", Some (PStr (py "us")))]
    None "stock_price_js" []
    [("symbol", Name "symbol")].

(** [server.py] line 9949: [def stock_profile_cninfo(symbol: str='600030')]
    calls [ak.stock_profile_cninfo(symbol=symbol)] *)
Definition stock_profile_cninfo : tool :=
  mkTool "stock_profile_cninfo"
    [("symbol", Some (PStr (py "600030")))]
    None "stock_profile_cninfo" []
    [("symbol", Name "symbol")].

(** [server.py] line 10030: [def stock_profit_forecast_em()] calls
    [ak.stock_profit_forecast_em()] *)
Definition stock_profit_forecast_em : tool :=
  mkTool "stock_profit_forecast_em" [] None "stock_profit_forecast_em" [] [].

(** [server.py] line 10073: [def stock_profit_forecast_ths(symbol:
    str='600519', indicator: str='预测年报每股收益')] calls
    [ak.stock_profit_forecast_ths(symbol=symbol, indicator=indicator)] *)
Definition stock_profit_forecast_ths : tool :=
  mkTool "stock_profit_forecast_ths"
    [("symbol", Some (PStr (py "600519")));
     ("indicator", Some (PStr [39044; 27979; 24180; 25253; 27599; 32929; 25910; 30410]%N))]
    None "stock_profit_forecast_ths" []
    [("symbol", Name "symbol"); ("indicator", Name "indicator")].

(** [server.py] line 10128: [def stock_profit_sheet_by_quarterly_em(symbol:
    str='SH600519')] calls
    [ak.stock_profit_sheet_by_quarterly_em(symbol=symbol)] *)
Definition stock_profit_sheet_by_quarterly_em : tool :=
  mkTool "stock_profit_sheet_by_quarterly_em"
    [("symbol", Some (PStr (py "SH600519")))]
    None "stock_profit_sheet_by_quarterly_em" []
    [("symbol", Name "symbol")].

(** [server.py] line 10166: [def
    stock_profit_sheet_by_report_delisted_em(symbol: str='SZ000013')] calls
    [ak.stock_profit_sheet_by_report_delisted_em(symbol=symbol)] *)
Definition stock_profit_sheet_by_report_delisted_em : tool :=
  mkTool "stock_profit_sheet_by_report_delisted_em"
    [("symbol", Some (PStr (py "SZ000013")))]
    None "stock_profit_sheet_by_report_delisted_em" []
    [("symbol", Name "symbol")].

(** [server.py] line 10204: [def stock_profit_sheet_by_report_em(symbol:
    str='SH600519')] calls [ak.stock_profit_sheet_by_report_em(symbol=symbol)]
    *)
Definition stock_profit_sheet_by_report_em : tool :=
  mkTool "stock_profit_sheet_by_report_em"
    [("symbol", Some (PStr (py "SH600519")))]
    None "stock_profit_sheet_by_report_em" []
    [("symbol", Name "symbol")].

(** [server.py] line 10242: [def stock_profit_sheet_by_yearly_em(symbol:
    str='SH600519')] calls [ak.stock_profit_sheet_by_yearly_em(symbol=symbol)]
    *)
Definition stock_profit_sheet_by_yearly_em : tool :=
  mkTool "stock_profit_sheet_by_yearly_em"
    [("symbol", Some (PStr (py "SH600519")))]
    None "stock_profit_sheet_by_yearly_em" []
    [("symbol", Name "symbol")].

(** [server.py] line 10280: [def stock_qbzf_em()] calls [ak.stock_qbzf_em()]
    *)
Definition stock_qbzf_em : tool :=
  mkTool "stock_qbzf_em" [] None "stock_qbzf_em" [] [].

(** [server.py] line 10331: [def stock_qsjy_em(date: str='20200430')] calls
    [ak.stock_qsjy_em(date=date)] *)
Definition stock_qsjy_em : tool :=
  mkTool "stock_qsjy_em"
    [("date", Some (PStr (py "20200430")))]
    None "stock_qsjy_em" []
    [("date", Name "date")].

(** [server.py] line 10392: [def stock_rank_cxfl_ths()] calls
    [ak.stock_rank_cxfl_ths()] *)
Definition stock_rank_cxfl_ths : tool :=
  mkTool "stock_rank_cxfl_ths" [] None "stock_rank_cxfl_ths" [] [].

(** [server.py] line 10441: [def stock_rank_cxsl_ths()] calls
    [ak.stock_rank_cxsl_ths()] *)
Definition stock_rank_cxsl_ths : tool :=
  mkTool "stock_rank_cxsl_ths" [] None "stock_rank_cxsl_ths" [] [].

(** [server.py] line 10490: [def stock_rank_forecast_cninfo(date:
    str='20230817')] calls [ak.stock_rank_forecast_cninfo(date=date)] *)
Definition stock_rank_forecast_cninfo : tool :=
  mkTool "stock_rank_forecast_cninfo"
    [("date", Some (PStr (py "20230817")))]
    None "stock_rank_forecast_cninfo" []
    [("date", Name "date")].

(** [server.py] line 10543: [def stock_rank_ljqd_ths()] calls
    [ak.stock_rank_ljqd_ths()] *)
Definition stock_rank_ljqd_ths : tool :=
  mkTool "stock_rank_ljqd_ths" [] None "stock_rank_ljqd_ths" [] [].

(** [server.py] line 10588: [def stock_rank_ljqs_ths()] calls
    [ak.stock_rank_ljqs_ths()] *)
Definition stock_rank_ljqs_ths : tool :=
  mkTool "stock_rank_ljqs_ths" [] None "stock_rank_ljqs_ths" [] [].

(** [server.py] line 10633: [def stock_rank_xstp_ths(symbol: str='500日均线')]
    calls [ak.stock_rank_xstp_ths(symbol=symbol)] *)
Definition stock_rank_xstp_ths : tool :=
  mkTool "stock_rank_xstp_ths"
    [("symbol", Some (PStr [53; 48; 48; 26085; 22343; 32447]%N))]
    None "stock_rank_xstp_ths" []
    [("symbol", Name "symbol")].

(** [server.py] line 10682: [def stock_rank_xxtp_ths(symbol: str='500日均线')]
    calls [ak.stock_rank_xxtp_ths(symbol=symbol)] *)
Definition stock_rank_xxtp_ths : tool :=
  mkTool "stock_rank_xxtp_ths"
    [("symbol", Some (PStr [53; 48; 48; 26085; 22343; 32447]%N))]
    None "stock_rank_xxtp_ths" []
    [("symbol", Name "symbol")].

(** [server.py] line 10731: [def stock_rank_xzjp_ths()] calls
    [ak.stock_rank_xzjp_ths()] *)
Definition stock_rank_xzjp_ths : tool :=
  mkTool "stock_rank_xzjp_ths" [] None "stock_rank_xzjp_ths" [] [].

(** [server.py] line 10784: [def stock_register_bj()] calls
    [ak.stock_register_bj()] *)
Definition stock_register_bj : tool :=
  mkTool "stock_register_bj" [] None "stock_register_bj" [] [].

(** [server.py] line 10837: [def stock_register_cyb()] calls
    [ak.stock_register_cyb()] *)
Definition stock_register_cyb : tool :=
  mkTool "stock_register_cyb" [] None "stock_register_cyb" [] [].

(** [server.py] line 10890: [def stock_register_db()] calls
    [ak.stock_register_db()] *)
Definition stock_register_db : tool :=
  mkTool "stock_register_db" [] None "stock_register_db" [] [].

(** [server.py] line 10945: [def stock_register_kcb()] calls
    [ak.stock_register_kcb()] *)
Definition stock_register_kcb : tool :=
  mkTool "stock_register_kcb" [] None "stock_register_kcb" [] [].

(** [server.py] line 10998: [def stock_register_sh()] calls
    [ak.stock_register_sh()] *)
Definition stock_register_sh : tool :=
  mkTool "stock_register_sh" [] None "stock_register_sh" [] [].

(** [server.py] line 11051: [def stock_register_sz()] calls
    [ak.stock_register_sz()] *)
Definition stock_register_sz : tool :=
  mkTool "stock_register_sz" [] None "stock_register_sz" [] [].

(** [server.py] line 11104: [def stock_report_disclosure(market: str='沪深京',
    period: str='2022年报')] calls [ak.stock_report_disclosure(market=market,
    period=period)] *)
Definition stock_report_disclosure : tool :=
  mkTool "stock_report_disclosure"
    [("market", Some (PStr [27818; 28145; 20140]%N));
     ("period", Some (PStr [50; 48; 50; 50; 24180; 25253]%N))]
    None "stock_report_disclosure" []
    [("market", Name "market"); ("period", Name "period")].

(** [server.py] line 11153: [def stock_report_fund_hold(symbol: str='基金持仓',
    date: str='20200630')] calls [ak.stock_report_fund_hold(symbol=symbol,
    date=date)] *)
Definition stock_report_fund_hold : tool :=
  mkTool "stock_report_fund_hold"
    [("symbol", Some (PStr [22522; 37329; 25345; 20179]%N));
     ("date", Some (PStr (py "20200630")))]
    None "stock_report_fund_hold" []
    [("symbol", Name "symbol"); ("date", Name "date")].

(** [server.py] line 11206: [def stock_report_fund_hold_detail(symbol:
    str='005827', date: str='20201231')] calls
    [ak.stock_report_fund_hold_detail(symbol=symbol, date=date)] *)
Definition stock_report_fund_hold_detail : tool :=
  mkTool "stock_report_fund_hold_detail"
    [("symbol", Some (PStr (py "005827")));
     ("date", Some (PStr (py "20201231")))]
    None "stock_report_fund_hold_detail" []
    [("symbol", Name "symbol"); ("date", Name "date")].

(** [server.py] line 11255: [def stock_research_report_em(symbol:
    str='000001')] calls [ak.stock_research_report_em(symbol=symbol)] *)
Definition stock_research_report_em : tool :=
  mkTool "stock_research_report_em"
    [("symbol", Some (PStr (py "000001")))]
    None "stock_research_report_em" []
    [("symbol", Name "symbol")].

(** [server.py] line 11318: [def
    stock_restricted_release_detail_em(start_date: str='20221202', end_date:
    str='20221204')] calls
    [ak.stock_restricted_release_detail_em(start_date=start_date,
    end_date=end_date)] *)
Definition stock_restricted_release_detail_em : tool :=
  mkTool "stock_restricted_release_detail_em"
    [("start_date", Some (PStr (py "20221202")));
     ("end_date", Some (PStr (py "20221204")))]
    None "stock_restricted_release_detail_em" []
    [("start_date", Name "start_date"); ("end_date", Name "end_date")].

(** [server.py] line 11377: [def stock_restricted_release_queue_em(symbol:
    str='600000')] calls [ak.stock_restricted_release_queue_em(symbol='600000')]
    *)
Definition stock_restricted_release_queue_em : tool :=
  mkTool "stock_restricted_release_queue_em"
    [("symbol", Some (PStr (py "600000")))]
    None "stock_restricted_release_queue_em" []
    [("symbol", Const (PStr (py "600000")))].

(** [server.py] line 11434: [def stock_restricted_release_queue_sina(symbol:
    str='600000')] calls [ak.stock_restricted_release_queue_sina(symbol)] *)
Definition stock_restricted_release_queue_sina : tool :=
  mkTool "stock_restricted_release_queue_sina"
    [("symbol", Some (PStr (py "600000")))]
    None "stock_restricted_release_queue_sina" [Name "symbol"]
    [].

(** [server.py] line 11479: [def
    stock_restricted_release_stockholder_em(symbol: str='600000', date:
    str='20200904')] calls
    [ak.stock_restricted_release_stockholder_em(symbol=symbol, date=date)] *)
Definition stock_restricted_release_stockholder_em : tool :=
  mkTool "stock_restricted_release_stockholder_em"
    [("symbol", Some (PStr (py "600000")));
     ("date", Some (PStr (py "20200904")))]
    None "stock_restricted_release_stockholder_em" []
    [("symbol", Name "symbol"); ("date", Name "date")].

(** [server.py] line 11532: [def stock_restricted_release_summary_em(symbol:
    str='全部股票', start_date: str='20221108', end_date: str='20221209')] calls
    [ak.stock_restricted_release_summary_em(symbol, start_date, end_date)] *)
Definition stock_restricted_release_summary_em : tool :=
  mkTool "stock_restricted_release_summary_em"
    [("symbol", Some (PStr [20840; 37096; 32929; 31080]%N));
     ("start_date", Some (PStr (py "20221108")));
     ("end_date", Some (PStr (py "20221209")))]
    None "stock_restricted_release_summary_em" [Name "symbol"; Name "start_date"; Name "end_date"]
    [].

(** [server.py] line 11555: [def stock_sector_fund_flow_hist(symbol:
    str='汽车服务')] calls [ak.stock_sector_fund_flow_hist(symbol='汽车服务')] *)
Definition stock_sector_fund_flow_hist : tool :=
  mkTool "stock_sector_fund_flow_hist"
    [("symbol", Some (PStr [27773; 36710; 26381; 21153]%N))]
    None "stock_sector_fund_flow_hist" []
    [("symbol", Const (PStr [27773; 36710; 26381; 21153]%N))].

(** [server.py] line 11578: [def stock_sector_fund_flow_summary(symbol:
    str='电源设备', indicator: str='今日')] calls
    [ak.stock_sector_fund_flow_summary(symbol, indicator)] *)
Definition stock_sector_fund_flow_summary : tool :=
  mkTool "stock_sector_fund_flow_summary"
    [("symbol", Some (PStr [30005; 28304; 35774; 22791]%N));
     ("indicator", Some (PStr [20170; 26085]%N))]
    None "stock_sector_fund_flow_summary" [Name "symbol"; Name "indicator"]
    [].

(** [server.py] line 11601: [def stock_sgt_reference_exchange_rate_sse()]
    calls [ak.stock_sgt_reference_exchange_rate_sse()] *)
Definition stock_sgt_reference_exchange_rate_sse : tool :=
  mkTool "stock_sgt_reference_exchange_rate_sse"
    []
    None "stock_sgt_reference_exchange_rate_sse" []
    [].

(** [server.py] line 11624: [def stock_sgt_reference_exchange_rate_szse()]
    calls [ak.stock_sgt_reference_exchange_rate_szse()] *)
Definition stock_sgt_reference_exchange_rate_szse : tool :=
  mkTool "stock_sgt_reference_exchange_rate_szse"
    []
    None "stock_sgt_reference_exchange_rate_szse" []
    [].

(** [server.py] line 11647: [def stock_sgt_settlement_exchange_rate_sse()]
    calls [ak.stock_sgt_settlement_exchange_rate_sse()] *)
Definition stock_sgt_settlement_exchange_rate_sse : tool :=
  mkTool "stock_sgt_settlement_exchange_rate_sse"
    []
    None "stock_sgt_settlement_exchange_rate_sse" []
    [].

(** [server.py] line 11670: [def stock_sgt_settlement_exchange_rate_szse()]
    calls [ak.stock_sgt_settlement_exchange_rate_szse()] *)
Definition stock_sgt_settlement_exchange_rate_szse : tool :=
  mkTool "stock_sgt_settlement_exchange_rate_szse"
    []
    None "stock_sgt_settlement_exchange_rate_szse" []
    [].

(** [server.py] line 11693: [def stock_sh_a_spot_em()] calls
    [ak.stock_sh_a_spot_em()] *)
Definition stock_sh_a_spot_em : tool :=
  mkTool "stock_sh_a_spot_em" [] None "stock_sh_a_spot_em" [] [].

(** [server.py] line 11716: [def stock_share_change_cninfo(symbol:
    str='002594', start_date: str='20091227', end_date: str='20241021')] calls
    [ak.stock_share_change_cninfo(symbol=symbol, start_date=start_date,
    end_date=end_date)] *)
Definition stock_share_change_cninfo : tool :=
  mkTool "stock_share_change_cninfo"
    [("symbol", Some (PStr (py "002594")));
     ("start_date", Some (PStr (py "20091227")));
     ("end_date", Some (PStr (py "20241021")))]
    None "stock_share_change_cninfo" []
    [("symbol", Name "symbol"); ("start_date", Name "start_date");
     ("end_date", Name "end_date")].

(** [server.py] line 11739: [def stock_share_hold_change_bse(symbol:
    str='430489')] calls [ak.stock_share_hold_change_bse(symbol=symbol)] *)
Definition stock_share_hold_change_bse : tool :=
  mkTool "stock_share_hold_change_bse"
    [("symbol", Some (PStr (py "430489")))]
    None "stock_share_hold_change_bse" []
    [("symbol", Name "symbol")].

(** [server.py] line 11762: [def stock_share_hold_change_sse(symbol:
    str='600000')] calls [ak.stock_share_hold_change_sse(symbol=symbol)] *)
Definition stock_share_hold_change_sse : tool :=
  mkTool "stock_share_hold_change_sse"
    [("symbol", Some (PStr (py "600000")))]
    None "stock_share_hold_change_sse" []
    [("symbol", Name "symbol")].

(** [server.py] line 11785: [def stock_share_hold_change_szse(symbol:
    str='001308')] calls [ak.stock_share_hold_change_szse(symbol=symbol)] *)
Definition stock_share_hold_change_szse : tool :=
  mkTool "stock_share_hold_change_szse"
    [("symbol", Some (PStr (py "001308")))]
    None "stock_share_hold_change_szse" []
    [("symbol", Name "symbol")].

(** [server.py] line 11808: [def stock_shareholder_change_ths(symbol:
    str='688981')] calls [ak.stock_shareholder_change_ths(symbol=symbol)] *)
Definition stock_shareholder_change_ths : tool :=
  mkTool "stock_shareholder_change_ths"
    [("symbol", Some (PStr (py "688981")))]
    None "stock_shareholder_change_ths" []
    [("symbol", Name "symbol")].

(** [server.py] line 11831: [def stock_sns_sseinfo(symbol: str='603119')]
    calls [ak.stock_sns_sseinfo(symbol=symbol)] *)
Definition stock_sns_sseinfo : tool :=
  mkTool "stock_sns_sseinfo"
    [("symbol", Some (PStr (py "603119")))]
    None "stock_sns_sseinfo" []
    [("symbol", Name "symbol")].

(** [server.py] line 11854: [def stock_staq_net_stop()] calls
    [ak.stock_staq_net_stop()] *)
Definition stock_staq_net_stop : tool :=
  mkTool "stock_staq_net_stop" [] None "stock_staq_net_stop" [] [].

(** [server.py] line 11877: [def stock_sy_em(date: str='20240630')] calls
    [ak.stock_sy_em(date)] *)
Definition stock_sy_em : tool :=
  mkTool "stock_sy_em"
    [("date", Some (PStr (py "20240630")))]
    None "stock_sy_em" [Name "date"]
    [].

(** [server.py] line 11900: [def stock_sy_hy_em(date: str='20240930')] calls
    [ak.stock_sy_hy_em(date)] *)
Definition stock_sy_hy_em : tool :=
  mkTool "stock_sy_hy_em"
    [("date", Some (PStr (py "20240930")))]
    None "stock_sy_hy_em" [Name "date"]
    [].

(** [server.py] line 11923: [def stock_sy_jz_em(date: str='20230331')] calls
    [ak.stock_sy_jz_em(date)] *)
Definition stock_sy_jz_em : tool :=
  mkTool "stock_sy_jz_em"
    [("date", Some (PStr (py "20230331")))]
    None "stock_sy_jz_em" [Name "date"]
    [].

(** [server.py] line 11946: [def stock_sy_profile_em()] calls
    [ak.stock_sy_profile_em()] *)
Definition stock_sy_profile_em : tool :=
  mkTool "stock_sy_profile_em" [] None "stock_sy_profile_em" [] [].

(** [server.py] line 11969: [def stock_sy_yq_em(date: str='20221231')] calls
    [ak.stock_sy_yq_em(date)] *)
Definition stock_sy_yq_em : tool :=
  mkTool "stock_sy_yq_em"
    [("date", Some (PStr (py "20221231")))]
    None "stock_sy_yq_em" [Name "date"]
    [].

(** [server.py] line 11992: [def stock_sz_a_spot_em()] calls
    [ak.stock_sz_a_spot_em()] *)
Definition stock_sz_a_spot_em : tool :=
  mkTool "stock_sz_a_spot_em" [] None "stock_sz_a_spot_em" [] [].

(** [server.py] line 12015: [def stock_tfp_em(date: str='20240426')] calls
    [ak.stock_tfp_em(date=date)] *)
Definition stock_tfp_em : tool :=
  mkTool "stock_tfp_em"
    [("date", Some (PStr (py "20240426")))]
    None "stock_tfp_em" []
    [("date", Name "date")].

(** [server.py] line 12038: [def stock_us_famous_spot_em(symbol: str='科技类')]
    calls [ak.stock_us_famous_spot_em(symbol=symbol)] *)
Definition stock_us_famous_spot_em : tool :=
  mkTool "stock_us_famous_spot_em"
    [("symbol", Some (PStr [31185; 25216; 31867]%N))]
    None "stock_us_famous_spot_em" []
    [("symbol", Name "symbol")].

(** [server.py] line 12061: [def stock_us_hist_min_em(symbol:
    str='105.ATER')] calls [ak.stock_us_hist_min_em(symbol=symbol)] *)
Definition stock_us_hist_min_em : tool :=
  mkTool "stock_us_hist_min_em"
    [("symbol", Some (PStr (py "105.ATER")))]
    None "stock_us_hist_min_em" []
    [("symbol", Name "symbol")].

(** [server.py] line 12084: [def stock_us_pink_spot_em()] calls
    [ak.stock_us_pink_spot_em()] *)
Definition stock_us_pink_spot_em : tool :=
  mkTool "stock_us_pink_spot_em" [] None "stock_us_pink_spot_em" [] [].

(** [server.py] line 12107: [def stock_us_spot()] calls [ak.stock_us_spot()]
    *)
Definition stock_us_spot : tool :=
  mkTool "stock_us_spot" [] None "stock_us_spot" [] [].

(** [server.py] line 12130: [def stock_value_em(symbol: str='300766')] calls
    [ak.stock_value_em(symbol=symbol)] *)
Definition stock_value_em : tool :=
  mkTool "stock_value_em"
    [("symbol", Some (PStr (py "300766")))]
    None "stock_value_em" []
    [("symbol", Name "symbol")].

(** [server.py] line 12153: [def stock_xgsglb_em(symbol: str='全部股票')] calls
    [ak.stock_xgsglb_em(symbol=symbol)] *)
Definition stock_xgsglb_em : tool :=
  mkTool "stock_xgsglb_em"
    [("symbol", Some (PStr [20840; 37096; 32929; 31080]%N))]
    None "stock_xgsglb_em" []
    [("symbol", Name "symbol")].

(** [server.py] line 12176: [def stock_xgsr_ths()] calls
    [ak.stock_xgsr_ths()] *)
Definition stock_xgsr_ths : tool :=
  mkTool "stock_xgsr_ths" [] None "stock_xgsr_ths" [] [].

(** [server.py] line 12199: [def stock_xjll_em(date: str='20240331')] calls
    [ak.stock_xjll_em(date=date)] *)
Definition stock_xjll_em : tool :=
  mkTool "stock_xjll_em"
    [("date", Some (PStr (py "20240331")))]
    None "stock_xjll_em" []
    [("date", Name "date")].

(** [server.py] line 12222: [def stock_yjbb_em(date: str='20220331')] calls
    [ak.stock_yjbb_em(date=date)] *)
Definition stock_yjbb_em : tool :=
  mkTool "stock_yjbb_em"
    [("date", Some (PStr (py "20220331")))]
    None "stock_yjbb_em" []
    [("date", Name "date")].

(** [server.py] line 12245: [def stock_yjkb_em(date: str='20200331')] calls
    [ak.stock_yjkb_em(date=date)] *)
Definition stock_yjkb_em : tool :=
  mkTool "stock_yjkb_em"
    [("date", Some (PStr (py "20200331")))]
    None "stock_yjkb_em" []
    [("date", Name "date")].

(** [server.py] line 12268: [def stock_yjyg_em(date: str='20190331')] calls
    [ak.stock_yjyg_em(date)] *)
Definition stock_yjyg_em : tool :=
  mkTool "stock_yjyg_em"
    [("date", Some (PStr (py "20190331")))]
    None "stock_yjyg_em" [Name "date"]
    [].

(** [server.py] line 12291: [def stock_yysj_em(symbol: str='沪深A股', date:
    str='20211231')] calls [ak.stock_yysj_em(symbol, date)] *)
Definition stock_yysj_em : tool :=
  mkTool "stock_yysj_em"
    [("symbol", Some (PStr [27818; 28145; 65; 32929]%N));
     ("date", Some (PStr (py "20211231")))]
    None "stock_yysj_em" [Name "symbol"; Name "date"]
    [].

(** [server.py] line 12314: [def stock_yzxdr_em(date: str='20210331')] calls
    [ak.stock_yzxdr_em(date)] *)
Definition stock_yzxdr_em : tool :=
  mkTool "stock_yzxdr_em"
    [("date", Some (PStr (py "20210331")))]
    None "stock_yzxdr_em" [Name "date"]
    [].

(** [server.py] line 12337: [def stock_zcfz_bj_em(date: str='20240331')]
    calls [ak.stock_zcfz_bj_em(date)] *)
Definition stock_zcfz_bj_em : tool :=
  mkTool "stock_zcfz_bj_em"
    [("date", Some (PStr (py "20240331")))]
    None "stock_zcfz_bj_em" [Name "date"]
    [].

(** [server.py] line 12360: [def stock_zcfz_em(date: str='20240331')] calls
    [ak.stock_zcfz_em(date)] *)
Definition stock_zcfz_em : tool :=
  mkTool "stock_zcfz_em"
    [("date", Some (PStr (py "20240331")))]
    None "stock_zcfz_em" [Name "date"]
    [].

(** [server.py] line 12383: [def stock_zdhtmx_em(start_date: str='20220819',
    end_date: str='20230819')] calls [ak.stock_zdhtmx_em(start_date, end_date)]
    *)
Definition stock_zdhtmx_em : tool :=
  mkTool "stock_zdhtmx_em"
    [("start_date", Some (PStr (py "20220819")));
     ("end_date", Some (PStr (py "20230819")))]
    None "stock_zdhtmx_em" [Name "start_date"; Name "end_date"]
    [].

(** [server.py] line 12406: [def stock_zh_a_cdr_daily(symbol:
    str='sh689009', start_date: str='20201103', end_date: str='20201116')] calls
    [ak.stock_zh_a_cdr_daily(symbol, start_date, end_date)] *)
Definition stock_zh_a_cdr_daily : tool :=
  mkTool "stock_zh_a_cdr_daily"
    [("symbol", Some (PStr (py "sh689009")));
     ("start_date", Some (PStr (py "20201103")));
     ("end_date", Some (PStr (py "20201116")))]
    None "stock_zh_a_cdr_daily" [Name "symbol"; Name "start_date"; Name "end_date"]
    [].

(** [server.py] line 12429: [def
    stock_zh_a_disclosure_relation_cninfo(symbol: str='000001', market:
    str='沪深京', start_date: str='20230619', end_date: str='20231220')] calls
    [ak.stock_zh_a_disclosure_relation_cninfo(symbol, market, start_date,
    end_date)] *)
Definition stock_zh_a_disclosure_relation_cninfo : tool :=
  mkTool "stock_zh_a_disclosure_relation_cninfo"
    [("symbol", Some (PStr (py "000001")));
     ("market", Some (PStr [27818; 28145; 20140]%N));
     ("start_date", Some (PStr (py "20230619")));
     ("end_date", Some (PStr (py "20231220")))]
    None "stock_zh_a_disclosure_relation_cninfo" [Name "symbol"; Name "market"; Name "start_date"; Name "end_date"]
    [].

(** [server.py] line 12452: [def stock_zh_a_disclosure_report_cninfo(symbol:
    str='000001', market: str='沪深京', start_date: str='20230619', end_date:
    str='20231220')] calls [ak.stock_zh_a_disclosure_report_cninfo(symbol,
    market, category, start_date, end_date)] *)
Definition stock_zh_a_disclosure_report_cninfo : tool :=
  mkTool "stock_zh_a_disclosure_report_cninfo"
    [("symbol", Some (PStr (py "000001")));
     ("market", Some (PStr [27818; 28145; 20140]%N));
     ("start_date", Some (PStr (py "20230619")));
     ("end_date", Some (PStr (py "20231220")))]
    None "stock_zh_a_disclosure_report_cninfo" [Name "symbol"; Name "market"; Name "category"; Name "start_date";
     Name "end_date"]
    [].

(** [server.py] line 12475: [def stock_zh_a_gdhs(symbol: str='20230930')]
    calls [ak.stock_zh_a_gdhs(symbol)] *)
Definition stock_zh_a_gdhs : tool :=
  mkTool "stock_zh_a_gdhs"
    [("symbol", Some (PStr (py "20230930")))]
    None "stock_zh_a_gdhs" [Name "symbol"]
    [].

(** [server.py] line 12498: [def stock_zh_a_gdhs_detail_em(symbol:
    str='000001')] calls [ak.stock_zh_a_gdhs_detail_em(symbol)] *)
Definition stock_zh_a_gdhs_detail_em : tool :=
  mkTool "stock_zh_a_gdhs_detail_em"
    [("symbol", Some (PStr (py "000001")))]
    None "stock_zh_a_gdhs_detail_em" [Name "symbol"]
    [].

(** [server.py] line 12521: [def stock_zh_a_hist(symbol: str='000001',
    period: str='daily', start_date: str='20170301', end_date: str='20240528',
    adjust: str='')] calls [ak.stock_zh_a_hist(symbol=symbol, period=period,
    start_date=start_date, end_date=end_date, adjust=adjust)] *)
Definition stock_zh_a_hist : tool :=
  mkTool "stock_zh_a_hist"
    [("symbol", Some (PStr (py "000001")));
     ("period", Some (PStr (py "daily")));
     ("start_date", Some (PStr (py "20170301")));
     ("end_date", Some (PStr (py "20240528")));
     ("adjust", Some (PStr (py "")))]
    None "stock_zh_a_hist" []
    [("symbol", Name "symbol"); ("period", Name "period");
     ("start_date", Name "start_date"); ("end_date", Name "end_date");
     ("adjust", Name "adjust")].

(** [server.py] line 12588: [def stock_zh_a_hist_pre_min_em(symbol:
    str='000001', start_time: str='09:00:00', end_time: str='15:40:00')] calls
    [ak.stock_zh_a_hist_pre_min_em(symbol=symbol, start_time=start_time,
    end_time=end_time)] *)
Definition stock_zh_a_hist_pre_min_em : tool :=
  mkTool "stock_zh_a_hist_pre_min_em"
    [("symbol", Some (PStr (py "000001")));
     ("start_time", Some (PStr (py "09:00:00")));
     ("end_time", Some (PStr (py "15:40:00")))]
    None "stock_zh_a_hist_pre_min_em" []
    [("symbol", Name "symbol"); ("start_time", Name "start_time");
     ("end_time", Name "end_time")].

(** [server.py] line 12641: [def stock_zh_a_hist_tx(symbol: str='sz000001',
    start_date: str='20200101', end_date: str='20231027', adjust: str='')] calls
    [ak.stock_zh_a_hist_tx(symbol=symbol, start_date=start_date,
    end_date=end_date, adjust=adjust)] *)
Definition stock_zh_a_hist_tx : tool :=
  mkTool "stock_zh_a_hist_tx"
    [("symbol", Some (PStr (py "sz000001")));
     ("start_date", Some (PStr (py "20200101")));
     ("end_date", Some (PStr (py "20231027")));
     ("adjust", Some (PStr (py "")))]
    None "stock_zh_a_hist_tx" []
    [("symbol", Name "symbol"); ("start_date", Name "start_date");
     ("end_date", Name "end_date"); ("adjust", Name "adjust")].

(** [server.py] line 12692: [def stock_zh_a_new_em()] calls
    [ak.stock_zh_a_new_em()] *)
Definition stock_zh_a_new_em : tool :=
  mkTool "stock_zh_a_new_em" [] None "stock_zh_a_new_em" [] [].

(** [server.py] line 12753: [def stock_zh_a_tick_tx(symbol: str)] calls
    [ak.stock_zh_a_tick_tx_js(symbol=symbol)] *)
Definition stock_zh_a_tick_tx : tool :=
  mkTool "stock_zh_a_tick_tx"
    [("symbol", None)]
    None "stock_zh_a_tick_tx_js" []
    [("symbol", Name "symbol")].

(** [server.py] line 12798: [def stock_zh_ah_daily(symbol: str='02318',
    start_year: str='2022', end_year: str='2024', adjust: str='')] calls
    [ak.stock_zh_ah_daily(symbol=symbol, start_year=start_year,
    end_year=end_year, adjust=adjust)] *)
Definition stock_zh_ah_daily : tool :=
  mkTool "stock_zh_ah_daily"
    [("symbol", Some (PStr (py "02318")));
     ("start_year", Some (PStr (py "2022")));
     ("end_year", Some (PStr (py "2024"))); ("adjust", Some (PStr (py "")))]
    None "stock_zh_ah_daily" []
    [("symbol", Name "symbol"); ("start_year", Name "start_year");
     ("end_year", Name "end_year"); ("adjust", Name "adjust")].

(** [server.py] line 12845: [def stock_zh_ah_name()] calls
    [ak.stock_zh_ah_name()] *)
Definition stock_zh_ah_name : tool :=
  mkTool "stock_zh_ah_name" [] None "stock_zh_ah_name" [] [].

(** [server.py] line 12876: [def stock_zh_ah_spot()] calls
    [ak.stock_zh_ah_spot()] *)
Definition stock_zh_ah_spot : tool :=
  mkTool "stock_zh_ah_spot" [] None "stock_zh_ah_spot" [] [].

(** [server.py] line 12929: [def stock_zh_b_daily(symbol: str='sh900901',
    start_date: str='19900103', end_date: str='20240722', adjust: str='qfq')]
    calls [ak.stock_zh_b_daily(symbol, start_date, end_date, adjust)] *)
Definition stock_zh_b_daily : tool :=
  mkTool "stock_zh_b_daily"
    [("symbol", Some (PStr (py "sh900901")));
     ("start_date", Some (PStr (py "19900103")));
     ("end_date", Some (PStr (py "20240722")));
     ("adjust", Some (PStr (py "qfq")))]
    None "stock_zh_b_daily" [Name "symbol"; Name "start_date"; Name "end_date"; Name "adjust"]
    [].

(** [server.py] line 12952: [def stock_zh_b_minute(symbol: str='sh900901',
    period: str='1', adjust: str='qfq')] calls [ak.stock_zh_b_minute(symbol,
    period, adjust)] *)
Definition stock_zh_b_minute : tool :=
  mkTool "stock_zh_b_minute"
    [("symbol", Some (PStr (py "sh900901")));
     ("period", Some (PStr (py "1"))); ("adjust", Some (PStr (py "qfq")))]
    None "stock_zh_b_minute" [Name "symbol"; Name "period"; Name "adjust"]
    [].

(** [server.py] line 12975: [def stock_zh_b_spot()] calls
    [ak.stock_zh_b_spot()] *)
Definition stock_zh_b_spot : tool :=
  mkTool "stock_zh_b_spot" [] None "stock_zh_b_spot" [] [].

(** [server.py] line 12998: [def stock_zh_b_spot_em()] calls
    [ak.stock_zh_b_spot_em()] *)
Definition stock_zh_b_spot_em : tool :=
  mkTool "stock_zh_b_spot_em" [] None "stock_zh_b_spot_em" [] [].

(** [server.py] line 13021: [def stock_zh_kcb_daily(symbol: str='sh688399',
    adjust: str='hfq')] calls [ak.stock_zh_kcb_daily(symbol, adjust)] *)
Definition stock_zh_kcb_daily : tool :=
  mkTool "stock_zh_kcb_daily"
    [("symbol", Some (PStr (py "sh688399")));
     ("adjust", Some (PStr (py "hfq")))]
    None "stock_zh_kcb_daily" [Name "symbol"; Name "adjust"]
    [].

(** [server.py] line 13044: [def stock_zh_kcb_report_em(from_page: int=1,
    to_page: int=100)] calls [ak.stock_zh_kcb_report_em(from_page, to_page)] *)
Definition stock_zh_kcb_report_em : tool :=
  mkTool "stock_zh_kcb_report_em"
    [("from_page", Some (PInt 1%Z)); ("to_page", Some (PInt 100%Z))]
    None "stock_zh_kcb_report_em" [Name "from_page"; Name "to_page"]
    [].

(** [server.py] line 13067: [def stock_zh_kcb_spot()] calls
    [ak.stock_zh_kcb_spot()] *)
Definition stock_zh_kcb_spot : tool :=
  mkTool "stock_zh_kcb_spot" [] None "stock_zh_kcb_spot" [] [].

(** [server.py] line 13090: [def stock_zh_valuation_baidu(symbol:
    str='002044', indicator: str='总市值', period: str='近一年')] calls
    [ak.stock_zh_valuation_baidu(symbol, indicator, period)] *)
Definition stock_zh_valuation_baidu : tool :=
  mkTool "stock_zh_valuation_baidu"
    [("symbol", Some (PStr (py "002044")));
     ("indicator", Some (PStr [24635; 24066; 20540]%N));
     ("period", Some (PStr [36817; 19968; 24180]%N))]
    None "stock_zh_valuation_baidu" [Name "symbol"; Name "indicator"; Name "period"]
    [].

(** [server.py] line 13113: [def stock_zh_vote_baidu(symbol: str='000001',
    indicator: str='指数')] calls [ak.stock_zh_vote_baidu(symbo, indicator)] *)
Definition stock_zh_vote_baidu : tool := Server.stock_zh_vote_baidu.

(** [server.py] line 13136: [def stock_zt_pool_dtgc_em(date:
    str='20241011')] calls [ak.stock_zt_pool_dtgc_em(date)] *)
Definition stock_zt_pool_dtgc_em : tool :=
  mkTool "stock_zt_pool_dtgc_em"
    [("date", Some (PStr (py "20241011")))]
    None "stock_zt_pool_dtgc_em" [Name "date"]
    [].

(** [server.py] line 13159: [def stock_zt_pool_em(date: str='20241008')]
    calls [ak.stock_zt_pool_em(date)] *)
Definition stock_zt_pool_em : tool :=
  mkTool "stock_zt_pool_em"
    [("date", Some (PStr (py "20241008")))]
    None "stock_zt_pool_em" [Name "date"]
    [].

(** [server.py] line 13182: [def stock_zt_pool_previous_em(date:
    str='20240415')] calls [ak.stock_zt_pool_previous_em(date)] *)
Definition stock_zt_pool_previous_em : tool :=
  mkTool "stock_zt_pool_previous_em"
    [("date", Some (PStr (py "20240415")))]
    None "stock_zt_pool_previous_em" [Name "date"]
    [].

(** [server.py] line 13205: [def stock_zt_pool_strong_em(date:
    str='20241231')] calls [ak.stock_zt_pool_strong_em(date)] *)
Definition stock_zt_pool_strong_em : tool :=
  mkTool "stock_zt_pool_strong_em"
    [("date", Some (PStr (py "20241231")))]
    None "stock_zt_pool_strong_em" [Name "date"]
    [].

(** [server.py] line 13228: [def stock_zt_pool_sub_new_em(date:
    str='20241231')] calls [ak.stock_zt_pool_sub_new_em(date)] *)
Definition stock_zt_pool_sub_new_em : tool :=
  mkTool "stock_zt_pool_sub_new_em"
    [("date", Some (PStr (py "20241231")))]
    None "stock_zt_pool_sub_new_em" [Name "date"]
    [].

(** [server.py] line 13251: [def stock_zt_pool_zbgc_em(date:
    str='20241011')] calls [ak.stock_zt_pool_zbgc_em(date)] *)
Definition stock_zt_pool_zbgc_em : tool :=
  mkTool "stock_zt_pool_zbgc_em"
    [("date", Some (PStr (py "20241011")))]
    None "stock_zt_pool_zbgc_em" [Name "date"]
    [].

(** [server.py] line 13274: [def stock_zygc_em(symbol: str='000001', date:
    str='20231231')] calls [ak.stock_zygc_em(symbol)] *)
Definition stock_zygc_em : tool := Server.stock_zygc_em.

(** [server.py] line 13297: [def stock_zygc_ym(symbol: str='000001')] calls
    [ak.stock_zygc_ym(symbol)] *)
Definition stock_zygc_ym : tool :=
  mkTool "stock_zygc_ym"
    [("symbol", Some (PStr (py "000001")))]
    None "stock_zygc_ym" [Name "symbol"]
    [].

(** [server.py] line 13320: [def stock_zyjs_ths(symbol: str='000066')] calls
    [ak.stock_zyjs_ths(symbol=symbol)] *)
Definition stock_zyjs_ths : tool :=
  mkTool "stock_zyjs_ths"
    [("symbol", Some (PStr (py "000066")))]
    None "stock_zyjs_ths" []
    [("symbol", Name "symbol")].

(** The tools that [server.py] registers, in the order of the file. *)
Definition tools : list tool :=
  [stock_sse_summary; stock_szse_summary; stock_zh_a_spot_em;
   stock_szse_area_summary; stock_zh_a_daily; stock_zh_a_spot;
   stock_bj_a_spot_em; stock_individual_info_em; stock_bid_ask_em;
   stock_szse_sector_summary; stock_sse_deal_daily; stock_zh_a_minute;
   stock_zh_a_hist_min_em; stock_intraday_em; stock_zh_a_new;
   stock_zh_a_st_em; stock_zh_a_stop_em; stock_zh_ah_spot_em;
   stock_us_spot_em; stock_us_hist; stock_sector_spot; stock_sector_detail;
   stock_individual_fund_flow; stock_market_fund_flow;
   stock_sector_fund_flow_rank; stock_board_concept_name_em;
   stock_board_concept_cons_em; stock_board_industry_name_em;
   stock_board_industry_cons_em; stock_financial_analysis_indicator;
   stock_dividend_cninfo; stock_margin_sse; stock_institute_hold;
   stock_analyst_detail_em; stock_news_em; stock_notice_report;
   stock_individual_fund_flow_rank; stock_market_activity_legu;
   stock_hk_spot_em; stock_hk_daily; stock_us_daily; stock_repurchase_em;
   stock_margin_underlying_info_szse; stock_account_statistics_em;
   news_report_time_baidu; news_trade_notify_dividend_baidu;
   news_trade_notify_suspend_baidu; stock_a_all_pb;
   stock_a_below_net_asset_statistics; stock_a_congestion_lg; stock_a_gxl_lg;
   stock_a_high_low_statistics; stock_a_indicator_lg; stock_a_ttm_lyr;
   stock_add_stock; stock_allotment_cninfo; stock_analyst_rank_em;
   stock_balance_sheet_by_report_delisted_em;
   stock_balance_sheet_by_report_em; stock_balance_sheet_by_yearly_em;
   stock_board_change_em; stock_board_concept_hist_em;
   stock_board_concept_hist_min_em; stock_board_concept_index_ths;
   stock_board_concept_info_ths; stock_board_concept_spot_em;
   stock_board_industry_hist_em; stock_board_industry_hist_min_em;
   stock_board_industry_index_ths; stock_board_industry_spot_em;
   stock_board_industry_summary_ths; stock_buffett_index_lg;
   stock_cash_flow_sheet_by_quarterly_em;
   stock_cash_flow_sheet_by_report_delisted_em;
   stock_cash_flow_sheet_by_report_em; stock_cash_flow_sheet_by_yearly_em;
   stock_cg_equity_mortgage_cninfo; stock_cg_guarantee_cninfo;
   stock_cg_lawsuit_cninfo; stock_changes_em; stock_circulate_stock_holder;
   stock_comment_detail_scrd_cost_em;
   stock_comment_detail_scrd_desire_daily_em;
   stock_comment_detail_scrd_desire_em; stock_comment_detail_scrd_focus_em;
   stock_comment_detail_zhpj_lspf_em; stock_comment_detail_zlkp_jgcyd_em;
   stock_comment_em; stock_concept_cons_futu; stock_concept_fund_flow_hist;
   stock_cy_a_spot_em; stock_cyq_em; stock_dxsyl_em; stock_dzjy_hygtj;
   stock_dzjy_hyyybtj; stock_dzjy_mrmx; stock_dzjy_mrtj; stock_dzjy_sctj;
   stock_dzjy_yybph; stock_ebs_lg; stock_esg_hz_sina; stock_esg_msci_sina;
   stock_esg_rate_sina; stock_esg_rft_sina; stock_esg_zd_sina;
   stock_fhps_detail_em; stock_fhps_detail_ths; stock_fhps_em;
   stock_financial_abstract; stock_financial_abstract_ths;
   stock_financial_benefit_ths; stock_financial_cash_ths;
   stock_financial_debt_ths; stock_financial_hk_analysis_indicator_em;
   stock_financial_hk_report_em; stock_financial_report_sina;
   stock_financial_us_analysis_indicator_em; stock_financial_us_report_em;
   stock_fund_flow_big_deal; stock_fund_flow_concept;
   stock_fund_flow_individual; stock_fund_flow_industry;
   stock_fund_stock_holder; stock_gddh_em; stock_gdfx_free_holding_analyse_em;
   stock_gdfx_free_holding_change_em; stock_gdfx_free_holding_detail_em;
   stock_gdfx_free_holding_statistics_em; stock_gdfx_free_holding_teamwork_em;
   stock_gdfx_free_top_10_em; stock_gdfx_holding_analyse_em;
   stock_gdfx_holding_change_em; stock_gdfx_holding_detail_em;
   stock_gdfx_holding_statistics_em; stock_gdfx_holding_teamwork_em;
   stock_gdfx_top_10_em; stock_ggcg_em;
   stock_gpzy_distribute_statistics_bank_em;
   stock_gpzy_distribute_statistics_company_em; stock_gpzy_industry_data_em;
   stock_gpzy_pledge_ratio_detail_em; stock_gpzy_pledge_ratio_em;
   stock_gpzy_profile_em; stock_gsrl_gsdt_em; stock_history_dividend;
   stock_history_dividend_detail; stock_hk_fhpx_detail_ths;
   stock_hk_ggt_components_em; stock_hk_gxl_lg; stock_hk_hist;
   stock_hk_hist_min_em; stock_hk_hot_rank_detail_em;
   stock_hk_hot_rank_detail_realtime_em; stock_hk_hot_rank_em;
   stock_hk_hot_rank_latest_em; stock_hk_indicator_eniu;
   stock_hk_main_board_spot_em; stock_hk_profit_forecast_et; stock_hk_spot;
   stock_hk_valuation_baidu; stock_hold_change_cninfo;
   stock_hold_control_cninfo; stock_hold_management_detail_cninfo;
   stock_hold_management_detail_em; stock_hold_management_person_em;
   stock_hold_num_cninfo; stock_hot_deal_xq; stock_hot_follow_xq;
   stock_hot_keyword_em; stock_hot_rank_detail_em;
   stock_hot_rank_detail_realtime_em; stock_hot_rank_em;
   stock_hot_rank_latest_em; stock_hot_rank_relate_em; stock_hot_rank_wc;
   stock_hot_search_baidu; stock_hot_tweet_xq; stock_hot_up_em;
   stock_hsgt_board_rank_em; stock_hsgt_fund_flow_summary_em;
   stock_hsgt_fund_min_em; stock_hsgt_hist_em; stock_hsgt_hold_stock_em;
   stock_hsgt_individual_detail_em; stock_hsgt_individual_em;
   stock_hsgt_institution_statistics_em; stock_hsgt_sh_hk_spot_em;
   stock_hsgt_stock_statistics_em; stock_index_pb_lg; stock_index_pe_lg;
   stock_individual_spot_xq; stock_industry_category_cninfo;
   stock_industry_change_cninfo; stock_industry_clf_hist_sw;
   stock_industry_pe_ratio_cninfo; stock_info_a_code_name;
   stock_info_bj_name_code; stock_info_change_name; stock_info_sh_delist;
   stock_info_sh_name_code; stock_info_sz_change_name; stock_info_sz_delist;
   stock_info_sz_name_code; stock_inner_trade_xq; stock_institute_hold_detail;
   stock_institute_recommend; stock_institute_recommend_detail;
   stock_intraday_sina; stock_ipo_benefit_ths; stock_ipo_declare;
   stock_ipo_info; stock_ipo_summary_cninfo; stock_irm_ans_cninfo;
   stock_irm_cninfo; stock_jgdy_detail_em; stock_jgdy_tj_em;
   stock_kc_a_spot_em; stock_lh_yyb_capital; stock_lh_yyb_control;
   stock_lh_yyb_most; stock_lhb_detail_daily_sina; stock_lhb_detail_em;
   stock_lhb_ggtj_sina; stock_lhb_hyyyb_em; stock_lhb_jgmmtj_em;
   stock_lhb_jgmx_sina; stock_lhb_jgstatistic_em; stock_lhb_jgzz_sina;
   stock_lhb_stock_detail_em; stock_lhb_stock_statistic_em;
   stock_lhb_traderstatistic_em; stock_lhb_yybph_em; stock_lhb_yytj_sina;
   stock_lrb_em; stock_main_fund_flow; stock_main_stock_holder;
   stock_management_change_ths; stock_margin_account_info;
   stock_margin_detail_sse; stock_margin_detail_szse; stock_margin_ratio_pa;
   stock_margin_szse; stock_market_pb_lg; stock_market_pe_lg; stock_mda_ym;
   stock_new_a_spot_em; stock_new_gh_cninfo; stock_new_ipo_cninfo;
   stock_news_main_cx; stock_pg_em; stock_price_js; stock_profile_cninfo;
   stock_profit_forecast_em; stock_profit_forecast_ths;
   stock_profit_sheet_by_quarterly_em;
   stock_profit_sheet_by_report_delisted_em; stock_profit_sheet_by_report_em;
   stock_profit_sheet_by_yearly_em; stock_qbzf_em; stock_qsjy_em;
   stock_rank_cxfl_ths; stock_rank_cxsl_ths; stock_rank_forecast_cninfo;
   stock_rank_ljqd_ths; stock_rank_ljqs_ths; stock_rank_xstp_ths;
   stock_rank_xxtp_ths; stock_rank_xzjp_ths; stock_register_bj;
   stock_register_cyb; stock_register_db; stock_register_kcb;
   stock_register_sh; stock_register_sz; stock_report_disclosure;
   stock_report_fund_hold; stock_report_fund_hold_detail;
   stock_research_report_em; stock_restricted_release_detail_em;
   stock_restricted_release_queue_em; stock_restricted_release_queue_sina;
   stock_restricted_release_stockholder_em;
   stock_restricted_release_summary_em; stock_sector_fund_flow_hist;
   stock_sector_fund_flow_summary; stock_sgt_reference_exchange_rate_sse;
   stock_sgt_reference_exchange_rate_szse;
   stock_sgt_settlement_exchange_rate_sse;
   stock_sgt_settlement_exchange_rate_szse; stock_sh_a_spot_em;
   stock_share_change_cninfo; stock_share_hold_change_bse;
   stock_share_hold_change_sse; stock_share_hold_change_szse;
   stock_shareholder_change_ths; stock_sns_sseinfo; stock_staq_net_stop;
   stock_sy_em; stock_sy_hy_em; stock_sy_jz_em; stock_sy_profile_em;
   stock_sy_yq_em; stock_sz_a_spot_em; stock_tfp_em; stock_us_famous_spot_em;
   stock_us_hist_min_em; stock_us_pink_spot_em; stock_us_spot; stock_value_em;
   stock_xgsglb_em; stock_xgsr_ths; stock_xjll_em; stock_yjbb_em;
   stock_yjkb_em; stock_yjyg_em; stock_yysj_em; stock_yzxdr_em;
   stock_zcfz_bj_em; stock_zcfz_em; stock_zdhtmx_em; stock_zh_a_cdr_daily;
   stock_zh_a_disclosure_relation_cninfo; stock_zh_a_disclosure_report_cninfo;
   stock_zh_a_gdhs; stock_zh_a_gdhs_detail_em; stock_zh_a_hist;
   stock_zh_a_hist_pre_min_em; stock_zh_a_hist_tx; stock_zh_a_new_em;
   stock_zh_a_tick_tx; stock_zh_ah_daily; stock_zh_ah_name; stock_zh_ah_spot;
   stock_zh_b_daily; stock_zh_b_minute; stock_zh_b_spot; stock_zh_b_spot_em;
   stock_zh_kcb_daily; stock_zh_kcb_report_em; stock_zh_kcb_spot;
   stock_zh_valuation_baidu; stock_zh_vote_baidu; stock_zt_pool_dtgc_em;
   stock_zt_pool_em; stock_zt_pool_previous_em; stock_zt_pool_strong_em;
   stock_zt_pool_sub_new_em; stock_zt_pool_zbgc_em; stock_zygc_em;
   stock_zygc_ym; stock_zyjs_ths].

End ServerTools.

(** ** What the call of a wrapper reads *)

Definition memb (x : ident) (l : list ident) : bool :=
  existsb (String.eqb x) l.

Fixpoint nodupb (l : list ident) : bool :=
  match l with
  | [] => true
  | x :: rest => negb (memb x rest) && nodupb rest
  end.

Definition param_names (t : tool) : list ident := map fst (params t).

Definition expr_names (e : expr) : list ident :=
  match e with
  | Name x => [x]
  | Const _ => []
  end.

(** The names that the arguments of the call read, from left to right. *)
Definition names_read (t : tool) : list ident :=
  (flat_map expr_names (positional t)
   ++ flat_map (fun ke => expr_names (snd ke)) (keywords t))%list.

(** The names that the [try] block reads before the library is called:
    the one of the statement before the call, then those of the call. *)
Definition names_used (t : tool) : list ident :=
  (match today_if_none t with Some x => [x] | None => [] end
   ++ names_read t)%list.

(** Every name read is a parameter. *)
Definition reads_only_parameters (t : tool) : bool :=
  forallb (fun x => memb x (param_names t)) (names_used t).

(** The call is written with parameters only, a keyword argument under
    the parameter's own name, and every parameter occurs in it. *)
Definition forwardsb (t : tool) : bool :=
  match today_if_none t with None => true | Some _ => false end
  && nodupb (param_names t)
  && forallb (fun e => match e with
                       | Name x => memb x (param_names t)
                       | Const _ => false
                       end) (positional t)
  && forallb (fun ke => match snd ke with
                        | Name x => String.eqb (fst ke) x
                                    && memb x (param_names t)
                        | Const _ => false
                        end) (keywords t)
  && forallb (fun p => memb p (names_read t)) (param_names t).

(** The parameters that nothing in the [try] block reads. *)
Definition ignored_parameters (t : tool) : list ident :=
  filter (fun p => negb (memb p (names_used t))) (param_names t).

(** Two frames that bind every name but [p] alike. *)
Definition agree_except (p : ident) (f1 f2 : frame) : Prop :=
  forall x, x <> p -> Frame.get x f1 = Frame.get x f2.

(** The value a frame holds for a name. *)
Definition value_of (f : frame) (x : ident) : pyval :=
  match Frame.get x f with
  | Some v => v
  | None => PNone
  end.

(** The value of an argument in a frame that binds its name. *)
Definition expr_value (f : frame) (e : expr) : pyval :=
  match e with
  | Const v => v
  | Name x => value_of f x
  end.

Definition find_tool (name : ident) (l : list tool) : option tool :=
  find (fun t => String.eqb name (tool_name t)) l.

(** The tools of [src/server.py] whose call is not written with exactly
    their parameters. *)
Definition server_irregular : list ident :=
  ["stock_notice_report"; "stock_hk_daily"; "news_report_time_baidu";
   "news_trade_notify_dividend_baidu"; "news_trade_notify_suspend_baidu";
   "stock_a_gxl_lg"; "stock_add_stock"; "stock_board_concept_hist_em";
   "stock_board_concept_info_ths"; "stock_fhps_detail_em";
   "stock_fhps_detail_ths"; "stock_fhps_em"; "stock_financial_abstract";
   "stock_financial_abstract_ths"; "stock_financial_benefit_ths";
   "stock_financial_cash_ths"; "stock_financial_debt_ths";
   "stock_financial_hk_analysis_indicator_em"; "stock_financial_hk_report_em";
   "stock_financial_report_sina"; "stock_financial_us_analysis_indicator_em";
   "stock_financial_us_report_em"; "stock_fund_stock_holder";
   "stock_gdfx_free_holding_analyse_em"; "stock_gdfx_free_holding_change_em";
   "stock_gdfx_free_holding_detail_em";
   "stock_gdfx_free_holding_statistics_em";
   "stock_gdfx_free_holding_teamwork_em"; "stock_gdfx_free_top_10_em";
   "stock_gdfx_holding_analyse_em"; "stock_gdfx_holding_change_em";
   "stock_gdfx_holding_detail_em"; "stock_gdfx_holding_statistics_em";
   "stock_gdfx_holding_teamwork_em"; "stock_gdfx_top_10_em"; "stock_ggcg_em";
   "stock_gpzy_pledge_ratio_em"; "stock_gsrl_gsdt_em";
   "stock_history_dividend_detail"; "stock_hk_fhpx_detail_ths";
   "stock_hk_hist"; "stock_hk_hist_min_em"; "stock_hk_hot_rank_detail_em";
   "stock_hk_hot_rank_detail_realtime_em"; "stock_hk_hot_rank_latest_em";
   "stock_hk_indicator_eniu"; "stock_hk_profit_forecast_et";
   "stock_hk_valuation_baidu"; "stock_hold_change_cninfo";
   "stock_hold_control_cninfo"; "stock_hold_management_detail_cninfo";
   "stock_hold_management_person_em"; "stock_hold_num_cninfo";
   "stock_hot_deal_xq"; "stock_hot_follow_xq"; "stock_hot_keyword_em";
   "stock_hot_rank_detail_em"; "stock_hot_rank_detail_realtime_em";
   "stock_hot_rank_latest_em"; "stock_hot_rank_relate_em";
   "stock_hot_rank_wc"; "stock_hot_search_baidu"; "stock_hot_tweet_xq";
   "stock_hsgt_fund_min_em"; "stock_hsgt_individual_detail_em";
   "stock_restricted_release_queue_em"; "stock_sector_fund_flow_hist";
   "stock_zh_a_disclosure_report_cninfo"; "stock_zh_vote_baidu";
   "stock_zygc_em"].

(** The tools of [src/server.py] whose [try] block reads a name that is
    bound nowhere. *)
Definition server_unbound : list ident :=
  ["stock_hk_daily"; "stock_zh_a_disclosure_report_cninfo";
   "stock_zh_vote_baidu"].

(** The parameters of tools of [src/server.py] that the body never reads,
    each with its tool. *)
Definition server_ignored : list (ident * ident) :=
  [("news_report_time_baidu", "date");
   ("news_trade_notify_dividend_baidu", "date");
   ("news_trade_notify_suspend_baidu", "date"); ("stock_a_gxl_lg", "symbol");
   ("stock_add_stock", "symbol"); ("stock_board_concept_hist_em", "symbol");
   ("stock_board_concept_hist_em", "period");
   ("stock_board_concept_hist_em", "start_date");
   ("stock_board_concept_hist_em", "end_date");
   ("stock_board_concept_hist_em", "adjust");
   ("stock_board_concept_info_ths", "symbol");
   ("stock_fhps_detail_em", "symbol"); ("stock_fhps_detail_ths", "symbol");
   ("stock_fhps_em", "date"); ("stock_financial_abstract", "symbol");
   ("stock_financial_abstract_ths", "symbol");
   ("stock_financial_abstract_ths", "indicator");
   ("stock_financial_benefit_ths", "symbol");
   ("stock_financial_benefit_ths", "indicator");
   ("stock_financial_cash_ths", "symbol");
   ("stock_financial_cash_ths", "indicator");
   ("stock_financial_debt_ths", "symbol");
   ("stock_financial_debt_ths", "indicator");
   ("stock_financial_hk_analysis_indicator_em", "symbol");
   ("stock_financial_hk_analysis_indicator_em", "indicator");
   ("stock_financial_hk_report_em", "stock");
   ("stock_financial_hk_report_em", "symbol");
   ("stock_financial_hk_report_em", "indicator");
   ("stock_financial_report_sina", "stock");
   ("stock_financial_report_sina", "symbol");
   ("stock_financial_us_analysis_indicator_em", "symbol");
   ("stock_financial_us_analysis_indicator_em", "indicator");
   ("stock_financial_us_report_em", "stock");
   ("stock_financial_us_report_em", "symbol");
   ("stock_financial_us_report_em", "indicator");
   ("stock_fund_stock_holder", "symbol");
   ("stock_gdfx_free_holding_analyse_em", "date");
   ("stock_gdfx_free_holding_change_em", "date");
   ("stock_gdfx_free_holding_detail_em", "date");
   ("stock_gdfx_free_holding_statistics_em", "date");
   ("stock_gdfx_free_holding_teamwork_em", "symbol");
   ("stock_gdfx_free_top_10_em", "symbol");
   ("stock_gdfx_free_top_10_em", "date");
   ("stock_gdfx_holding_analyse_em", "date");
   ("stock_gdfx_holding_change_em", "date");
   ("stock_gdfx_holding_detail_em", "date");
   ("stock_gdfx_holding_detail_em", "indicator");
   ("stock_gdfx_holding_detail_em", "symbol");
   ("stock_gdfx_holding_statistics_em", "date");
   ("stock_gdfx_holding_teamwork_em", "symbol");
   ("stock_gdfx_top_10_em", "symbol"); ("stock_gdfx_top_10_em", "date");
   ("stock_ggcg_em", "symbol"); ("stock_gpzy_pledge_ratio_em", "date");
   ("stock_gsrl_gsdt_em", "date");
   ("stock_history_dividend_detail", "symbol");
   ("stock_history_dividend_detail", "indicator");
   ("stock_hk_fhpx_detail_ths", "symbol"); ("stock_hk_hist", "symbol");
   ("stock_hk_hist", "period"); ("stock_hk_hist", "adjust");
   ("stock_hk_hist", "start_date"); ("stock_hk_hist", "end_date");
   ("stock_hk_hist_min_em", "symbol"); ("stock_hk_hist_min_em", "period");
   ("stock_hk_hist_min_em", "adjust"); ("stock_hk_hist_min_em", "start_date");
   ("stock_hk_hist_min_em", "end_date");
   ("stock_hk_hot_rank_detail_em", "symbol");
   ("stock_hk_hot_rank_detail_realtime_em", "symbol");
   ("stock_hk_hot_rank_latest_em", "symbol");
   ("stock_hk_indicator_eniu", "symbol");
   ("stock_hk_indicator_eniu", "indicator");
   ("stock_hk_profit_forecast_et", "symbol");
   ("stock_hk_valuation_baidu", "symbol");
   ("stock_hk_valuation_baidu", "indicator");
   ("stock_hk_valuation_baidu", "period");
   ("stock_hold_change_cninfo", "symbol");
   ("stock_hold_control_cninfo", "symbol");
   ("stock_hold_management_detail_cninfo", "symbol");
   ("stock_hold_management_person_em", "symbol");
   ("stock_hold_management_person_em", "name");
   ("stock_hold_num_cninfo", "date"); ("stock_hot_deal_xq", "symbol");
   ("stock_hot_follow_xq", "symbol"); ("stock_hot_keyword_em", "symbol");
   ("stock_hot_rank_detail_em", "symbol");
   ("stock_hot_rank_detail_realtime_em", "symbol");
   ("stock_hot_rank_latest_em", "symbol");
   ("stock_hot_rank_relate_em", "symbol"); ("stock_hot_rank_wc", "date");
   ("stock_hot_search_baidu", "symbol"); ("stock_hot_search_baidu", "date");
   ("stock_hot_search_baidu", "time"); ("stock_hot_tweet_xq", "symbol");
   ("stock_hsgt_fund_min_em", "symbol");
   ("stock_hsgt_individual_detail_em", "symbol");
   ("stock_restricted_release_queue_em", "symbol");
   ("stock_sector_fund_flow_hist", "symbol");
   ("stock_zh_vote_baidu", "symbol"); ("stock_zygc_em", "date")].

(** The tools of [src/main.py] that [src/server.py] registers with other
    parameters, defaults or arguments. *)
Definition main_server_differ : list ident :=
  ["stock_zh_a_hist_min_em"; "stock_us_hist"; "stock_sector_spot";
   "stock_individual_fund_flow"; "stock_sector_fund_flow_rank";
   "stock_financial_analysis_indicator"; "stock_margin_sse";
   "stock_institute_hold"; "stock_news_em"; "stock_notice_report";
   "stock_hk_daily"].

(** ** Printable ASCII *)

(** The characters [' '] to ['~']. *)
Definition printable (c : ascii) : bool :=
  N.leb 32 (N_of_ascii c) && N.leb (N_of_ascii c) 126.

Fixpoint all_printable (s : string) : bool :=
  match s with
  | EmptyString => true
  | String c rest => printable c && all_printable rest
  end.

(** ** Tables and worlds used as examples *)

(** [n] rows of a date and a closing price, columns ["date"] and
    ["close"]. *)
Definition quotes (n : nat) : DataFrame :=
  mkDataFrame [LStr (py "date"); LStr (py "close")]
    (map (fun i => [Written (PInt (20240101 + Z.of_nat i));
                    Written (PFloat "10.5")]) (seq 0 n)).

(** [pd.DataFrame(index=[0])]: one row, no column. *)
Definition no_columns : DataFrame := mkDataFrame [] [[]].

(** A table whose two columns bear the same label. *)
Definition twice_a : DataFrame :=
  mkDataFrame [LStr (py "a"); LStr (py "a")]
              [[Written (PInt 1); Written (PInt 2)]].

(** A table with one column per day, labelled by [datetime.date]
    objects. *)
Definition by_day : DataFrame :=
  mkDataFrame [LStr (py "code"); LObject "date" (py "1704067200000")]
              [[Written (PStr (py "600000")); Written (PFloat "10.5")]].

(** The text [{"error": "No data available"}]. *)
Definition no_data_text : string :=
  "{" ++ String Json.quote "error" ++ String Json.quote ": "
      ++ String Json.quote "No data available" ++ String Json.quote "}".

(** The responses to [quotes 3]: with cap 2, with cap -1 and with cap
    3. *)
Definition first_two_of_three : pyval :=
  success (map (Pandas.record (columns (quotes 3)))
               [[PInt 20240101; PFloat "10.5"];
                [PInt 20240102; PFloat "10.5"]])
          [PStr (py "date"); PStr (py "close")] true 2 2.

Definition first_two_of_three_negative : pyval :=
  success (map (Pandas.record (columns (quotes 3)))
               [[PInt 20240101; PFloat "10.5"];
                [PInt 20240102; PFloat "10.5"]])
          [PStr (py "date"); PStr (py "close")] true 2 (-1).

Definition all_three : pyval :=
  success (map (Pandas.record (columns (quotes 3)))
               [[PInt 20240101; PFloat "10.5"];
                [PInt 20240102; PFloat "10.5"];
                [PInt 20240103; PFloat "10.5"]])
          [PStr (py "date"); PStr (py "close")] false 3 3.

(** A library that answers every call with the same table, and one that
    always fails. *)
Definition ak_quotes (n : nat) (c : call) : result (option DataFrame) :=
  Ok (Some (quotes n)).

Definition timed_out : exn :=
  mkExn "ConnectionError" true (py "timed out").

Definition ak_down (c : call) : result (option DataFrame) := Raise timed_out.

(** Ctrl-C while the library waits for the network. *)
Definition interrupted : exn := mkExn "KeyboardInterrupt" false (py "").

Definition ak_interrupted (c : call) : result (option DataFrame) :=
  Raise interrupted.

Unset Implicit Arguments.

Local Open Scope Z_scope.

(** "truncated if and only if total_rows exceeds the cap", on the fields
    of a response. *)
Definition truncated_iff_over_cap (max_rows : Z) (env : pyval) : Prop :=
  forall t n,
    field "truncated" env = Some (PBool t) ->
    field "total_rows" env = Some (PInt n) ->
    (t = true <-> (n > max_rows)%Z).

(** The counts of a response agree with each other and with the data
    list, and stay within the cap. *)
Definition counts_agree (max_rows : Z) (env : pyval) : Prop :=
  exists n data,
    field "total_rows" env = Some (PInt n) /\
    field "displayed_rows" env = Some (PInt n) /\
    field "data" env = Some (PList data) /\
    Z.of_nat (List.length data) = n /\
    n <= max_rows.

(** What the handler of a wrapper makes of an exception. *)
Definition handled (e : exn) : result string :=
  if is_Exception e then Ok (error_json e) else Raise e.

(** What a wrapper returns once its call [c] is made. *)
Definition answer (ak : call -> result (option DataFrame)) (c : call)
  : result string :=
  match ak c with
  | Raise e => handled e
  | Ok df =>
      match format_dataframe_to_json df default_max_rows with
      | Ok s => Ok s
      | Raise e => handled e
      end
  end.

(** A library that answers every call with the table [twice_a], and one
    that answers with [by_day]. *)
Definition ak_twice_a (c : call) : result (option DataFrame) :=
  Ok (Some twice_a).

Definition ak_by_day (c : call) : result (option DataFrame) :=
  Ok (Some by_day).

(** ** Basic facts *)

Lemma format_dataframe_to_json_response df max_rows :
  format_dataframe_to_json df max_rows =
  bind (response df max_rows) (fun r => Ok (Json.dumps r)).
Proof.
  unfold format_dataframe_to_json, response.
  destruct df as [d|]; [|reflexivity].
  destruct (Pandas.empty d); [reflexivity|].
  destruct (Pandas.len d >? max_rows); cbn;
    match goal with
    | |- context [Pandas.to_json_records ?x] =>
        destruct (Pandas.to_json_records x); cbn; [|reflexivity]
    end;
    match goal with
    | |- context [Pandas.tolist ?x] =>
        destruct (Pandas.tolist x); reflexivity
    end.
Qed.

Lemma slice_to_nonneg (A : Type) (n : Z) (l : list A) :
  0 <= n -> Pandas.slice_to n l = firstn (Z.to_nat n) l.
Proof.
  intros Hn. unfold Pandas.slice_to.
  destruct (Z.ltb_spec n 0); [lia | reflexivity].
Qed.

Lemma slice_to_firstn (A : Type) (n : Z) (l : list A) :
  exists k, Pandas.slice_to n l = firstn k l.
Proof. unfold Pandas.slice_to. destruct (n <? 0); eexists; reflexivity. Qed.

Lemma len_head_below n df :
  0 <= n <= Pandas.len df -> Pandas.len (Pandas.head n df) = n.
Proof.
  intros Hn. unfold Pandas.len, Pandas.head in *. cbn [rows] in *.
  rewrite slice_to_nonneg by lia.
  rewrite length_firstn. lia.
Qed.

Lemma len_nonneg df : 0 <= Pandas.len df.
Proof. unfold Pandas.len. lia. Qed.

Lemma len_head_le n df : Pandas.len (Pandas.head n df) <= Pandas.len df.
Proof.
  unfold Pandas.len, Pandas.head. cbn [rows].
  destruct (slice_to_firstn _ n (rows df)) as [k ->].
  rewrite length_firstn. lia.
Qed.

(** Rows without a refused cell are all written, one record each. *)
Lemma read_row_written row :
  forallb (fun c => match c with
                    | Written _ => true
                    | Refused _ => false
                    end) row = true ->
  exists vs, Pandas.read_row row = Ok vs.
Proof.
  induction row as [|[v|e] row IH]; cbn; intros H.
  - now exists [].
  - destruct (IH H) as [vs ->]. now eexists.
  - discriminate.
Qed.

Lemma records_written labels rs :
  Pandas.cells_written rs = true ->
  exists data, Pandas.records labels rs = Ok data.
Proof.
  unfold Pandas.cells_written.
  induction rs as [|row rs IH]; cbn [forallb Pandas.records]; intros H.
  - now exists [].
  - apply andb_true_iff in H as [Hrow Hrs].
    destruct (read_row_written row Hrow) as [vs ->].
    destruct (IH Hrs) as [ds ->]. now eexists.
Qed.

Lemma records_length labels rs data :
  Pandas.records labels rs = Ok data -> List.length data = List.length rs.
Proof.
  revert data. induction rs as [|row rs IH]; cbn; intros data H.
  - now injection H as <-.
  - destruct (Pandas.read_row row); [|discriminate]. cbn in H.
    destruct (Pandas.records labels rs) as [ds|]; [|discriminate].
    cbn in H. injection H as <-. cbn. f_equal. now apply IH.
Qed.

Lemma cells_written_firstn k rs :
  Pandas.cells_written rs = true ->
  Pandas.cells_written (firstn k rs) = true.
Proof.
  unfold Pandas.cells_written. intros H.
  apply forallb_forall. intros row Hin.
  rewrite forallb_forall in H. apply H.
  rewrite <- (firstn_skipn k rs). apply in_or_app. now left.
Qed.

(** Labels of known classes are all written, in order. *)
Lemma tolist_values labels cols :
  Pandas.tolist labels = Ok cols ->
  map Pandas.label_value labels = map Some cols.
Proof.
  revert cols. induction labels as [|[s|z|c k] labels IH]; cbn;
    intros cols H; try discriminate.
  - now injection H as <-.
  - destruct (Pandas.tolist labels) as [vs|]; [|discriminate].
    cbn in H. injection H as <-. cbn. f_equal. now apply IH.
  - destruct (Pandas.tolist labels) as [vs|]; [|discriminate].
    cbn in H. injection H as <-. cbn. f_equal. now apply IH.
Qed.

Lemma tolist_writable labels :
  Pandas.labels_writable labels = true ->
  exists cols, Pandas.tolist labels = Ok cols.
Proof.
  unfold Pandas.labels_writable.
  induction labels as [|[s|z|c k] labels IH]; cbn; intros H.
  - now exists [].
  - destruct (IH H) as [vs ->]. now eexists.
  - destruct (IH H) as [vs ->]. now eexists.
  - discriminate.
Qed.

Lemma to_json_records_unique df :
  Pandas.is_unique (columns df) = true ->
  Pandas.to_json_records df = Pandas.records (columns df) (rows df).
Proof. intros H. unfold Pandas.to_json_records. now rewrite H. Qed.

(** The branch taken when the table fits the cap. *)
Lemma response_fits df max_rows :
  Pandas.empty df = false ->
  Pandas.len df <= max_rows ->
  response (Some df) max_rows =
  bind (Pandas.to_json_records df)
       (fun data =>
          bind (Pandas.tolist (columns df))
               (fun cols => Ok (success data cols false
                                        (Pandas.len df) (Pandas.len df)))).
Proof.
  intros He Hle. unfold response. rewrite He.
  destruct (Z.gtb_spec (Pandas.len df) max_rows); [lia|].
  rewrite Z.min_r by lia. reflexivity.
Qed.

(** The branch taken when the table exceeds the cap: every field is read
    from the table that [head] returned. *)
Lemma response_exceeds df max_rows :
  Pandas.empty df = false ->
  max_rows < Pandas.len df ->
  response (Some df) max_rows =
  bind (Pandas.to_json_records (Pandas.head max_rows df))
       (fun data =>
          bind (Pandas.tolist (columns df))
               (fun cols =>
                  Ok (success data cols true
                        (Pandas.len (Pandas.head max_rows df))
                        (Z.min max_rows
                               (Pandas.len (Pandas.head max_rows df)))))).
Proof.
  intros He Hlt. unfold response. rewrite He.
  destruct (Z.gtb_spec (Pandas.len df) max_rows); [|lia].
  reflexivity.
Qed.

(** A writable table with distinct labels: its records and its labels as
    [json] writes them. *)
Lemma writable_parts df k :
  Pandas.writable df = true ->
  exists data cols,
    Pandas.records (columns df) (firstn k (rows df)) = Ok data /\
    Pandas.tolist (columns df) = Ok cols.
Proof.
  unfold Pandas.writable. intros H. apply andb_true_iff in H as [Hl Hc].
  destruct (records_written (columns df) (firstn k (rows df))
              (cells_written_firstn k _ Hc)) as [data Hd].
  destruct (tolist_writable _ Hl) as [cols Hcols].
  now exists data, cols.
Qed.

(** With a cap that is not negative, a table over the cap is answered
    with both counts equal to the cap. *)
Lemma response_exceeds_nonneg df max_rows :
  Pandas.empty df = false ->
  Pandas.is_unique (columns df) = true ->
  Pandas.writable df = true ->
  0 <= max_rows < Pandas.len df ->
  exists data cols,
    Pandas.records (columns df) (firstn (Z.to_nat max_rows) (rows df))
    = Ok data /\
    Pandas.tolist (columns df) = Ok cols /\
    response (Some df) max_rows =
    Ok (success data cols true max_rows max_rows).
Proof.
  intros He Hu Hw Hn.
  destruct (writable_parts df (Z.to_nat max_rows) Hw)
    as (data & cols & Hd & Hc).
  exists data, cols. split; [exact Hd|]. split; [exact Hc|].
  rewrite response_exceeds by (auto; lia).
  rewrite to_json_records_unique by exact Hu.
  rewrite len_head_below by lia. rewrite Z.min_id.
  cbn [Pandas.head columns rows].
  rewrite slice_to_nonneg by lia. rewrite Hd, Hc. reflexivity.
Qed.

Lemma quotes_len n : Pandas.len (quotes n) = Z.of_nat n.
Proof.
  unfold Pandas.len, quotes. cbn [rows].
  now rewrite length_map, length_seq.
Qed.

Lemma quotes_not_empty n : (0 < n)%nat -> Pandas.empty (quotes n) = false.
Proof.
  intros Hn. unfold Pandas.empty, quotes. cbn [rows columns].
  rewrite length_map, length_seq.
  destruct n; [lia | reflexivity].
Qed.

Lemma quotes_writable n : Pandas.writable (quotes n) = true.
Proof.
  unfold Pandas.writable, quotes. cbn [columns rows].
  apply andb_true_iff. split; [reflexivity|].
  unfold Pandas.cells_written. apply forallb_forall.
  intros row Hin. apply in_map_iff in Hin as (i & <- & _). reflexivity.
Qed.

Lemma dumps_no_data : Json.dumps no_data = no_data_text.
Proof. reflexivity. Qed.

(** A serialised success response starts with [{"d], the error response
    with [{"e]. *)
Lemma dumps_success_starts data cols t n m :
  exists rest,
    Json.dumps (success data cols t n m) =
    String "{" (String Json.quote (String "d" rest)).
Proof.
  eexists. unfold success. cbn [Json.dumps map fst snd].
  unfold Json.encode_basestring_ascii at 1. cbn. reflexivity.
Qed.

Lemma dumps_success_not_no_data data cols t n m :
  Json.dumps (success data cols t n m) <> no_data_text.
Proof.
  destruct (dumps_success_starts data cols t n m) as [rest ->].
  unfold no_data_text. cbn. discriminate.
Qed.

Lemma success_not_no_data data cols t n m : success data cols t n m <> no_data.
Proof. unfold success, no_data. discriminate. Qed.

(** What a success response is, and from which rows its fields are read:
    the first [k] rows are those of the table that the local name [df] is
    bound to when the dictionary is built. *)
Lemma response_shown df max_rows env :
  response (Some df) max_rows = Ok env ->
  env <> no_data ->
  exists k data cols,
    Pandas.records (columns df) (firstn k (rows df)) = Ok data /\
    Pandas.tolist (columns df) = Ok cols /\
    Pandas.is_unique (columns df) = true /\
    Pandas.empty df = false /\
    ((Pandas.len df >? max_rows) = true ->
     firstn k (rows df) = Pandas.slice_to max_rows (rows df)) /\
    ((Pandas.len df >? max_rows) = false -> firstn k (rows df) = rows df) /\
    env = success data cols (Pandas.len df >? max_rows)
                  (Z.of_nat (List.length (firstn k (rows df))))
                  (Z.min max_rows
                         (Z.of_nat (List.length (firstn k (rows df))))).
Proof.
  unfold response. destruct (Pandas.empty df) eqn:He.
  - intros [= <-] Hne. congruence.
  - intros H _.
    destruct (Pandas.len df >? max_rows) eqn:Hgt; cbn in H;
      unfold Pandas.to_json_records in H; cbn [Pandas.head columns rows] in H;
      destruct (Pandas.is_unique (columns df)) eqn:Hu; cbn in H;
      try discriminate.
    + destruct (slice_to_firstn _ max_rows (rows df)) as [k Hk].
      rewrite Hk in H.
      destruct (Pandas.records (columns df) (firstn k (rows df)))
        as [data|] eqn:Hd; cbn in H; [|discriminate].
      destruct (Pandas.tolist (columns df)) as [cols|] eqn:Hc; cbn in H;
        [|discriminate].
      injection H as <-. exists k, data, cols.
      unfold Pandas.len. cbn [Pandas.head rows]. rewrite Hk.
      repeat split;
        first [assumption | reflexivity | discriminate].
    + destruct (Pandas.records (columns df) (rows df))
        as [data|] eqn:Hd; cbn in H; [|discriminate].
      destruct (Pandas.tolist (columns df)) as [cols|] eqn:Hc; cbn in H;
        [|discriminate].
      injection H as <-. exists (List.length (rows df)), data, cols.
      rewrite firstn_all. unfold Pandas.len.
      repeat split;
        first [assumption | reflexivity | discriminate].
Qed.

(** ** The response formatter: properties *)

(** C5.  An absent input ([None]) and a table with zero rows are both
    answered with exactly the text [{"error": "No data available"}],
    whatever the cap. *)
Theorem absent_or_zero_rows_no_data (df : option DataFrame) (max_rows : Z) :
  (df = None \/ exists d, df = Some d /\ Pandas.len d = 0) ->
  format_dataframe_to_json df max_rows = Ok no_data_text.
Proof.
  intros [-> | [d [-> Hlen]]]; [reflexivity|].
  unfold format_dataframe_to_json, Pandas.empty.
  unfold Pandas.len in Hlen.
  destruct (rows d); [reflexivity | cbn in Hlen; lia].
Qed.

Lemma absent_or_zero_rows_no_data_witness :
  Pandas.len (quotes 0) = 0 /\
  format_dataframe_to_json (Some (quotes 0)) default_max_rows
  = Ok no_data_text /\
  format_dataframe_to_json None default_max_rows = Ok no_data_text.
Proof.
  split; [reflexivity|]. split.
  - apply (absent_or_zero_rows_no_data (Some (quotes 0)) default_max_rows).
    right. exists (quotes 0). split; reflexivity.
  - apply (absent_or_zero_rows_no_data None default_max_rows).
    left. reflexivity.
Defined.

(** C6, as stated, fails: a table with one row under the cap whose two
    columns bear the same label is not empty, and formatting it raises the
    [ValueError] of [to_json] instead of returning a response. *)
Lemma repeated_labels_raise :
  Pandas.empty twice_a = false /\
  Pandas.len twice_a <= default_max_rows /\
  format_dataframe_to_json (Some twice_a) default_max_rows
  = Raise Pandas.columns_not_unique.
Proof.
  split; [reflexivity|]. split; [|reflexivity].
  vm_compute. discriminate.
Qed.

(** So does a table with a label of a class that [json.dumps] does not
    know, here a [date]: [to_json] writes it, [json.dumps(result)] raises
    [TypeError] on [df.columns.tolist()]. *)
Lemma date_labels_raise :
  Pandas.empty by_day = false /\
  Pandas.is_unique (columns by_day) = true /\
  Pandas.len by_day <= default_max_rows /\
  format_dataframe_to_json (Some by_day) default_max_rows
  = Raise (Pandas.not_serializable "date").
Proof.
  split; [reflexivity|]. split; [reflexivity|]. split; [|reflexivity].
  vm_compute. discriminate.
Qed.

(** C6, amended.  For every table that has at least one row and at least
    one column ([df.empty] is false), whose labels are pairwise distinct
    and each a [str] or an [int], none of whose cells [to_json] refuses,
    and that has [n <= max_rows] rows, the formatter returns a success
    response with [truncated = false], [displayed_rows = n],
    [total_rows = n] and a data list of exactly [n] entries, the records of
    the rows in row order. *)
Theorem fitting_table_not_truncated df max_rows :
  Pandas.empty df = false ->
  Pandas.is_unique (columns df) = true ->
  Pandas.writable df = true ->
  Pandas.len df <= max_rows ->
  exists data cols,
    format_dataframe_to_json (Some df) max_rows =
    Ok (Json.dumps (success data cols false
                            (Pandas.len df) (Pandas.len df))) /\
    response (Some df) max_rows =
    Ok (success data cols false (Pandas.len df) (Pandas.len df)) /\
    Pandas.records (columns df) (rows df) = Ok data /\
    map Pandas.label_value (columns df) = map Some cols /\
    Z.of_nat (List.length data) = Pandas.len df.
Proof.
  intros He Hu Hw Hle.
  destruct (writable_parts df (List.length (rows df)) Hw)
    as (data & cols & Hd & Hc).
  rewrite firstn_all in Hd.
  exists data, cols.
  assert (Hr : response (Some df) max_rows =
               Ok (success data cols false (Pandas.len df) (Pandas.len df))).
  { rewrite response_fits by assumption.
    rewrite to_json_records_unique by assumption.
    now rewrite Hd, Hc. }
  split; [now rewrite format_dataframe_to_json_response, Hr|].
  split; [exact Hr|]. split; [exact Hd|].
  split; [now apply tolist_values|].
  unfold Pandas.len. f_equal. now apply (records_length (columns df)).
Qed.

Lemma fitting_table_not_truncated_witness :
  exists data cols,
    format_dataframe_to_json (Some (quotes 3)) default_max_rows =
    Ok (Json.dumps (success data cols false
                            (Pandas.len (quotes 3))
                            (Pandas.len (quotes 3)))) /\
    response (Some (quotes 3)) default_max_rows =
    Ok (success data cols false
                (Pandas.len (quotes 3)) (Pandas.len (quotes 3))) /\
    Pandas.records (columns (quotes 3)) (rows (quotes 3)) = Ok data /\
    map Pandas.label_value (columns (quotes 3)) = map Some cols /\
    Z.of_nat (List.length data) = Pandas.len (quotes 3).
Proof.
  apply (fitting_table_not_truncated (quotes 3) default_max_rows).
  - reflexivity.
  - reflexivity.
  - reflexivity.
  - vm_compute. discriminate.
Defined.

(** C7.  Whenever the formatter produces a success response, its
    [columns] field lists exactly the labels of the source table, in the
    table's column order; the response is what the formatter serialises. *)
Theorem columns_field_in_column_order df max_rows env :
  response (Some df) max_rows = Ok env ->
  env <> no_data ->
  (exists cols,
     field "columns" env = Some (PList cols) /\
     map Pandas.label_value (columns df) = map Some cols) /\
  format_dataframe_to_json (Some df) max_rows = Ok (Json.dumps env).
Proof.
  intros Hr Hne. split.
  - destruct (response_shown _ _ _ Hr Hne)
      as (k & data & cols & _ & Hc & _ & _ & _ & _ & ->).
    exists cols. split; [reflexivity | now apply tolist_values].
  - now rewrite format_dataframe_to_json_response, Hr.
Qed.

Lemma columns_field_in_column_order_witness :
  (exists cols,
     field "columns" first_two_of_three = Some (PList cols) /\
     map Pandas.label_value (columns (quotes 3)) = map Some cols) /\
  format_dataframe_to_json (Some (quotes 3)) 2 =
  Ok (Json.dumps first_two_of_three).
Proof.
  apply (columns_field_in_column_order (quotes 3) 2).
  - reflexivity.
  - discriminate.
Defined.

(** C1.  The code at a table over the cap (cap not negative, labels
    distinct, nothing that [to_json] or [json.dumps] raises on):
    [truncated] is true, [displayed_rows] is the cap and the data list
    holds the first [max_rows] rows in order, as the property says; but
    [total_rows] is read from the table that [head] returned, so it is the
    cap and not the row count of the input. *)
Theorem truncated_table_total_rows df max_rows :
  Pandas.empty df = false ->
  Pandas.is_unique (columns df) = true ->
  Pandas.writable df = true ->
  0 <= max_rows < Pandas.len df ->
  exists env data,
    response (Some df) max_rows = Ok env /\
    format_dataframe_to_json (Some df) max_rows = Ok (Json.dumps env) /\
    field "truncated" env = Some (PBool true) /\
    field "displayed_rows" env = Some (PInt max_rows) /\
    field "data" env = Some (PList data) /\
    Pandas.records (columns df) (firstn (Z.to_nat max_rows) (rows df))
    = Ok data /\
    field "total_rows" env = Some (PInt max_rows) /\
    max_rows <> Pandas.len df.
Proof.
  intros He Hu Hw Hn.
  destruct (response_exceeds_nonneg df max_rows He Hu Hw Hn)
    as (data & cols & Hd & Hc & Hr).
  eexists. exists data. split; [exact Hr|]. split.
  - now rewrite format_dataframe_to_json_response, Hr.
  - repeat split; try reflexivity; [exact Hd | lia].
Qed.

Lemma truncated_table_total_rows_witness :
  exists env data,
    response (Some (quotes 120)) 50 = Ok env /\
    format_dataframe_to_json (Some (quotes 120)) 50 = Ok (Json.dumps env) /\
    field "truncated" env = Some (PBool true) /\
    field "displayed_rows" env = Some (PInt 50) /\
    field "data" env = Some (PList data) /\
    Pandas.records (columns (quotes 120))
                   (firstn (Z.to_nat 50) (rows (quotes 120)))
    = Ok data /\
    field "total_rows" env = Some (PInt 50) /\
    50 <> Pandas.len (quotes 120).
Proof.
  apply (truncated_table_total_rows (quotes 120) 50).
  - reflexivity.
  - reflexivity.
  - reflexivity.
  - rewrite quotes_len. lia.
Defined.

(** C2.  The code at a table over the cap (cap not negative, labels
    distinct, nothing that [to_json] or [json.dumps] raises on): the
    response has [truncated = true] and [total_rows] equal to the cap, so
    "truncated if and only if total_rows > cap" does not hold of it. *)
Theorem truncated_flag_without_excess df max_rows :
  Pandas.empty df = false ->
  Pandas.is_unique (columns df) = true ->
  Pandas.writable df = true ->
  0 <= max_rows < Pandas.len df ->
  exists env,
    response (Some df) max_rows = Ok env /\
    field "truncated" env = Some (PBool true) /\
    field "total_rows" env = Some (PInt max_rows) /\
    ~ truncated_iff_over_cap max_rows env.
Proof.
  intros He Hu Hw Hn.
  destruct (response_exceeds_nonneg df max_rows He Hu Hw Hn)
    as (data & cols & _ & _ & Hr).
  eexists. split; [exact Hr|].
  split; [reflexivity|]. split; [reflexivity|].
  intros Hinv.
  specialize (Hinv true max_rows eq_refl eq_refl).
  destruct Hinv as [Hgt _]. specialize (Hgt eq_refl). lia.
Qed.

Lemma truncated_flag_without_excess_witness :
  exists env,
    response (Some (quotes 120)) 50 = Ok env /\
    field "truncated" env = Some (PBool true) /\
    field "total_rows" env = Some (PInt 50) /\
    ~ truncated_iff_over_cap 50 env.
Proof.
  apply (truncated_flag_without_excess (quotes 120) 50).
  - reflexivity.
  - reflexivity.
  - reflexivity.
  - rewrite quotes_len. lia.
Defined.

(** C9, as stated, fails at a negative cap: three rows and cap [-1] give
    a success response whose [total_rows] is 2, the rows that [head(-1)]
    keeps, while [displayed_rows] is [-1]. *)
Lemma negative_cap_counts_differ :
  exists env,
    response (Some (quotes 3)) (-1) = Ok env /\
    env <> no_data /\
    field "total_rows" env = Some (PInt 2) /\
    field "displayed_rows" env = Some (PInt (-1)) /\
    ~ counts_agree (-1) env.
Proof.
  eexists. split; [reflexivity|]. split; [discriminate|].
  split; [reflexivity|]. split; [reflexivity|].
  intros (n & data & H1 & H2 & _).
  vm_compute in H1, H2. congruence.
Qed.

(** C9, amended.  For every cap that is not negative: in every success
    response, [total_rows] equals [displayed_rows], both equal the length
    of the data list, and all are at most the cap; and two tables over the
    cap that agree on their labels and on their first [max_rows] rows get
    the same output, so the row count of the input cannot be read back. *)
Theorem counts_within_nonneg_cap max_rows :
  0 <= max_rows ->
  (forall df env,
     response (Some df) max_rows = Ok env ->
     env <> no_data ->
     counts_agree max_rows env) /\
  (forall df1 df2,
     columns df1 = columns df2 ->
     max_rows < Pandas.len df1 ->
     max_rows < Pandas.len df2 ->
     firstn (Z.to_nat max_rows) (rows df1)
     = firstn (Z.to_nat max_rows) (rows df2) ->
     format_dataframe_to_json (Some df1) max_rows
     = format_dataframe_to_json (Some df2) max_rows).
Proof.
  intros Hcap. split.
  - intros df env Hr Hne.
    destruct (response_shown _ _ _ Hr Hne)
      as (k & data & cols & Hd & _ & _ & _ & Hover & Hfit & ->).
    apply records_length in Hd.
    assert (Hlen : Z.of_nat (List.length (firstn k (rows df))) <= max_rows).
    { destruct (Z.gtb_spec (Pandas.len df) max_rows) as [Hgt | Hle].
      - rewrite (Hover eq_refl), slice_to_nonneg by exact Hcap.
        pose proof (firstn_le_length (Z.to_nat max_rows) (rows df)). lia.
      - rewrite (Hfit eq_refl). exact Hle. }
    exists (Z.of_nat (List.length (firstn k (rows df)))), data.
    rewrite Z.min_r by exact Hlen.
    repeat split; try reflexivity; [now rewrite Hd | exact Hlen].
  - intros df1 df2 Hc Hl1 Hl2 Hrows.
    assert (Hh : Pandas.head max_rows df1 = Pandas.head max_rows df2).
    { unfold Pandas.head. rewrite !slice_to_nonneg by exact Hcap.
      now rewrite Hc, Hrows. }
    assert (He : Pandas.empty df1 = Pandas.empty df2).
    { unfold Pandas.empty. rewrite Hc. unfold Pandas.len in Hl1, Hl2.
      destruct (rows df1), (rows df2); cbn in *; try lia. reflexivity. }
    unfold format_dataframe_to_json. rewrite He.
    destruct (Pandas.empty df2); [reflexivity|].
    destruct (Z.gtb_spec (Pandas.len df1) max_rows); [|lia].
    destruct (Z.gtb_spec (Pandas.len df2) max_rows); [|lia].
    now rewrite Hh.
Qed.

Lemma counts_within_nonneg_cap_witness :
  counts_agree 2 first_two_of_three /\
  format_dataframe_to_json (Some (quotes 3)) 2
  = format_dataframe_to_json (Some (quotes 4)) 2 /\
  Pandas.len (quotes 3) <> Pandas.len (quotes 4).
Proof.
  assert (H2 : 0 <= 2) by lia.
  destruct (counts_within_nonneg_cap 2 H2) as [Hcount Hsame].
  split; [|split].
  - apply (Hcount (quotes 3)); [reflexivity | discriminate].
  - apply Hsame; [reflexivity | rewrite quotes_len; lia
                  | rewrite quotes_len; lia | reflexivity].
  - rewrite !quotes_len. lia.
Defined.

(** C10, as stated, fails: a table with one row and no column is neither
    [None] nor a table with zero rows, and it is answered with the error
    response, because [df.empty] holds of it. *)
Lemma no_columns_no_data :
  Pandas.len no_columns = 1 /\
  format_dataframe_to_json (Some no_columns) default_max_rows
  = Ok no_data_text /\
  ~ (format_dataframe_to_json (Some no_columns) default_max_rows
     = Ok no_data_text
     <-> (Some no_columns = None \/ Pandas.len no_columns = 0)).
Proof.
  split; [reflexivity|]. split; [reflexivity|].
  intros [H _]. destruct (H eq_refl) as [H0 | H0]; discriminate H0.
Qed.

(** C10, amended.  For every input and every cap, also 0 and negative
    ones: the formatter returns the text [{"error": "No data available"}]
    if and only if the input is [None] or [df.empty] holds of it (zero rows
    or zero columns); a table of which [df.empty] is false never gets that
    text: it gets a success response when its labels are pairwise distinct
    and each a [str] or an [int] and none of its cells is refused by
    [to_json], and otherwise the formatter may raise. *)
Theorem no_data_iff_none_or_empty (df : option DataFrame) (max_rows : Z) :
  (format_dataframe_to_json df max_rows = Ok no_data_text
   <-> (df = None \/ exists d, df = Some d /\ Pandas.empty d = true)) /\
  (forall d,
     df = Some d ->
     Pandas.empty d = false ->
     Pandas.is_unique (columns d) = true ->
     Pandas.writable d = true ->
     exists data cols truncated total_rows displayed_rows,
       response df max_rows =
       Ok (success data cols truncated total_rows displayed_rows) /\
       map Pandas.label_value (columns d) = map Some cols /\
       format_dataframe_to_json df max_rows =
       Ok (Json.dumps
             (success data cols truncated total_rows displayed_rows)) /\
       Json.dumps (success data cols truncated total_rows displayed_rows)
       <> no_data_text).
Proof.
  split.
  - split.
    + intros H. destruct df as [d|]; [|now left].
      right. exists d. split; [reflexivity|].
      destruct (Pandas.empty d) eqn:He; [reflexivity|exfalso].
      rewrite format_dataframe_to_json_response in H.
      destruct (response (Some d) max_rows) as [env|e] eqn:Hr;
        [|discriminate H].
      assert (Hne : env <> no_data).
      { intros ->. unfold response in Hr. rewrite He in Hr.
        destruct (Pandas.len d >? max_rows); cbn in Hr;
          match type of Hr with
          | context [Pandas.to_json_records ?x] =>
              destruct (Pandas.to_json_records x); cbn in Hr;
              [|discriminate]
          end;
          match type of Hr with
          | context [Pandas.tolist ?x] =>
              destruct (Pandas.tolist x); cbn in Hr; discriminate
          end. }
      destruct (response_shown _ _ _ Hr Hne)
        as (k & data & cols & _ & _ & _ & _ & _ & _ & ->).
      cbn [bind] in H.
      refine (dumps_success_not_no_data _ _ _ _ _ _).
      exact (f_equal (fun r => match r with
                               | Ok s => s
                               | Raise _ => EmptyString
                               end) H).
    + intros [-> | [d [-> He]]]; [reflexivity|].
      unfold format_dataframe_to_json. now rewrite He.
  - intros d -> He Hu Hw.
    assert (Hr : exists data cols t n m,
               Pandas.tolist (columns d) = Ok cols /\
               response (Some d) max_rows = Ok (success data cols t n m)).
    { unfold response. rewrite He.
      destruct (Pandas.len d >? max_rows).
      - destruct (slice_to_firstn _ max_rows (rows d)) as [k Hk].
        destruct (writable_parts d k Hw) as (data & cols & Hd & Hc).
        exists data, cols. do 3 eexists. split; [exact Hc|].
        unfold Pandas.to_json_records. cbn [Pandas.head columns rows].
        rewrite Hu, Hk, Hd, Hc. reflexivity.
      - destruct (writable_parts d (List.length (rows d)) Hw)
          as (data & cols & Hd & Hc).
        rewrite firstn_all in Hd.
        exists data, cols. do 3 eexists. split; [exact Hc|].
        unfold Pandas.to_json_records. rewrite Hu, Hd, Hc. reflexivity. }
    destruct Hr as (data & cols & t & n & m & Hc & Hr).
    exists data, cols, t, n, m. split; [exact Hr|].
    split; [now apply tolist_values|]. split.
    + now rewrite format_dataframe_to_json_response, Hr.
    + apply dumps_success_not_no_data.
Qed.

Lemma no_data_iff_none_or_empty_witness :
  exists data cols truncated total_rows displayed_rows,
    response (Some (quotes 3)) 0 =
    Ok (success data cols truncated total_rows displayed_rows) /\
    map Pandas.label_value (columns (quotes 3)) = map Some cols /\
    format_dataframe_to_json (Some (quotes 3)) 0 =
    Ok (Json.dumps
          (success data cols truncated total_rows displayed_rows)) /\
    Json.dumps (success data cols truncated total_rows displayed_rows)
    <> no_data_text.
Proof.
  apply (proj2 (no_data_iff_none_or_empty (Some (quotes 3)) 0) (quotes 3));
    reflexivity.
Defined.
(** ** The formatter over the interpreter's objects: properties *)

Lemma deref_alloc_new h d :
  Store.deref (fst (Store.alloc h d)) (snd (Store.alloc h d)) = Some d.
Proof.
  unfold Store.deref, Store.alloc. cbn [fst snd].
  rewrite nth_error_app2 by lia. now rewrite Nat.sub_diag.
Qed.

Lemma alloc_preserved h d : Store.preserved h (fst (Store.alloc h d)).
Proof.
  intros r x Hr. unfold Store.deref, Store.alloc in *. cbn [fst].
  rewrite nth_error_app1; [exact Hr|].
  apply nth_error_Some. congruence.
Qed.

Lemma preserved_refl h : Store.preserved h h.
Proof. intros r d H. exact H. Qed.

(** One run over the store: the string is the one the formatter computes
    from the table that [df] names, and no object that existed is
    changed. *)
Lemma store_format_run h r d max_rows :
  Store.deref h r = Some d ->
  exists h',
    Store.format_dataframe_to_json h (Some r) max_rows =
    Some (h', format_dataframe_to_json (Some d) max_rows) /\
    Store.preserved h h'.
Proof.
  intros Hd. unfold Store.format_dataframe_to_json, format_dataframe_to_json.
  rewrite Hd. destruct (Pandas.empty d).
  - exists h. split; [reflexivity | apply preserved_refl].
  - destruct (Pandas.len d >? max_rows).
    + exists (fst (Store.alloc h (Pandas.head max_rows d))). split.
      * pose proof (deref_alloc_new h (Pandas.head max_rows d)) as Hn.
        destruct (Store.alloc h (Pandas.head max_rows d)) as [h1 r1].
        cbn [fst snd] in *. now rewrite Hn.
      * apply alloc_preserved.
    + exists h. split; [|apply preserved_refl]. now rewrite Hd.
Qed.

(** C8.  The formatter is a function of the table and the cap alone and
    it has no effect on what exists: run on a reference to a table, it
    returns what the formatter yields for that table's value, every
    object of the store is afterwards what it was, and a second run, in the
    store the first one left, returns the identical result.  An absent
    input leaves the store as it is. *)
Theorem format_dataframe_to_json_pure h r d max_rows :
  Store.deref h r = Some d ->
  exists h1 h2,
    Store.format_dataframe_to_json h (Some r) max_rows =
    Some (h1, format_dataframe_to_json (Some d) max_rows) /\
    Store.preserved h h1 /\
    Store.format_dataframe_to_json h1 (Some r) max_rows =
    Some (h2, format_dataframe_to_json (Some d) max_rows) /\
    Store.preserved h1 h2 /\
    Store.format_dataframe_to_json h None max_rows =
    Some (h, format_dataframe_to_json None max_rows).
Proof.
  intros Hd.
  destruct (store_format_run h r d max_rows Hd) as (h1 & Hrun1 & Hp1).
  destruct (store_format_run h1 r d max_rows (Hp1 r d Hd))
    as (h2 & Hrun2 & Hp2).
  exists h1, h2. repeat split; assumption || reflexivity.
Qed.

Lemma format_dataframe_to_json_pure_witness :
  exists h1 h2,
    Store.format_dataframe_to_json [quotes 3] (Some 0%nat) 2 =
    Some (h1, format_dataframe_to_json (Some (quotes 3)) 2) /\
    Store.preserved [quotes 3] h1 /\
    Store.format_dataframe_to_json h1 (Some 0%nat) 2 =
    Some (h2, format_dataframe_to_json (Some (quotes 3)) 2) /\
    Store.preserved h1 h2 /\
    Store.format_dataframe_to_json [quotes 3] None 2 =
    Some ([quotes 3], format_dataframe_to_json None 2).
Proof.
  apply (format_dataframe_to_json_pure [quotes 3] 0%nat (quotes 3) 2).
  reflexivity.
Defined.

(** ** Frames and argument evaluation *)

Lemma memb_In x l : memb x l = true <-> In x l.
Proof.
  unfold memb. rewrite existsb_exists. split.
  - intros [y [Hy He]]. apply String.eqb_eq in He. now subst.
  - intros H. exists x. split; [exact H | apply String.eqb_refl].
Qed.

Lemma nodupb_NoDup l : nodupb l = true -> NoDup l.
Proof.
  induction l as [|x l IH]; intros H; [constructor|].
  cbn in H. apply andb_true_iff in H as [Hx Hl].
  constructor; [|now apply IH].
  intros Hin. apply memb_In in Hin. rewrite Hin in Hx. discriminate.
Qed.

Lemma frame_get_None x (f : frame) :
  Frame.get x f = None <-> ~ In x (map fst f).
Proof.
  induction f as [|[y v] f IH]; cbn; [tauto|].
  destruct (String.eqb_spec x y) as [->|Hne].
  - split; [discriminate | intros H; exfalso; apply H; now left].
  - rewrite IH. split; [intros H [E|Hin]; [congruence | tauto] | tauto].
Qed.

Lemma frame_get_In x v (f : frame) : Frame.get x f = Some v -> In (x, v) f.
Proof.
  induction f as [|[y w] f IH]; cbn; [discriminate|].
  destruct (String.eqb_spec x y) as [->|Hne].
  - intros [= ->]. now left.
  - intros H. right. now apply IH.
Qed.

Lemma frame_get_first x v (f : frame) :
  NoDup (map fst f) -> In (x, v) f -> Frame.get x f = Some v.
Proof.
  induction f as [|[y w] f IH]; cbn; [tauto|].
  intros Hnd [E|Hin].
  - injection E as -> ->. now rewrite String.eqb_refl.
  - inversion Hnd as [|? ? Hy Hnd']; subst.
    destruct (String.eqb_spec x y) as [->|Hne].
    + exfalso. apply Hy. apply (in_map fst) in Hin. exact Hin.
    + now apply IH.
Qed.

Lemma frame_get_set x y v (f : frame) :
  Frame.get y (Frame.set x v f) =
  if String.eqb y x then Some v else Frame.get y f.
Proof.
  induction f as [|[z w] f IH]; cbn.
  - reflexivity.
  - destruct (String.eqb_spec x z) as [->|Hxz]; cbn.
    + destruct (String.eqb_spec y z); reflexivity.
    + destruct (String.eqb_spec y z) as [->|Hyz].
      * destruct (String.eqb_spec z x); [congruence | reflexivity].
      * exact IH.
Qed.

(** Binding succeeds with exactly the parameters, in their order. *)
Lemma bind_arguments_names ps supplied f :
  Frame.bind_arguments ps supplied = Some f -> map fst f = map fst ps.
Proof.
  revert f. induction ps as [|[p d] ps IH]; cbn; intros f H.
  - now injection H as <-.
  - destruct (match Frame.get p supplied with
              | Some v => Some v
              | None => d
              end); [|discriminate].
    destruct (Frame.bind_arguments ps supplied) as [f'|]; [|discriminate].
    injection H as <-. cbn. f_equal. now apply IH.
Qed.

Lemma eval_args_cases f es :
  (eval_args f es = Ok (map (expr_value f) es) /\
   forall x, In x (flat_map expr_names es) -> Frame.get x f <> None) \/
  (exists x, eval_args f es = Raise (name_error x) /\
             In x (flat_map expr_names es) /\ Frame.get x f = None).
Proof.
  induction es as [|e es IH]; cbn [eval_args map flat_map].
  - left. split; [reflexivity | intros x []].
  - destruct e as [x|v]; cbn [eval expr_names expr_value app].
    + unfold value_of. destruct (Frame.get x f) as [v|] eqn:Hx; cbn [bind].
      * destruct IH as [[-> Hb] | (y & -> & Hy & Hn)]; cbn [bind].
        -- left. split; [reflexivity|].
           intros y [<-|Hy]; [congruence | now apply Hb].
        -- right. exists y. repeat split; [now right | exact Hn].
      * right. exists x. repeat split; [now left | exact Hx].
    + destruct IH as [[-> Hb] | (y & -> & Hy & Hn)]; cbn [bind].
      * left. split; [reflexivity | exact Hb].
      * right. exists y. repeat split; assumption.
Qed.

Lemma eval_kwargs_cases f es :
  (eval_kwargs f es =
   Ok (map (fun ke => (fst ke, expr_value f (snd ke))) es) /\
   forall x, In x (flat_map (fun ke => expr_names (snd ke)) es) ->
             Frame.get x f <> None) \/
  (exists x, eval_kwargs f es = Raise (name_error x) /\
             In x (flat_map (fun ke => expr_names (snd ke)) es) /\
             Frame.get x f = None).
Proof.
  induction es as [|[k e] es IH]; cbn [eval_kwargs map flat_map fst snd].
  - left. split; [reflexivity | intros x []].
  - destruct e as [x|v]; cbn [eval expr_names expr_value app].
    + unfold value_of. destruct (Frame.get x f) as [v|] eqn:Hx; cbn [bind].
      * destruct IH as [[-> Hb] | (y & -> & Hy & Hn)]; cbn [bind].
        -- left. split; [reflexivity|].
           intros y [<-|Hy]; [congruence | now apply Hb].
        -- right. exists y. repeat split; [now right | exact Hn].
      * right. exists x. repeat split; [now left | exact Hx].
    + destruct IH as [[-> Hb] | (y & -> & Hy & Hn)]; cbn [bind].
      * left. split; [reflexivity | exact Hb].
      * right. exists y. repeat split; assumption.
Qed.

(** The statement before the call keeps the frame or sets the date; it
    fails only when its variable is unbound. *)
Lemma prelude_cases today t f :
  (exists f', prelude today t f = Ok f' /\
              (forall x, Frame.get x f' = None <-> Frame.get x f = None) /\
              (forall x, In x (names_used t) -> ~ In x (names_read t) ->
                         Frame.get x f <> None) /\
              (today_if_none t = None -> f' = f)) \/
  (exists x, prelude today t f = Raise (name_error x) /\
             In x (names_used t) /\ Frame.get x f = None).
Proof.
  unfold prelude, names_used.
  destruct (today_if_none t) as [x|].
  - cbn [eval]. destruct (Frame.get x f) as [v|] eqn:Hx; cbn [bind].
    + left.
      assert (Hb : forall y, In y ([x] ++ names_read t)%list ->
                             ~ In y (names_read t) -> Frame.get y f <> None).
      { intros y Hin Hn. apply in_app_or in Hin as [[<-|[]]|Hin];
          [congruence | contradiction]. }
      destruct v; eexists; (split; [reflexivity|]);
        (split; [|split; [exact Hb | discriminate]]);
        try (intros y; reflexivity).
      intros y. rewrite frame_get_set.
      destruct (String.eqb_spec y x) as [->|_];
        [rewrite Hx; split; discriminate | reflexivity].
    + right. exists x. repeat split; [now left | exact Hx].
  - left. exists f. split; [reflexivity|]. split; [reflexivity|].
    split; [|reflexivity]. intros x Hin Hn. cbn in Hin. contradiction.
Qed.

(** A wrapper either makes its call with the values of its arguments or
    stops at the first unbound name. *)
Lemma prepare_cases today t f :
  (exists f',
     prelude today t f = Ok f' /\
     prepare today t f =
     Ok (mkCall (ak_function t) (map (expr_value f') (positional t))
                (map (fun ke => (fst ke, expr_value f' (snd ke)))
                     (keywords t))) /\
     forall x, In x (names_used t) -> Frame.get x f <> None) \/
  (exists x, prepare today t f = Raise (name_error x) /\
             In x (names_used t) /\ Frame.get x f = None).
Proof.
  unfold prepare.
  destruct (prelude_cases today t f)
    as [(f' & Hp & Hsame & Hpre & _) | (x & Hp & Hx & Hn)].
  - rewrite Hp. cbn [bind].
    assert (Hin : forall x, In x (names_read t) -> In x (names_used t)).
    { intros x Hx. unfold names_used. apply in_or_app. now right. }
    destruct (eval_args_cases f' (positional t))
      as [[-> Hb1] | (x & -> & Hx & Hn)]; cbn [bind].
    + destruct (eval_kwargs_cases f' (keywords t))
        as [[-> Hb2] | (x & -> & Hx & Hn)]; cbn [bind].
      * left. exists f'. split; [reflexivity|]. split; [reflexivity|].
        intros x Hx Hnone.
        destruct (in_dec string_dec x (names_read t)) as [Hr|Hr].
        -- apply Hsame in Hnone. unfold names_read in Hr.
           apply in_app_or in Hr as [Hr|Hr];
             [now apply (Hb1 x) | now apply (Hb2 x)].
        -- now apply (Hpre x Hx Hr).
      * right. exists x. repeat split.
        -- apply Hin. unfold names_read. apply in_or_app. now right.
        -- now apply Hsame.
    + right. exists x. repeat split.
      * apply Hin. unfold names_read. apply in_or_app. now left.
      * now apply Hsame.
  - right. exists x. rewrite Hp. repeat split; assumption.
Qed.

Lemma find_tool_In name l t : find_tool name l = Some t -> In t l.
Proof. intros H. now apply find_some in H. Qed.

Lemma forallb_In (A : Type) (p : A -> bool) l x :
  forallb p l = true -> In x l -> p x = true.
Proof. intros H Hin. rewrite forallb_forall in H. now apply H. Qed.

Lemma bound_of_names x (f : frame) names :
  map fst f = names -> memb x names = true -> Frame.get x f <> None.
Proof.
  intros <- Hm Hn. apply memb_In in Hm. now apply frame_get_None in Hn.
Qed.

Lemma value_of_get x v (f : frame) : Frame.get x f = Some v -> value_of f x = v.
Proof. unfold value_of. now intros ->. Qed.

(** What the check [forwardsb] means for a run: one call, carrying each
    bound value, by position or under the parameter's name, and nothing
    else. *)
Lemma forwardsb_sound today t f :
  forwardsb t = true ->
  map fst f = param_names t ->
  exists c,
    prepare today t f = Ok c /\
    callee c = ak_function t /\
    (forall p v, In (p, v) f -> In v (args c) \/ In (p, v) (kwargs c)) /\
    (forall v, In v (args c) -> exists p, In (p, v) f) /\
    (forall k v, In (k, v) (kwargs c) -> In (k, v) f).
Proof.
  unfold forwardsb. intros H Hnames.
  repeat (apply andb_true_iff in H as [H ?]).
  rename H0 into Hcover, H1 into Hkw, H2 into Hpos, H3 into Hnd.
  assert (Hno : today_if_none t = None)
    by (destruct (today_if_none t); [discriminate | reflexivity]).
  clear H. apply nodupb_NoDup in Hnd. rewrite <- Hnames in Hnd.
  assert (Hget : forall x, memb x (param_names t) = true ->
                           exists v, Frame.get x f = Some v).
  { intros x Hx. pose proof (bound_of_names x f _ Hnames Hx) as Hb.
    destruct (Frame.get x f) as [v|]; [now exists v | congruence]. }
  destruct (prepare_cases today t f)
    as [(f' & Hp & Hc & _) | (x & _ & Hx & Hn)].
  - destruct (prelude_cases today t f)
      as [(f'' & Hp' & _ & _ & Hsame) | (x & Hp' & _)];
      [|rewrite Hp' in Hp; discriminate].
    rewrite Hp' in Hp. injection Hp as <-. rewrite (Hsame Hno) in Hc.
    eexists. split; [exact Hc|]. cbn [callee args kwargs].
    split; [reflexivity|]. split; [|split].
    + intros p v Hin.
      pose proof (frame_get_first p v f Hnd Hin) as Hg.
      assert (Hp : In p (param_names t))
        by (rewrite <- Hnames; apply (in_map fst) in Hin; exact Hin).
      pose proof (forallb_In _ _ _ p Hcover Hp) as Hr.
      apply memb_In in Hr. unfold names_read in Hr.
      apply in_app_or in Hr as [Hr|Hr]; apply in_flat_map in Hr
        as (e & He & Hpe).
      * left. destruct e as [x|w]; cbn in Hpe; [|contradiction].
        destruct Hpe as [->|[]].
        apply in_map_iff. exists (Name p). split; [|exact He].
        cbn. now apply value_of_get.
      * right. destruct e as [k e]. cbn [snd] in Hpe.
        pose proof (forallb_In _ _ _ (k, e) Hkw He) as Hk. cbn in Hk.
        destruct e as [x|w]; cbn in Hpe; [|contradiction].
        destruct Hpe as [->|[]].
        apply andb_true_iff in Hk as [Hk _]. apply String.eqb_eq in Hk.
        subst k. apply in_map_iff. exists (p, Name p).
        split; [|exact He]. cbn. f_equal. now apply value_of_get.
    + intros v Hin. apply in_map_iff in Hin as (e & <- & He).
      pose proof (forallb_In _ _ _ e Hpos He) as Hk.
      destruct e as [x|w]; [|discriminate].
      destruct (Hget x Hk) as [v Hv]. exists x. cbn.
      rewrite (value_of_get _ _ _ Hv). now apply frame_get_In.
    + intros k v Hin. apply in_map_iff in Hin as ([k' e] & E & He).
      cbn in E. injection E as <- <-.
      pose proof (forallb_In _ _ _ (k', e) Hkw He) as Hk. cbn in Hk.
      destruct e as [x|w]; [|discriminate].
      apply andb_true_iff in Hk as [Hk Hx]. apply String.eqb_eq in Hk.
      subst k'. destruct (Hget x Hx) as [v Hv]. cbn.
      rewrite (value_of_get _ _ _ Hv). now apply frame_get_In.
  - exfalso. unfold names_used in Hx. rewrite Hno in Hx. cbn in Hx.
    assert (Hm : memb x (param_names t) = true).
    { unfold names_read in Hx. apply in_app_or in Hx as [Hx|Hx];
        apply in_flat_map in Hx as (e & He & Hpe).
      - pose proof (forallb_In _ _ _ e Hpos He) as Hk.
        destruct e as [y|w]; [|contradiction].
        destruct Hpe as [->|[]]. exact Hk.
      - pose proof (forallb_In _ _ _ e Hkw He) as Hk.
        destruct e as [k [y|w]]; cbn in *; [|contradiction].
        destruct Hpe as [->|[]].
        now apply andb_true_iff in Hk as [_ Hk]. }
    now apply (bound_of_names x f _ Hnames Hm).
Qed.

Lemma eval_agree p f1 f2 e :
  agree_except p f1 f2 -> ~ In p (expr_names e) -> eval f1 e = eval f2 e.
Proof.
  intros Ha Hn. destruct e as [x|v]; [|reflexivity].
  cbn. rewrite (Ha x); [reflexivity|].
  intros ->. apply Hn. now left.
Qed.

Lemma eval_args_agree p f1 f2 es :
  agree_except p f1 f2 -> ~ In p (flat_map expr_names es) ->
  eval_args f1 es = eval_args f2 es.
Proof.
  intros Ha. induction es as [|e es IH]; intros Hn; [reflexivity|].
  cbn [eval_args]. cbn [flat_map] in Hn.
  rewrite (eval_agree p f1 f2 e Ha), IH; [reflexivity | |];
    intros Hin; apply Hn; apply in_or_app; [now right | now left].
Qed.

Lemma eval_kwargs_agree p f1 f2 es :
  agree_except p f1 f2 ->
  ~ In p (flat_map (fun ke => expr_names (snd ke)) es) ->
  eval_kwargs f1 es = eval_kwargs f2 es.
Proof.
  intros Ha. induction es as [|[k e] es IH]; intros Hn; [reflexivity|].
  cbn [eval_kwargs]. cbn [flat_map snd] in Hn.
  rewrite (eval_agree p f1 f2 e Ha), IH; [reflexivity | |];
    intros Hin; apply Hn; apply in_or_app; [now right | now left].
Qed.

(** A name that the [try] block never reads has no influence on the
    call. *)
Lemma prepare_agree today t p f1 f2 :
  ~ In p (names_used t) ->
  agree_except p f1 f2 ->
  prepare today t f1 = prepare today t f2.
Proof.
  intros Hn Ha. unfold prepare.
  assert (Hr : ~ In p (names_read t)).
  { intros Hin. apply Hn. unfold names_used. apply in_or_app. now right. }
  assert (Hpre : prelude today t f1 = prelude today t f2 \/
                 exists g1 g2, prelude today t f1 = Ok g1 /\
                               prelude today t f2 = Ok g2 /\
                               agree_except p g1 g2).
  { unfold prelude. unfold names_used in Hn.
    destruct (today_if_none t) as [x|].
    - assert (Hx : x <> p) by (intros ->; apply Hn; now left).
      cbn [eval]. rewrite (Ha x Hx).
      destruct (Frame.get x f2) as [v|]; cbn [bind]; [|now left].
      right. destruct v;
        try (exists f1, f2; repeat split; [reflexivity .. | exact Ha]).
      eexists. eexists. split; [reflexivity|]. split; [reflexivity|].
      intros y Hy. rewrite !frame_get_set.
      destruct (String.eqb y x); [reflexivity | now apply Ha].
    - right. exists f1, f2. repeat split. exact Ha. }
  destruct Hpre as [-> | (g1 & g2 & -> & -> & Hg)].
  - destruct (prelude today t f2); cbn [bind]; [|reflexivity].
    reflexivity.
  - cbn [bind]. unfold names_read in Hr.
    rewrite (eval_args_agree p g1 g2 (positional t) Hg),
            (eval_kwargs_agree p g1 g2 (keywords t) Hg);
      [reflexivity | |]; intros Hin; apply Hr; apply in_or_app;
      [now right | now left].
Qed.

(** ** Tool wrappers: properties *)

Lemma run_cases ak today t f :
  run ak today t f =
  match prepare today t f with
  | Raise e => ([], handled e)
  | Ok c => ([c], answer ak c)
  end.
Proof.
  unfold run, answer, handled, external, lift, bindM, try_except.
  destruct (prepare today t f) as [c|e];
    [|destruct (is_Exception e); reflexivity].
  destruct (ak c) as [df|e]; [|destruct (is_Exception e); reflexivity].
  destruct (format_dataframe_to_json df default_max_rows) as [s|e];
    [reflexivity | destruct (is_Exception e); reflexivity].
Qed.

Lemma frame_get_app_notin x (pre l : frame) :
  ~ In x (map fst pre) -> Frame.get x (pre ++ l)%list = Frame.get x l.
Proof.
  induction pre as [|[y v] pre IH]; intros Hn; [reflexivity|].
  cbn in *. destruct (String.eqb_spec x y) as [->|_].
  - exfalso. apply Hn. now left.
  - apply IH. intros Hin. apply Hn. now right.
Qed.

Lemma eval_kwargs_names (pre f : frame) :
  NoDup (map fst (pre ++ f)%list) ->
  eval_kwargs (pre ++ f)%list (map (fun x => (x, Name x)) (map fst f)) = Ok f.
Proof.
  revert pre. induction f as [|[x v] f IH]; intros pre Hnd; [reflexivity|].
  cbn [map fst eval_kwargs eval].
  assert (Hx : ~ In x (map fst pre)).
  { rewrite map_app in Hnd. cbn in Hnd.
    apply NoDup_remove_2 in Hnd. intros Hin. apply Hnd.
    apply in_or_app. now left. }
  rewrite frame_get_app_notin by exact Hx.
  cbn [Frame.get]. rewrite String.eqb_refl. cbn [bind].
  replace (pre ++ (x, v) :: f)%list with ((pre ++ [(x, v)]) ++ f)%list
    by now rewrite <- app_assoc.
  rewrite IH; [reflexivity|].
  now rewrite <- app_assoc.
Qed.

(** A wrapper that forwards its parameters makes the call with exactly
    the values its parameters are bound to, each under its own name. *)
Lemma forwarding_prepare today t f :
  forwards_parameters t ->
  map fst f = map fst (params t) ->
  NoDup (map fst f) ->
  prepare today t f = Ok (mkCall (ak_function t) [] f).
Proof.
  intros (Hp & Hpos & Hkw) Hnames Hnd.
  unfold prepare, prelude. rewrite Hp, Hpos, Hkw, <- Hnames. cbn [bind eval_args].
  pose proof (eval_kwargs_names [] f Hnd) as E. cbn [app] in E.
  now rewrite E.
Qed.

(** [stock_szse_summary] passes the date it was given. *)
Lemma stock_szse_summary_forwards ak today date :
  invoke ak today Main.stock_szse_summary [("date", date)] =
  Some ([mkCall "stock_szse_summary" [] [("date", date)]],
        answer ak (mkCall "stock_szse_summary" [] [("date", date)])).
Proof.
  unfold invoke. cbn [Frame.bind_arguments params Main.stock_szse_summary
                      Frame.get String.eqb]. cbn.
  rewrite run_cases. reflexivity.
Qed.

(** [stock_notice_report] called without a date passes today's date. *)
Lemma stock_notice_report_defaults_to_today ak today :
  invoke ak today Server.stock_notice_report [] =
  Some ([mkCall "stock_notice_report" []
                [("symbol", PStr [20840; 37096]%N); ("date", PStr today)]],
        answer ak (mkCall "stock_notice_report" []
                     [("symbol", PStr [20840; 37096]%N);
                      ("date", PStr today)])).
Proof. unfold invoke. cbn -[run]. rewrite run_cases. reflexivity. Qed.

(** [stock_hk_daily] reads a name that is bound nowhere: the library is
    never called. *)
Lemma stock_hk_daily_makes_no_call ak today supplied :
  invoke ak today Server.stock_hk_daily supplied =
  Some ([], Ok (error_json (name_error "symbol"))).
Proof. unfold invoke. cbn -[run]. rewrite run_cases. reflexivity. Qed.

(** So does [stock_zh_vote_baidu], which writes [symbo] for [symbol]. *)
Lemma stock_zh_vote_baidu_makes_no_call ak today f :
  run ak today Server.stock_zh_vote_baidu
      (("symbol", PStr (py "000001")) :: ("indicator", PStr f) :: []) =
  ([], Ok (error_json (name_error "symbo"))).
Proof. rewrite run_cases. reflexivity. Qed.

(** [news_report_time_baidu] passes the literal of its default, not its
    parameter. *)
Lemma news_report_time_baidu_passes_literal ak today date :
  fst (run ak today Server.news_report_time_baidu [("date", date)]) =
  [mkCall "news_report_time_baidu" [] [("date", PStr (py "20241107"))]].
Proof. rewrite run_cases. reflexivity. Qed.

(** [stock_zygc_em] passes [symbol] and leaves [date] out. *)
Lemma stock_zygc_em_drops_date ak today symbol date :
  fst (run ak today Server.stock_zygc_em
           [("symbol", symbol); ("date", date)]) =
  [mkCall "stock_zygc_em" [symbol] []].
Proof. rewrite run_cases. reflexivity. Qed.

(** C3.  The code at [stock_hk_hist]: whatever the caller supplies for
    [symbol], [period], [adjust], [start_date] and [end_date], the wrapper
    makes the one call [ak.stock_hk_hist()] with no argument at all, and
    returns the formatted answer to that call. *)
Theorem stock_hk_hist_passes_no_argument ak today supplied :
  exists f,
    Frame.bind_arguments (params Server.stock_hk_hist) supplied = Some f /\
    invoke ak today Server.stock_hk_hist supplied =
    Some ([mkCall "stock_hk_hist" [] []],
          answer ak (mkCall "stock_hk_hist" [] [])).
Proof.
  unfold invoke.
  cbn [params Server.stock_hk_hist str_param Frame.bind_arguments].
  destruct (Frame.get "symbol" supplied), (Frame.get "period" supplied),
    (Frame.get "adjust" supplied), (Frame.get "start_date" supplied),
    (Frame.get "end_date" supplied);
    eexists; (split; [reflexivity|]); rewrite run_cases; reflexivity.
Qed.

(** C4, as stated, fails: a [KeyboardInterrupt] raised while the
    library call waits is not an instance of [Exception]; the handler does
    not catch it and it leaves the wrapper. *)
Lemma keyboard_interrupt_escapes :
  is_Exception interrupted = false /\
  run ak_interrupted (py "20240305") Main.stock_sse_summary [] =
  ([mkCall "stock_sse_summary" [] []], Raise interrupted).
Proof. split; reflexivity. Qed.

(** C4, amended.  For every wrapper, every binding of its parameters and
    every behaviour of the library: an exception [e] whose class derives
    from [Exception], raised while the arguments are evaluated, by the
    library call or by the formatting, is caught, and the wrapper returns
    the serialised dictionary whose only key is ["error"] and whose value
    is [str(e)]; evaluating the arguments raises nothing but [NameError];
    without an exception the wrapper returns the formatter's output; an
    exception whose class does not derive from [Exception]
    ([KeyboardInterrupt], [SystemExit], [GeneratorExit]) is not caught and
    leaves the wrapper. *)
Theorem wrapper_catches_exceptions ak today t f :
  exists trace out,
    run ak today t f = (trace, out) /\
    (forall e, prepare today t f = Raise e ->
               out = Ok (Json.dumps
                           (PDict [(py "error", PStr (exn_str e))]))) /\
    (forall c e, prepare today t f = Ok c -> ak c = Raise e ->
               is_Exception e = true ->
               out = Ok (Json.dumps
                           (PDict [(py "error", PStr (exn_str e))]))) /\
    (forall c df e, prepare today t f = Ok c -> ak c = Ok df ->
               format_dataframe_to_json df default_max_rows = Raise e ->
               is_Exception e = true ->
               out = Ok (Json.dumps
                           (PDict [(py "error", PStr (exn_str e))]))) /\
    (forall c df s, prepare today t f = Ok c -> ak c = Ok df ->
               format_dataframe_to_json df default_max_rows = Ok s ->
               out = Ok s) /\
    (forall c e, prepare today t f = Ok c -> ak c = Raise e ->
               is_Exception e = false ->
               out = Raise e) /\
    (forall c df e, prepare today t f = Ok c -> ak c = Ok df ->
               format_dataframe_to_json df default_max_rows = Raise e ->
               is_Exception e = false ->
               out = Raise e).
Proof.
  rewrite run_cases. unfold answer, handled.
  destruct (prepare_cases today t f)
    as [(f' & _ & Hp & _) | (x & Hp & _)]; rewrite Hp.
  - eexists. eexists. split; [reflexivity|].
    split; [discriminate|].
    split; [intros c' e [= <-] Hak He; now rewrite Hak, He|].
    split; [intros c' df e [= <-] Hak Hfmt He; now rewrite Hak, Hfmt, He|].
    split; [intros c' df s [= <-] Hak Hfmt; now rewrite Hak, Hfmt|].
    split; [intros c' e [= <-] Hak He; now rewrite Hak, He|].
    intros c' df e [= <-] Hak Hfmt He. now rewrite Hak, Hfmt, He.
  - eexists. eexists. split; [reflexivity|].
    split; [now intros e [= <-]|].
    repeat split; discriminate.
Qed.

Lemma wrapper_catches_exceptions_witness :
  snd (run ak_down (py "20240305") Main.stock_sse_summary [])
  = Ok (Json.dumps (PDict [(py "error", PStr (py "timed out"))])) /\
  snd (run ak_twice_a (py "20240305") Main.stock_sse_summary [])
  = Ok (Json.dumps
          (PDict [(py "error",
                   PStr (exn_str Pandas.columns_not_unique))])) /\
  snd (run ak_by_day (py "20240305") Main.stock_sse_summary [])
  = Ok (Json.dumps
          (PDict [(py "error",
                   PStr (exn_str (Pandas.not_serializable "date")))])) /\
  snd (run ak_down (py "20240305") Server.stock_hk_daily [])
  = Ok (Json.dumps
          (PDict [(py "error", PStr (py "name 'symbol' is not defined"))]))
  /\
  snd (run ak_interrupted (py "20240305") Main.stock_sse_summary [])
  = Raise interrupted.
Proof.
  split; [|split; [|split; [|split]]].
  - destruct (wrapper_catches_exceptions ak_down (py "20240305")
                Main.stock_sse_summary [])
      as (trace & out & Hrun & _ & Hcall & _).
    rewrite Hrun.
    apply (Hcall (mkCall "stock_sse_summary" [] []) timed_out);
      reflexivity.
  - destruct (wrapper_catches_exceptions ak_twice_a (py "20240305")
                Main.stock_sse_summary [])
      as (trace & out & Hrun & _ & _ & Hfmt & _).
    rewrite Hrun.
    apply (Hfmt (mkCall "stock_sse_summary" [] []) (Some twice_a)
                Pandas.columns_not_unique);
      reflexivity.
  - destruct (wrapper_catches_exceptions ak_by_day (py "20240305")
                Main.stock_sse_summary [])
      as (trace & out & Hrun & _ & _ & Hfmt & _).
    rewrite Hrun.
    apply (Hfmt (mkCall "stock_sse_summary" [] []) (Some by_day)
                (Pandas.not_serializable "date"));
      reflexivity.
  - destruct (wrapper_catches_exceptions ak_down (py "20240305")
                Server.stock_hk_daily [])
      as (trace & out & Hrun & Hname & _).
    rewrite Hrun.
    apply (Hname (name_error "symbol")). reflexivity.
  - destruct (wrapper_catches_exceptions ak_interrupted (py "20240305")
                Main.stock_sse_summary [])
      as (trace & out & Hrun & _ & _ & _ & _ & Hesc & _).
    rewrite Hrun.
    apply (Hesc (mkCall "stock_sse_summary" [] []) interrupted);
      reflexivity.
Defined.
(** ** The registries: properties *)

Lemma main_tools_checked :
  forallb (fun t => forwardsb t
                    && match positional t with [] => true | _ => false end
                    && String.eqb (ak_function t) (tool_name t))
          MainTools.tools = true.
Proof. vm_compute. reflexivity. Qed.

Lemma server_irregular_checked :
  forallb (fun t => memb (tool_name t) server_irregular || forwardsb t)
          ServerTools.tools = true.
Proof. vm_compute. reflexivity. Qed.

Lemma server_unbound_checked :
  forallb (fun t => Bool.eqb (memb (tool_name t) server_unbound)
                             (negb (reads_only_parameters t)))
          ServerTools.tools = true.
Proof. vm_compute. reflexivity. Qed.

Lemma server_ignored_checked :
  flat_map (fun t => map (pair (tool_name t)) (ignored_parameters t))
           ServerTools.tools = server_ignored.
Proof. vm_compute. reflexivity. Qed.

Lemma server_names_distinct : NoDup (map tool_name ServerTools.tools).
Proof. apply nodupb_NoDup. vm_compute. reflexivity. Qed.

Lemma same_name_same_tool (l : list tool) t t' :
  NoDup (map tool_name l) -> In t l -> In t' l ->
  tool_name t = tool_name t' -> t = t'.
Proof.
  induction l as [|a l IH]; cbn; [tauto|].
  intros Hnd [<-|Hin] [<-|Hin'] Hname; inversion Hnd as [|? ? Ha Hnd']; subst.
  - reflexivity.
  - exfalso. apply Ha. rewrite Hname. now apply in_map.
  - exfalso. apply Ha. rewrite <- Hname. now apply in_map.
  - now apply IH.
Qed.

(** X1.  Every tool that [src/main.py] registers forwards its parameters:
    invoked with arguments that bind them, it makes exactly one call, to
    the library function of its own name, without positional arguments and
    with exactly the bound parameters as keyword arguments; it returns the
    formatted answer to that call, or the error object. *)
Theorem main_tools_forward ak today t supplied f :
  In t MainTools.tools ->
  Frame.bind_arguments (params t) supplied = Some f ->
  exists c,
    invoke ak today t supplied = Some ([c], answer ak c) /\
    callee c = tool_name t /\
    args c = [] /\
    (forall p v, In (p, v) (kwargs c) <-> In (p, v) f).
Proof.
  intros Hin Hb.
  pose proof (forallb_In _ _ _ t main_tools_checked Hin) as Hc.
  apply andb_true_iff in Hc as [Hc Hname].
  apply andb_true_iff in Hc as [Hfw Hpos].
  apply String.eqb_eq in Hname.
  pose proof (bind_arguments_names _ _ _ Hb) as Hnames.
  destruct (forwardsb_sound today t f Hfw Hnames)
    as (c & Hp & Hcal & Hcov & _ & Hkw).
  exists c. unfold invoke. rewrite Hb, run_cases, Hp.
  split; [reflexivity|]. split; [congruence|].
  assert (Hargs : args c = []).
  { destruct (prepare_cases today t f)
      as [(f' & _ & Hc' & _) | (x & Hx & _)]; [|congruence].
    rewrite Hp in Hc'. injection Hc' as ->. cbn.
    destruct (positional t); [reflexivity | discriminate]. }
  split; [exact Hargs|].
  intros p v. split; [apply Hkw|].
  intros Hf. destruct (Hcov p v Hf) as [Ha|Hk]; [|exact Hk].
  rewrite Hargs in Ha. contradiction.
Qed.

Lemma main_tools_forward_witness :
  exists c,
    invoke ak_down (py "20240305") MainTools.stock_zh_a_daily
           [("symbol", PStr (py "sh600000"));
            ("start_date", PStr (py "20240101"));
            ("end_date", PStr (py "20240201"))]
    = Some ([c], answer ak_down c) /\
    callee c = "stock_zh_a_daily" /\
    args c = [] /\
    (forall p v,
       In (p, v) (kwargs c) <->
       In (p, v) [("symbol", PStr (py "sh600000"));
                  ("start_date", PStr (py "20240101"));
                  ("end_date", PStr (py "20240201"));
                  ("adjust", PStr (py ""))]).
Proof.
  apply (main_tools_forward ak_down (py "20240305")
           MainTools.stock_zh_a_daily).
  - apply (find_tool_In "stock_zh_a_daily"). reflexivity.
  - reflexivity.
Defined.

(** X2.  Every tool that [src/server.py] registers, outside the 70 of
    [server_irregular], forwards its parameters: invoked with arguments
    that bind them, it makes exactly one call, every bound value is in that
    call (by position, or as the keyword argument of the parameter's name),
    and the call carries nothing but bound values. *)
Theorem server_tools_forward ak today t supplied f :
  In t ServerTools.tools ->
  ~ In (tool_name t) server_irregular ->
  Frame.bind_arguments (params t) supplied = Some f ->
  exists c,
    invoke ak today t supplied = Some ([c], answer ak c) /\
    callee c = ak_function t /\
    (forall p v, In (p, v) f -> In v (args c) \/ In (p, v) (kwargs c)) /\
    (forall v, In v (args c) -> exists p, In (p, v) f) /\
    (forall k v, In (k, v) (kwargs c) -> In (k, v) f).
Proof.
  intros Hin Hreg Hb.
  pose proof (forallb_In _ _ _ t server_irregular_checked Hin) as Hc.
  apply orb_true_iff in Hc as [Hc|Hfw];
    [apply memb_In in Hc; contradiction|].
  pose proof (bind_arguments_names _ _ _ Hb) as Hnames.
  destruct (forwardsb_sound today t f Hfw Hnames) as (c & Hp & Hrest).
  exists c. unfold invoke. rewrite Hb, run_cases, Hp.
  split; [reflexivity | exact Hrest].
Qed.

Lemma server_tools_forward_witness :
  exists c,
    invoke ak_down (py "20240305") ServerTools.stock_zh_kcb_report_em
           [("to_page", PInt 3)]
    = Some ([c], answer ak_down c) /\
    callee c = "stock_zh_kcb_report_em" /\
    (forall p v, In (p, v) [("from_page", PInt 1); ("to_page", PInt 3)] ->
                 In v (args c) \/ In (p, v) (kwargs c)) /\
    (forall v, In v (args c) ->
               exists p, In (p, v) [("from_page", PInt 1);
                                    ("to_page", PInt 3)]) /\
    (forall k v, In (k, v) (kwargs c) ->
                 In (k, v) [("from_page", PInt 1); ("to_page", PInt 3)]).
Proof.
  apply (server_tools_forward ak_down (py "20240305")
           ServerTools.stock_zh_kcb_report_em).
  - apply (find_tool_In "stock_zh_kcb_report_em"). reflexivity.
  - intros H. apply memb_In in H. vm_compute in H. discriminate H.
  - reflexivity.
Defined.

(** X3.  In [src/server.py], the value of a parameter listed in
    [server_ignored] has no influence on what its tool does: two runs whose
    frames differ in that parameter only make the same calls and return the
    same string. *)
Theorem server_ignored_parameters ak today t p f1 f2 :
  In t ServerTools.tools ->
  In (tool_name t, p) server_ignored ->
  agree_except p f1 f2 ->
  In p (param_names t) /\
  run ak today t f1 = run ak today t f2.
Proof.
  intros Hin Hig Ha. rewrite <- server_ignored_checked in Hig.
  apply in_flat_map in Hig as (t' & Hin' & Hp).
  apply in_map_iff in Hp as (p' & E & Hp). injection E as Hname ->.
  assert (t' = t) as ->
    by (apply (same_name_same_tool ServerTools.tools);
        auto using server_names_distinct).
  unfold ignored_parameters in Hp. apply filter_In in Hp as [Hpar Hn].
  split; [exact Hpar|].
  rewrite !run_cases.
  rewrite (prepare_agree today t p f1 f2); [reflexivity | | exact Ha].
  intros Hu. apply memb_In in Hu. rewrite Hu in Hn. discriminate.
Qed.

Lemma server_ignored_parameters_witness :
  In "date" (param_names ServerTools.stock_zygc_em) /\
  run ak_down (py "20240305") ServerTools.stock_zygc_em
      [("symbol", PStr (py "000001")); ("date", PStr (py "20231231"))]
  = run ak_down (py "20240305") ServerTools.stock_zygc_em
      [("symbol", PStr (py "000001")); ("date", PStr (py "20221231"))].
Proof.
  apply (server_ignored_parameters ak_down (py "20240305")
           ServerTools.stock_zygc_em "date").
  - apply (find_tool_In "stock_zygc_em"). reflexivity.
  - rewrite <- server_ignored_checked. apply in_flat_map.
    exists ServerTools.stock_zygc_em. split.
    + apply (find_tool_In "stock_zygc_em"). reflexivity.
    + cbn. left. reflexivity.
  - intros x Hx. cbn.
    destruct (String.eqb_spec x "symbol"); [reflexivity|].
    destruct (String.eqb_spec x "date"); [contradiction | reflexivity].
Defined.

(** X4.  Every tool of [src/server.py] run with its parameters bound makes
    exactly one call to the library, except the three of [server_unbound]:
    those read a name that is bound nowhere, never reach the library and
    always return the error object of a [NameError]. *)
Theorem server_tools_one_call_or_none ak today t f :
  In t ServerTools.tools ->
  map fst f = param_names t ->
  (In (tool_name t) server_unbound ->
   exists x, ~ In x (param_names t) /\
             run ak today t f = ([], Ok (error_json (name_error x)))) /\
  (~ In (tool_name t) server_unbound ->
   exists c, callee c = ak_function t /\
             run ak today t f = ([c], answer ak c)).
Proof.
  intros Hin Hnames.
  pose proof (forallb_In _ _ _ t server_unbound_checked Hin) as Hc.
  apply eqb_prop in Hc. rewrite run_cases.
  destruct (prepare_cases today t f)
    as [(f' & _ & Hp & Hb) | (x & Hp & Hx & Hn)]; rewrite Hp.
  - assert (Hro : reads_only_parameters t = true).
    { unfold reads_only_parameters. apply forallb_forall. intros x Hx.
      apply memb_In. rewrite <- Hnames.
      destruct (in_dec string_dec x (map fst f)) as [H|H]; [exact H|].
      apply frame_get_None in H. now apply Hb in H. }
    rewrite Hro in Hc. cbn [negb] in Hc. split.
    + intros Hu. apply memb_In in Hu. congruence.
    + intros _. eexists. split; [|reflexivity]. reflexivity.
  - apply frame_get_None in Hn. rewrite Hnames in Hn. split.
    + intros _. exists x. split; [exact Hn | reflexivity].
    + intros Hu. exfalso. apply Hu. apply memb_In. rewrite Hc.
      apply negb_true_iff. apply not_true_is_false. intros Hro.
      apply Hn. apply memb_In.
      exact (forallb_In _ _ _ x Hro Hx).
Qed.

Lemma server_tools_one_call_or_none_witness :
  (exists x, ~ In x (param_names ServerTools.stock_zh_a_disclosure_report_cninfo)
             /\ run ak_down (py "20240305")
                    ServerTools.stock_zh_a_disclosure_report_cninfo
                    [("symbol", PStr (py "000001"));
                     ("market", PStr (py "sz"));
                     ("start_date", PStr (py "20230619"));
                     ("end_date", PStr (py "20231220"))]
                = ([], Ok (error_json (name_error x)))) /\
  (exists c, callee c = "stock_zh_a_tick_tx_js" /\
             run ak_down (py "20240305") ServerTools.stock_zh_a_tick_tx
                 [("symbol", PStr (py "sh600000"))]
             = ([c], answer ak_down c)).
Proof.
  split.
  - apply (server_tools_one_call_or_none ak_down (py "20240305")
             ServerTools.stock_zh_a_disclosure_report_cninfo).
    + apply (find_tool_In "stock_zh_a_disclosure_report_cninfo").
      reflexivity.
    + reflexivity.
    + cbn. tauto.
  - apply (server_tools_one_call_or_none ak_down (py "20240305")
             ServerTools.stock_zh_a_tick_tx).
    + apply (find_tool_In "stock_zh_a_tick_tx"). reflexivity.
    + reflexivity.
    + intros H. apply memb_In in H. vm_compute in H. discriminate H.
Defined.

(** X5.  [src/server.py] registers every tool name of [src/main.py]; for
    all but the 11 names of [main_server_differ] the two wrappers are the
    same (parameters, defaults and call), and for those 11 they are not. *)
Theorem main_tools_in_server t :
  In t MainTools.tools ->
  exists t',
    find_tool (tool_name t) ServerTools.tools = Some t' /\
    (~ In (tool_name t) main_server_differ -> t' = t) /\
    (In (tool_name t) main_server_differ -> t' <> t).
Proof.
  intros Hin. unfold MainTools.tools in Hin. cbn [In] in Hin.
  repeat (destruct Hin as [<- | Hin]); [.. | contradiction];
    (eexists; split; [vm_compute; reflexivity|]; split;
     [ intros Hn; first [ reflexivity
                        | exfalso; apply Hn; apply memb_In; reflexivity ]
     | intros Hd; first [ intros E; vm_compute in E; discriminate E
                        | exfalso; apply memb_In in Hd; vm_compute in Hd;
                          discriminate Hd ] ]).
Qed.

Lemma main_tools_in_server_witness :
  exists t',
    find_tool "stock_hk_daily" ServerTools.tools = Some t' /\
    (~ In "stock_hk_daily" main_server_differ ->
     t' = MainTools.stock_hk_daily) /\
    (In "stock_hk_daily" main_server_differ ->
     t' <> MainTools.stock_hk_daily).
Proof.
  apply (main_tools_in_server MainTools.stock_hk_daily).
  apply (find_tool_In "stock_hk_daily"). reflexivity.
Defined.

(** X6.  [stock_notice_report] of [src/server.py] passes the caller's
    [symbol] and [date] under their names; a [date] that is [None], which
    is its default, is replaced by today's date before the call. *)
Theorem stock_notice_report_date ak today symbol date :
  run ak today Server.stock_notice_report
      [("symbol", symbol); ("date", date)] =
  ([mkCall "stock_notice_report" []
           [("symbol", symbol);
            ("date", match date with PNone => PStr today | _ => date end)]],
   answer ak (mkCall "stock_notice_report" []
                [("symbol", symbol);
                 ("date", match date with
                          | PNone => PStr today
                          | _ => date
                          end)])).
Proof. rewrite run_cases. destruct date; reflexivity. Qed.

(** ** The response formatter: further properties *)

Lemma records_firstn labels rs full k :
  Pandas.records labels rs = Ok full ->
  Pandas.records labels (firstn k rs) = Ok (firstn k full).
Proof.
  revert rs full. induction k as [|k IH]; intros rs full H; [reflexivity|].
  destruct rs as [|row rs]; cbn in H.
  - now injection H as <-.
  - destruct (Pandas.read_row row) as [vs|] eqn:Hrow; [|discriminate].
    cbn in H.
    destruct (Pandas.records labels rs) as [ds|] eqn:Hds; [|discriminate].
    cbn in H. injection H as <-. cbn [firstn Pandas.records].
    rewrite Hrow. cbn [bind]. now rewrite (IH rs ds Hds).
Qed.

(** X7.  In every success response, for every cap, also 0 and negative
    ones: [total_rows] is the length of the data list and at most the row
    count of the input, and [displayed_rows] is at most [total_rows] and at
    most the cap. *)
Theorem response_counts_every_cap df max_rows env :
  response (Some df) max_rows = Ok env ->
  env <> no_data ->
  exists total displayed data,
    field "total_rows" env = Some (PInt total) /\
    field "displayed_rows" env = Some (PInt displayed) /\
    field "data" env = Some (PList data) /\
    Z.of_nat (List.length data) = total /\
    displayed <= total /\
    displayed <= max_rows /\
    0 <= total <= Pandas.len df.
Proof.
  intros Hr Hne.
  destruct (response_shown _ _ _ Hr Hne)
    as (k & data & cols & Hd & _ & _ & _ & _ & _ & ->).
  apply records_length in Hd.
  do 3 eexists. split; [reflexivity|]. split; [reflexivity|].
  split; [reflexivity|]. rewrite Hd.
  split; [reflexivity|]. unfold Pandas.len. rewrite length_firstn. lia.
Qed.

Lemma response_counts_every_cap_witness :
  exists total displayed data,
    field "total_rows" first_two_of_three_negative = Some (PInt total) /\
    field "displayed_rows" first_two_of_three_negative
    = Some (PInt displayed) /\
    field "data" first_two_of_three_negative = Some (PList data) /\
    Z.of_nat (List.length data) = total /\
    displayed <= total /\
    displayed <= -1 /\
    0 <= total <= Pandas.len (quotes 3).
Proof.
  apply (response_counts_every_cap (quotes 3) (-1)).
  - reflexivity.
  - discriminate.
Defined.

(** X8.  In every success response the [truncated] field tells whether
    the input had more rows than the cap. *)
Theorem truncated_field_of_input df max_rows env :
  response (Some df) max_rows = Ok env ->
  env <> no_data ->
  field "truncated" env = Some (PBool (Pandas.len df >? max_rows)).
Proof.
  intros Hr Hne.
  destruct (response_shown _ _ _ Hr Hne)
    as (k & data & cols & _ & _ & _ & _ & _ & _ & ->).
  reflexivity.
Qed.

Lemma truncated_field_of_input_witness :
  field "truncated" all_three
  = Some (PBool (Pandas.len (quotes 3) >? 3)).
Proof.
  apply (truncated_field_of_input (quotes 3) 3).
  - reflexivity.
  - discriminate.
Defined.

(** X9.  The data list of every success response holds the records of a
    prefix of the table's rows, for every cap: rows are dropped from the
    end only, never reordered or changed.  When every row of the table can
    be written, the data list is a prefix of the list of all records. *)
Theorem data_is_prefix_of_rows df max_rows env :
  response (Some df) max_rows = Ok env ->
  env <> no_data ->
  exists data k,
    field "data" env = Some (PList data) /\
    Pandas.records (columns df) (firstn k (rows df)) = Ok data /\
    (forall full,
       Pandas.records (columns df) (rows df) = Ok full ->
       exists rest, full = (data ++ rest)%list).
Proof.
  intros Hr Hne.
  destruct (response_shown _ _ _ Hr Hne)
    as (k & data & cols & Hd & _ & _ & _ & _ & _ & ->).
  exists data, k. split; [reflexivity|]. split; [exact Hd|].
  intros full Hfull.
  rewrite (records_firstn _ _ _ k Hfull) in Hd. injection Hd as <-.
  exists (skipn k full). now rewrite firstn_skipn.
Qed.

Lemma data_is_prefix_of_rows_witness :
  exists data k,
    field "data" first_two_of_three_negative = Some (PList data) /\
    Pandas.records (columns (quotes 3)) (firstn k (rows (quotes 3)))
    = Ok data /\
    (forall full,
       Pandas.records (columns (quotes 3)) (rows (quotes 3)) = Ok full ->
       exists rest, full = (data ++ rest)%list).
Proof.
  apply (data_is_prefix_of_rows (quotes 3) (-1)).
  - reflexivity.
  - discriminate.
Defined.

(** X10.  With a negative cap, a table that is not empty, has distinct
    labels and nothing that [to_json] or [json.dumps] raises on is answered
    with all its rows but the last [-max_rows] (none when it has no more
    than that), [truncated = true], [total_rows] the number of rows kept
    and [displayed_rows] the negative cap itself. *)
Theorem negative_cap_drops_last_rows df max_rows :
  Pandas.empty df = false ->
  Pandas.is_unique (columns df) = true ->
  Pandas.writable df = true ->
  max_rows < 0 ->
  exists data cols,
    Pandas.records (columns df)
                   (firstn (Z.to_nat (Pandas.len df + max_rows)) (rows df))
    = Ok data /\
    map Pandas.label_value (columns df) = map Some cols /\
    response (Some df) max_rows =
    Ok (success data cols true
                (Z.max 0 (Pandas.len df + max_rows)) max_rows).
Proof.
  intros He Hu Hw Hneg.
  pose proof (len_nonneg df) as Hlen.
  destruct (writable_parts df (Z.to_nat (Pandas.len df + max_rows)) Hw)
    as (data & cols & Hd & Hc).
  exists data, cols. split; [exact Hd|].
  split; [now apply tolist_values|].
  rewrite response_exceeds by (auto; lia).
  rewrite to_json_records_unique by exact Hu.
  unfold Pandas.len in *. cbn [Pandas.head columns rows].
  unfold Pandas.slice_to. destruct (Z.ltb_spec max_rows 0); [|lia].
  rewrite Hd, Hc. cbn [bind]. rewrite length_firstn.
  replace (Z.of_nat (Nat.min (Z.to_nat (Z.of_nat (List.length (rows df))
                                        + max_rows))
                             (List.length (rows df))))
    with (Z.max 0 (Z.of_nat (List.length (rows df)) + max_rows)) by lia.
  rewrite Z.min_l by lia. reflexivity.
Qed.

Lemma negative_cap_drops_last_rows_witness :
  exists data cols,
    Pandas.records (columns (quotes 3))
                   (firstn (Z.to_nat (Pandas.len (quotes 3) + -1))
                           (rows (quotes 3)))
    = Ok data /\
    map Pandas.label_value (columns (quotes 3)) = map Some cols /\
    response (Some (quotes 3)) (-1) =
    Ok (success data cols true
                (Z.max 0 (Pandas.len (quotes 3) + -1)) (-1)).
Proof.
  apply (negative_cap_drops_last_rows (quotes 3) (-1)).
  - reflexivity.
  - reflexivity.
  - reflexivity.
  - lia.
Defined.

(** X11.  Formatting what a truncation kept gives the same response but
    for the flag: for a table over a positive cap (not empty, distinct
    labels, nothing that [to_json] or [json.dumps] raises on), the table of
    its first [max_rows] rows gets the same data, columns and counts, with
    [truncated = false]. *)
Theorem truncated_table_formats_alike df max_rows :
  Pandas.empty df = false ->
  Pandas.is_unique (columns df) = true ->
  Pandas.writable df = true ->
  0 < max_rows < Pandas.len df ->
  exists data cols,
    response (Some df) max_rows =
    Ok (success data cols true max_rows max_rows) /\
    response (Some (Pandas.head max_rows df)) max_rows =
    Ok (success data cols false max_rows max_rows).
Proof.
  intros He Hu Hw Hn.
  assert (Hn' : 0 <= max_rows < Pandas.len df) by lia.
  destruct (response_exceeds_nonneg df max_rows He Hu Hw Hn')
    as (data & cols & Hd & Hc & Hr).
  exists data, cols. split; [exact Hr|].
  assert (Hl : Pandas.len (Pandas.head max_rows df) = max_rows)
    by (apply len_head_below; lia).
  assert (He' : Pandas.empty (Pandas.head max_rows df) = false).
  { unfold Pandas.empty in *. unfold Pandas.len in Hl.
    cbn [Pandas.head columns] in *.
    apply orb_false_iff in He as [_ Hcol]. rewrite Hcol.
    destruct (rows (Pandas.head max_rows df)); [cbn in Hl; lia|].
    reflexivity. }
  rewrite response_fits by (auto; lia).
  rewrite to_json_records_unique by exact Hu.
  rewrite Hl. cbn [Pandas.head columns rows].
  rewrite slice_to_nonneg by lia. now rewrite Hd, Hc.
Qed.

Lemma truncated_table_formats_alike_witness :
  exists data cols,
    response (Some (quotes 3)) 2 =
    Ok (success data cols true 2 2) /\
    response (Some (Pandas.head 2 (quotes 3))) 2 =
    Ok (success data cols false 2 2).
Proof.
  apply (truncated_table_formats_alike (quotes 3) 2).
  - reflexivity.
  - reflexivity.
  - reflexivity.
  - rewrite quotes_len. lia.
Defined.
(** ** Tool wrappers: further properties *)

Lemma all_printable_app a b :
  all_printable (a ++ b) = all_printable a && all_printable b.
Proof.
  induction a as [|c a IH]; cbn; [reflexivity|].
  now rewrite IH, andb_assoc.
Qed.

Lemma hex_digit_printable k :
  (k < 16)%N -> printable (Json.hex_digit k) = true.
Proof.
  intros Hk. unfold Json.hex_digit.
  assert (Hm : (N.to_nat k < 16)%nat) by lia.
  destruct (N.to_nat k) as [|m]; [reflexivity|].
  do 15 (destruct m as [|m]; [reflexivity|]). lia.
Qed.

Lemma land_15_lt n : (N.land n 15 < 16)%N.
Proof.
  change 15%N with (N.ones 4). rewrite N.land_ones.
  apply N.mod_lt. discriminate.
Qed.

Lemma u_escape_printable n : all_printable (Json.u_escape n) = true.
Proof.
  unfold Json.u_escape. cbn [all_printable].
  rewrite !hex_digit_printable by apply land_15_lt. reflexivity.
Qed.

Lemma escape_char_printable n : all_printable (Json.escape_char n) = true.
Proof.
  unfold Json.escape_char.
  repeat match goal with
         | |- context [if N.eqb n ?c then _ else _] =>
             destruct (N.eqb n c); [reflexivity|]
         end.
  destruct (N.leb 32 n && N.leb n 126) eqn:Hr.
  - apply andb_true_iff in Hr as [H1 H2].
    cbn [all_printable]. unfold printable.
    apply N.leb_le in H1. apply N.leb_le in H2.
    rewrite N_ascii_embedding by lia.
    rewrite (proj2 (N.leb_le _ _) H1), (proj2 (N.leb_le _ _) H2).
    reflexivity.
  - destruct (N.ltb n 65536); [apply u_escape_printable|].
    cbv zeta. now rewrite all_printable_app, !u_escape_printable.
Qed.

Lemma concat_printable (l : list string) :
  forallb all_printable l = true -> all_printable (concat "" l) = true.
Proof.
  induction l as [|x l IH]; intros H; [reflexivity|].
  cbn [forallb] in H. apply andb_true_iff in H as [Hx Hl].
  destruct l as [|y l]; [exact Hx|].
  change (concat "" (x :: y :: l)) with (x ++ "" ++ concat "" (y :: l)).
  rewrite !all_printable_app, Hx, (IH Hl). reflexivity.
Qed.

Lemma encode_basestring_ascii_printable s :
  all_printable (Json.encode_basestring_ascii s) = true.
Proof.
  unfold Json.encode_basestring_ascii. cbn [all_printable append].
  rewrite all_printable_app, concat_printable; [reflexivity|].
  apply forallb_forall. intros x Hx.
  apply in_map_iff in Hx as (n & <- & _). apply escape_char_printable.
Qed.

(** X13.  The error object of a wrapper is printable ASCII whatever the
    message of the exception: every character of the returned text lies
    between [' '] and ['~'], code points outside being written as [\u]
    escapes. *)
Theorem error_json_printable e : all_printable (error_json e) = true.
Proof.
  unfold error_json. cbn [Json.dumps map fst snd].
  change (concat ", " [Json.encode_basestring_ascii (py "error") ++ ": "
                       ++ Json.encode_basestring_ascii (exn_str e)])
    with (Json.encode_basestring_ascii (py "error") ++ ": "
          ++ Json.encode_basestring_ascii (exn_str e)).
  rewrite !all_printable_app, !encode_basestring_ascii_printable.
  reflexivity.
Qed.

(** X14.  No wrapper returns more than 50 rows: when the library answers
    a call with a table that is not empty, has distinct labels and nothing
    that [to_json] or [json.dumps] raises on, the wrapper returns the
    success response whose data are the first 50 rows of that table (all
    of them when there are no more), with both counts equal to the number
    of rows returned. *)
Theorem wrapper_returns_at_most_50_rows ak today t f c d :
  prepare today t f = Ok c ->
  ak c = Ok (Some d) ->
  Pandas.empty d = false ->
  Pandas.is_unique (columns d) = true ->
  Pandas.writable d = true ->
  exists data cols n,
    run ak today t f =
    ([c], Ok (Json.dumps (success data cols (Pandas.len d >? 50) n n))) /\
    Pandas.records (columns d) (firstn 50 (rows d)) = Ok data /\
    map Pandas.label_value (columns d) = map Some cols /\
    Z.of_nat (List.length data) = n /\
    n <= 50.
Proof.
  intros Hp Hak He Hu Hw. rewrite run_cases, Hp. unfold answer. rewrite Hak.
  rewrite format_dataframe_to_json_response. unfold default_max_rows.
  destruct (Z.gtb_spec (Pandas.len d) 50) as [Hgt|Hle].
  - assert (Hn : 0 <= 50 < Pandas.len d) by lia.
    destruct (response_exceeds_nonneg d 50 He Hu Hw Hn)
      as (data & cols & Hd & Hc & Hr).
    rewrite Hr. cbn [bind]. exists data, cols, 50.
    split; [reflexivity|]. split; [exact Hd|].
    split; [now apply tolist_values|].
    apply records_length in Hd. rewrite Hd, length_firstn.
    unfold Pandas.len in Hgt. split; lia.
  - destruct (writable_parts d 50 Hw) as (data & cols & Hd & Hc).
    rewrite response_fits by assumption.
    rewrite to_json_records_unique by exact Hu.
    unfold Pandas.len in *.
    rewrite (firstn_all2 (n := 50) (rows d)) in Hd by lia.
    rewrite Hd, Hc. cbn [bind]. exists data, cols. eexists.
    split; [reflexivity|].
    rewrite (firstn_all2 (n := 50) (rows d)) by lia.
    split; [exact Hd|]. split; [now apply tolist_values|].
    apply records_length in Hd. rewrite Hd. split; lia.
Qed.

Lemma wrapper_returns_at_most_50_rows_witness :
  exists data cols n,
    run (ak_quotes 120) (py "20240305") Main.stock_sse_summary [] =
    ([mkCall "stock_sse_summary" [] []],
     Ok (Json.dumps (success data cols
                             (Pandas.len (quotes 120) >? 50) n n))) /\
    Pandas.records (columns (quotes 120)) (firstn 50 (rows (quotes 120)))
    = Ok data /\
    map Pandas.label_value (columns (quotes 120)) = map Some cols /\
    Z.of_nat (List.length data) = n /\
    n <= 50.
Proof.
  apply (wrapper_returns_at_most_50_rows (ak_quotes 120) (py "20240305")
           Main.stock_sse_summary [] (mkCall "stock_sse_summary" [] [])
           (quotes 120)); reflexivity.
Defined.

(** X15.  When the library answers a wrapper's call with [None] or with
    an empty table, the wrapper returns the text
    [{"error": "No data available"}], after that one call. *)
Theorem wrapper_no_data ak today t f c :
  prepare today t f = Ok c ->
  (ak c = Ok None \/
   exists d, ak c = Ok (Some d) /\ Pandas.empty d = true) ->
  run ak today t f = ([c], Ok no_data_text).
Proof.
  intros Hp Hak. rewrite run_cases, Hp. unfold answer.
  destruct Hak as [-> | (d & -> & He)]; [reflexivity|].
  unfold format_dataframe_to_json. now rewrite He.
Qed.

Lemma wrapper_no_data_witness :
  run (ak_quotes 0) (py "20240305") Main.stock_sse_summary [] =
  ([mkCall "stock_sse_summary" [] []], Ok no_data_text).
Proof.
  apply (wrapper_no_data (ak_quotes 0) (py "20240305")
           Main.stock_sse_summary []).
  - reflexivity.
  - right. exists (quotes 0). split; reflexivity.
Defined.
